(** * jasp: the directory-state controller of a queued VASP calculation

    A shallow embedding of [src/jasp/jasp.py] (the validator
    [calculation_is_ok], the controller [Jasp], the context manager
    [jasp], the test [isavaspdir]) and of [src/jasp/elastic_moduli.py]
    ([get_elastic_moduli]), with the properties of the lifecycle
    specification stated over it, and further properties of the code.

    The program is Python 2.  Its state is the process' working
    directory, the files of the directories, the batch queue, and the
    Python objects (calculators, atoms, parameter dictionaries) that are
    shared by reference.  All of it is threaded explicitly through a
    state-and-exception monad [M]. *)

From Stdlib Require Import ZArith Lia Ascii String.
From Stdlib Require QArith.
From stdpp Require Import gmap strings list fin_maps.


(** ** Python strings *)

Module Py.

Definition nl : string := String (Ascii.ascii_of_nat 10) "".

(** [sub in s] *)
Fixpoint contains (sub s : string) : bool :=
  if String.prefix sub s then true
  else match s with
       | "" => false
       | String _ s' => contains sub s'
       end.

(** [s.startswith(p)] *)
Definition startswith (s p : string) : bool := String.prefix p s.

(** [''.join(l)] *)
Definition join (l : list string) : string := foldr String.append "" l.

(** [c * n] for a one-character string [c] *)
Fixpoint times (c : string) (n : nat) : string :=
  match n with
  | O => ""
  | S n' => c +:+ times c n'
  end.

(** [f.readlines()] on the content of a file: the lines, each with its
    terminating newline (the last one has none when the file does not
    end in a newline). [cur] is the line read so far, reversed. *)
Fixpoint readlines_go (cur : string) (s : string) : list string :=
  match s with
  | "" => match cur with "" => [] | _ => [String.rev cur] end
  | String a s' =>
      if Ascii.eqb a (Ascii.ascii_of_nat 10)
      then String.rev (String a cur) :: readlines_go "" s'
      else readlines_go (String a cur) s'
  end.
Definition readlines (s : string) : list string := readlines_go "" s.

(** [f.readline()] on a freshly opened file: the first line, or the
    empty string at end of file. *)
Definition readline (s : string) : string :=
  match readlines s with
  | [] => ""
  | l :: _ => l
  end.

(** [s.split('.')[0]]: the part of [s] before its first dot (all of
    [s] when it has none; never an IndexError, [split] with a separator
    returns at least one item). *)
Fixpoint before_dot (s : string) : string :=
  match s with
  | "" => ""
  | String a s' =>
      if Ascii.eqb a "."%char then "" else String a (before_dot s')
  end.

(** [l[-n:]] *)
Definition lastn {A} (n : nat) (l : list A) : list A :=
  drop (length l - n) l.

(** [l[i:j]] for non-negative [i], [j]: slices never raise, they clamp. *)
Definition slice {A} (i j : nat) (l : list A) : list A :=
  take (j - i) (drop i l).

(** [s.split()]: the maximal runs of non-whitespace characters. *)
Definition split (s : string) : list string := String.words s.

(** [l[i]] for an integer [i]: negative indices count from the end;
    [None] stands for IndexError. *)
Definition index {A} (l : list A) (i : Z) : option A :=
  if (0 <=? i)%Z then l !! Z.to_nat i
  else if (- Z.of_nat (length l) <=? i)%Z
       then l !! Z.to_nat (Z.of_nat (length l) + i)
       else None.

(** [range(n)] (a list, in Python 2) *)
Definition range (n : nat) : list Z := map Z.of_nat (seq 0 n).

(** [int(s)] for a string without surrounding blanks: an optional sign
    and at least one decimal digit; [None] stands for ValueError. *)
Fixpoint digits_go (s : string) (acc : Z) : option Z :=
  match s with
  | "" => Some acc
  | String a s' =>
      match Ascii.is_nat a with
      | Some d => digits_go s' (10 * acc + Z.of_nat d)%Z
      | None => None
      end
  end.
Definition digits (s : string) : option Z :=
  match s with
  | "" => None
  | _ => digits_go s 0%Z
  end.
Definition int (s : string) : option Z :=
  match s with
  | String "-" s' => Z.opp <$> digits s'
  | String "+" s' => digits s'
  | _ => digits s
  end.

End Py.

(** ** Exceptions *)

Inductive exn :=
| VaspNotFinished (msg : string)
| VaspUnknownState (msg : string)
| UnboundLocalError (var : string)      (* a NameError *)
| IOError (file : string)               (* open() of a missing file *)
| OSError (file : string)               (* os.unlink / os.chdir of a missing path *)
| IndexError
| ValueError (what : string)
| TypeError (what : string)
| AttributeError (what : string)
| Failure (what : string).              (* raised by a collaborator or hook *)

Global Instance exn_eq_dec : EqDecision exn.
Proof. solve_decision. Defined.

Inductive Res (A : Type) :=
| Ok (a : A)
| Raise (e : exn).
Arguments Ok {A} a.
Arguments Raise {A} e.


(** ** Python objects *)

Definition loc := nat.

(** Values of the calculator's parameter dictionaries and of keyword
    arguments. *)
Inductive Val :=
| VNone
| VInt (z : Z)
| VBool (b : bool)
| VStr (s : string).

Global Instance Val_eq_dec : EqDecision Val.
Proof. solve_decision. Defined.

Definition kwargs_t := list (string * Val).

(** [key in kwargs] *)
Definition has_key (key : string) (kw : kwargs_t) : bool :=
  existsb (fun kv => String.eqb (fst kv) key) kw.

(** The eight parameter dictionaries of a calculator that [Jasp]
    snapshots (lines 351-358), in the order of the source. *)
Inductive group :=
| float_params | exp_params | string_params | int_params
| input_params | bool_params | list_params | dict_params.

Global Instance group_eq_dec : EqDecision group.
Proof. solve_decision. Defined.

Definition groups : list group :=
  [float_params; exp_params; string_params; int_params;
   input_params; bool_params; list_params; dict_params].

(** Post-run hooks are user functions; the model names them. *)
Definition hook := nat.

(** A [Vasp] calculator object.  An attribute that a calculator may lack
    ([hasattr] false) is an [option].  The dictionaries are references
    into the store: [calc.float_params] and a [.copy()] of it are two
    objects. *)
Module Calc.
Record t := mk {
  params : group -> loc;
  old_params : group -> option loc;
  sort : option (list Z);
  resort : option (list Z);
  atoms : option loc;
  keep_chgcar : option bool;
  keep_wavecar : option bool;
  converged : option bool;
  vasp_queued : bool;
  vasp_running : bool;
  post_run_hooks : option (list hook);
  neb : bool;
  vaspdir : option string;
  cwd : option string;
}.

Definition set_old_params (g : group) (l : loc) (c : t) : t :=
  mk (params c)
     (fun g' => if decide (g' = g) then Some l else old_params c g')
     (sort c) (resort c) (atoms c) (keep_chgcar c) (keep_wavecar c)
     (converged c) (vasp_queued c) (vasp_running c) (post_run_hooks c)
     (neb c) (vaspdir c) (cwd c).
Definition set_sort (v : list Z) (c : t) : t :=
  mk (params c) (old_params c) (Some v) (resort c) (atoms c)
     (keep_chgcar c) (keep_wavecar c) (converged c) (vasp_queued c)
     (vasp_running c) (post_run_hooks c) (neb c) (vaspdir c) (cwd c).
Definition set_resort (v : list Z) (c : t) : t :=
  mk (params c) (old_params c) (sort c) (Some v) (atoms c)
     (keep_chgcar c) (keep_wavecar c) (converged c) (vasp_queued c)
     (vasp_running c) (post_run_hooks c) (neb c) (vaspdir c) (cwd c).
Definition set_atoms (a : loc) (c : t) : t :=
  mk (params c) (old_params c) (sort c) (resort c) (Some a)
     (keep_chgcar c) (keep_wavecar c) (converged c) (vasp_queued c)
     (vasp_running c) (post_run_hooks c) (neb c) (vaspdir c) (cwd c).
Definition set_keep_chgcar (b : bool) (c : t) : t :=
  mk (params c) (old_params c) (sort c) (resort c) (atoms c)
     (Some b) (keep_wavecar c) (converged c) (vasp_queued c)
     (vasp_running c) (post_run_hooks c) (neb c) (vaspdir c) (cwd c).
Definition set_keep_wavecar (b : bool) (c : t) : t :=
  mk (params c) (old_params c) (sort c) (resort c) (atoms c)
     (keep_chgcar c) (Some b) (converged c) (vasp_queued c)
     (vasp_running c) (post_run_hooks c) (neb c) (vaspdir c) (cwd c).
Definition set_converged (b : bool) (c : t) : t :=
  mk (params c) (old_params c) (sort c) (resort c) (atoms c)
     (keep_chgcar c) (keep_wavecar c) (Some b) (vasp_queued c)
     (vasp_running c) (post_run_hooks c) (neb c) (vaspdir c) (cwd c).
Definition set_vasp_queued (b : bool) (c : t) : t :=
  mk (params c) (old_params c) (sort c) (resort c) (atoms c)
     (keep_chgcar c) (keep_wavecar c) (converged c) b
     (vasp_running c) (post_run_hooks c) (neb c) (vaspdir c) (cwd c).
Definition set_vasp_running (b : bool) (c : t) : t :=
  mk (params c) (old_params c) (sort c) (resort c) (atoms c)
     (keep_chgcar c) (keep_wavecar c) (converged c) (vasp_queued c)
     b (post_run_hooks c) (neb c) (vaspdir c) (cwd c).
Definition set_dirs (vd cw : string) (c : t) : t :=
  mk (params c) (old_params c) (sort c) (resort c) (atoms c)
     (keep_chgcar c) (keep_wavecar c) (converged c) (vasp_queued c)
     (vasp_running c) (post_run_hooks c) (neb c) (Some vd) (Some cw).
End Calc.

(** An [ase.Atoms] object: as far as the controller is concerned, a cell,
    one position per atom, and the calculator attached to it.  The
    coordinates are opaque to the controller; integers stand for them. *)
Module Atoms.
Record t := mk {
  cell : list Z;
  positions : list Z;
  calc : option loc;
}.
End Atoms.

(** ** The world *)

Inductive event :=
| EvLog (msg : string)            (* log.debug(msg) *)
| EvExists (file : string)        (* os.path.exists / os.path.isfile *)
| EvOpen (file : string)          (* open(file) for reading *)
| EvUnlink (file : string)        (* os.unlink(file) *)
| EvListdir                       (* os.listdir('.') *)
| EvQueue                         (* job_in_queue(None) *)
| EvChdir (dir : string)          (* os.chdir(dir) *)
| EvMakedirs (dir : string)       (* os.makedirs(dir) *)
| EvHook (h : hook) (calc : loc). (* hook(calc) *)

Global Instance event_eq_dec : EqDecision event.
Proof. solve_decision. Defined.

(** The operating system: the working directory of the process, the
    directories (by absolute, normalised path) with their files (by name,
    with their content), and what the batch queue answers for the job of
    the working directory. *)
Record Sys := mkSys {
  cwd : string;
  dirs : gmap string (gmap string string);
  in_queue : bool;
}.

(** The store of Python objects. *)
Record Heap := mkHeap {
  dicts : gmap loc (gmap string Val);
  calcs : gmap loc Calc.t;
  atomss : gmap loc Atoms.t;
}.

Record World := mkWorld {
  sys : Sys;
  heap : Heap;
}.

(** The files of the working directory. *)
Definition files (s : Sys) : gmap string string :=
  default ∅ (dirs s !! cwd s).

Definition set_files (fs : gmap string string) (s : Sys) : Sys :=
  mkSys (cwd s) (<[cwd s := fs]> (dirs s)) (in_queue s).

Definition with_sys (f : Sys -> Sys) (w : World) : World :=
  mkWorld (f (sys w)) (heap w).

Definition with_heap (f : Heap -> Heap) (w : World) : World :=
  mkWorld (sys w) (f (heap w)).

(** The content of a file of the working directory, if it is there. *)
Definition file (w : World) (f : string) : option string :=
  files (sys w) !! f.

Definition present (w : World) (f : string) : bool :=
  bool_decide (is_Some (file w f)).

(** The world with file [f] of the working directory removed. *)
Definition without (f : string) (w : World) : World :=
  with_sys (fun s => set_files (delete f (files s)) s) w.

(** The world with content [c] for file [f] of the working directory. *)
Definition put_file (f c : string) (w : World) : World :=
  with_sys (fun s => set_files (<[f := c]> (files s)) s) w.

(** ** The monad: state, exceptions, and the log of what was done *)

Record Out (A : Type) := mkOut {
  res : Res A;               (* the value returned or the exception raised *)
  final : World;             (* the world it leaves *)
  events : list event;       (* what it did, oldest first *)
}.
Arguments mkOut {A} res final events.
Arguments res {A} o.
Arguments final {A} o.
Arguments events {A} o.

Definition M (A : Type) : Type := World -> Out A.

Definition ret {A} (a : A) : M A := fun w => mkOut (Ok a) w [].

Definition raise {A} (e : exn) : M A := fun w => mkOut (Raise e) w [].

(** What [o] did, after [ev]. *)
Definition prepend {A} (ev : list event) (o : Out A) : Out A :=
  mkOut (res o) (final o) (ev ++ events o).

Definition bind {A B} (m : M A) (k : A -> M B) : M B :=
  fun w =>
    match m w with
    | mkOut (Ok a) w' ev => prepend ev (k a w')
    | mkOut (Raise e) w' ev => mkOut (Raise e) w' ev
    end.

Notation "x <- m ;; k" := (bind m (fun x => k))
  (at level 100, m at next level, right associativity).
Notation "m ;; k" := (bind m (fun _ => k))
  (at level 100, right associativity).

(** [try: m except: h] with a bare [except]: what [m] did stays done. *)
Definition try_except {A} (m : M A) (h : M A) : M A :=
  fun w =>
    match m w with
    | mkOut (Ok a) w' ev => mkOut (Ok a) w' ev
    | mkOut (Raise _) w' ev => prepend ev (h w')
    end.

(** [try: m except IOError: pass] *)
Definition except_IOError_pass (m : M unit) : M unit :=
  fun w =>
    match m w with
    | mkOut (Raise (IOError _)) w' ev => mkOut (Ok tt) w' ev
    | o => o
    end.

(** [for x in l: body x], threading the loop-carried variable. *)
Fixpoint for_each {A S} (l : list A) (body : A -> S -> M S) (s : S) : M S :=
  match l with
  | [] => ret s
  | x :: l' => s' <- body x s ;; for_each l' body s'
  end.

Definition when (b : bool) (m : M unit) : M unit :=
  if b then m else ret tt.

(** [a and b], [not a] on conditions with effects: [b] is evaluated only
    when [a] is true. *)
Definition and_then (a b : M bool) : M bool :=
  x <- a ;; if x then b else ret false.
Definition not_ (a : M bool) : M bool :=
  x <- a ;; ret (negb x).
Infix "&&&" := and_then (at level 40, left associativity).

Definition tell (e : event) : M unit := fun w => mkOut (Ok tt) w [e].

Definition log_debug (msg : string) : M unit := tell (EvLog msg).

(** [None] as an exception: an attribute that is missing, an index out of
    range, a local variable that was never assigned. *)
Definition require {A} (o : option A) (e : exn) : M A :=
  match o with
  | Some a => ret a
  | None => raise e
  end.

(** ** Files *)

(** [os.path.exists(f)] and [os.path.isfile(f)] for a name in the working
    directory (the model has plain files only). *)
Definition path_exists (f : string) : M bool :=
  fun w => mkOut (Ok (present w f)) w [EvExists f].

Definition path_isfile (f : string) : M bool := path_exists f.

(** [with open(f) as h: h.read()] *)
Definition read_file (f : string) : M string :=
  fun w => mkOut (match file w f with
                  | Some c => Ok c
                  | None => Raise (IOError f)
                  end) w [EvOpen f].

(** [os.unlink(f)] *)
Definition unlink (f : string) : M unit :=
  fun w => match file w f with
           | Some _ => mkOut (Ok tt) (without f w) [EvUnlink f]
           | None => mkOut (Raise (OSError f)) w [EvUnlink f]
           end.

(** [os.listdir('.')]; Python promises no order, the model lists the
    names in the order of the set. *)
Definition listdir : M (list string) :=
  fun w => mkOut (Ok (elements (dom (files (sys w))))) w [EvListdir].

(** [os.getcwd()] *)
Definition getcwd : M string := fun w => mkOut (Ok (cwd (sys w))) w [].

(** [os.path.isdir(d)], [os.makedirs(d)], [os.chdir(d)].  The string
    [d] is the key of the directory: the three definitions are those of
    Python for an absolute, normalised path only ([normalised] below: no
    [.], no [..], no doubled or final slash).  A relative path, which
    Python resolves from the working directory, and a path with dots,
    which names a directory under another key, are outside of them, and
    so is a path that names a plain file.  Intermediate directories hold
    no files and are not tracked. *)
Definition path_isdir (d : string) : M bool :=
  fun w => mkOut (Ok (bool_decide (is_Some (dirs (sys w) !! d)))) w [].

Definition makedirs (d : string) : M unit :=
  fun w => match dirs (sys w) !! d with
           | Some _ => mkOut (Raise (OSError d)) w [EvMakedirs d]
           | None =>
               mkOut (Ok tt)
                     (with_sys (fun s => mkSys (cwd s) (<[d := ∅]> (dirs s))
                                               (in_queue s)) w)
                     [EvMakedirs d]
           end.

Definition chdir (d : string) : M unit :=
  fun w => match dirs (sys w) !! d with
           | Some _ =>
               mkOut (Ok tt)
                     (with_sys (fun s => mkSys d (dirs s) (in_queue s)) w)
                     [EvChdir d]
           | None => mkOut (Raise (OSError d)) w [EvChdir d]
           end.

(** [os.path.expanduser(p)] changes only a path that starts with a
    tilde: the identity is exact for every other path, among them the
    absolute ones, and for no path that starts with a tilde. *)
Definition expanduser (p : string) : string := p.

(** [job_in_queue(None)] is defined outside this file (the queue
    extension of the calculator); the world holds its answer. *)
Definition job_in_queue : M bool :=
  fun w => mkOut (Ok (in_queue (sys w))) w [EvQueue].

(** ** The validator: [calculation_is_ok] (jasp.py, lines 58-94) *)

Definition rule : string := Py.times "=" 66.

Definition marker : string := "Voluntary context switches".

Definition msg_empty_contcar : string :=
  "CONTCAR appears empty. It has been deleted. Please run your script again".

(** Lines 66-76: the captured output of the queue for job [jobid], when a
    file of the directory has [o<jobid>] in its name. *)
Definition job_output_step (j f : string) (output : list string)
    : M (list string) :=
  if Py.contains ("o" +:+ j) f then
    c <- read_file f ;;
    ret (["joboutput file: " +:+ j;
          Py.nl +:+ rule +:+ Py.nl;
          f +:+ ":" +:+ Py.nl]
         ++ Py.readlines c
         ++ [rule; Py.nl])
  else ret output.

Definition job_output (jobid : option string) : M (list string) :=
  match jobid with
  | None => ret [Py.nl]
  | Some j =>
      fs <- listdir ;;
      for_each fs (job_output_step j) [Py.nl]
  end.

(** Lines 90-93: the message of the exception. *)
Definition not_finished_message (output lines : list string) : string :=
  Py.join (output ++ ["Last 20 lines of OUTCAR:" +:+ Py.nl]
                  ++ Py.lastn 20 lines ++ [rule]).

Definition calculation_is_ok (jobid : option string) : M bool :=
  output <- job_output jobid ;;
  content <- read_file "CONTCAR" ;;
  if negb (0 <? String.length content)%nat then
    unlink "CONTCAR" ;;
    unlink "jobid" ;;
    raise (VaspNotFinished msg_empty_contcar)
  else
    c <- read_file "OUTCAR" ;;
    let lines := Py.readlines c in
    l <- require (last lines) IndexError ;;       (* lines[-1] *)
    if negb (Py.contains marker l) then
      raise (VaspNotFinished (not_finished_message output lines))
    else ret true.

(** ** Objects in the store *)

Definition dangling : exn := Failure "dangling reference".

Definition get_calc (c : loc) : M Calc.t :=
  fun w => mkOut (match calcs (heap w) !! c with
                  | Some v => Ok v
                  | None => Raise dangling
                  end) w [].

(** An attribute assignment [calc.x = v]. *)
Definition update_calc (c : loc) (f : Calc.t -> Calc.t) : M unit :=
  fun w => match calcs (heap w) !! c with
           | Some v =>
               mkOut (Ok tt)
                     (with_heap (fun h => mkHeap (dicts h)
                                                 (<[c := f v]> (calcs h))
                                                 (atomss h)) w) []
           | None => mkOut (Raise dangling) w []
           end.

Definition get_atoms (a : loc) : M Atoms.t :=
  fun w => mkOut (match atomss (heap w) !! a with
                  | Some v => Ok v
                  | None => Raise dangling
                  end) w [].

Definition update_atoms (a : loc) (f : Atoms.t -> Atoms.t) : M unit :=
  fun w => match atomss (heap w) !! a with
           | Some v =>
               mkOut (Ok tt)
                     (with_heap (fun h => mkHeap (dicts h) (calcs h)
                                                 (<[a := f v]> (atomss h))) w) []
           | None => mkOut (Raise dangling) w []
           end.

Definition new_atoms (v : Atoms.t) : M loc :=
  fun w => let a := fresh (dom (atomss (heap w))) in
           mkOut (Ok a)
                 (with_heap (fun h => mkHeap (dicts h) (calcs h)
                                             (<[a := v]> (atomss h))) w) [].

(** [d.copy()] of a dictionary: a new object with the same items. *)
Definition dict_copy (d : loc) : M loc :=
  fun w => match dicts (heap w) !! d with
           | Some v =>
               let l := fresh (dom (dicts (heap w))) in
               mkOut (Ok l)
                     (with_heap (fun h => mkHeap (<[l := v]> (dicts h))
                                                 (calcs h) (atomss h)) w) []
           | None => mkOut (Raise dangling) w []
           end.

(** [calc.<g>.get(key, None)] *)
Definition params_get (c : loc) (g : group) (key : string) : M Val :=
  v <- get_calc c ;;
  fun w => mkOut (match dicts (heap w) !! Calc.params v g with
                  | Some d => Ok (default VNone (d !! key))
                  | None => Raise dangling
                  end) w [].

(** [calc.int_params.get('images', None) is not None] *)
Definition has_images (c : loc) : M bool :=
  v <- params_get c int_params "images" ;;
  ret (negb (bool_decide (v = VNone))).

(** [atoms.calc = calc] and [atoms.set_calculator(calc)] *)
Definition set_calculator (a c : loc) : M unit :=
  update_atoms a (fun v => Atoms.mk (Atoms.cell v) (Atoms.positions v) (Some c)).

(** [len(atoms)] for the keyword argument [atoms], which may be [None]. *)
Definition len_atoms (atoms : option loc) : M nat :=
  match atoms with
  | None => raise (TypeError "object of type 'NoneType' has no len()")
  | Some a => v <- get_atoms a ;; ret (length (Atoms.positions v))
  end.

(** [patoms[resort]]: a new Atoms object with the atoms picked by the
    list of indices. *)
Definition atoms_getitem (a : loc) (idx : list Z) : M loc :=
  v <- get_atoms a ;;
  ps <- require (mapM (Py.index (Atoms.positions v)) idx) IndexError ;;
  new_atoms (Atoms.mk (Atoms.cell v) ps None).

(** [patoms.copy()]: the copy has no calculator. *)
Definition atoms_copy (a : loc) : M loc :=
  v <- get_atoms a ;;
  new_atoms (Atoms.mk (Atoms.cell v) (Atoms.positions v) None).

(** [atoms.set_cell(calc.atoms.get_cell())],
    [atoms.set_positions(calc.atoms.get_positions())], [atoms.calc = calc]
    (lines 308-310 and 339-341). *)
Definition update_atoms_from (a c : loc) : M unit :=
  v <- get_calc c ;;
  ca <- require (Calc.atoms v)
                (AttributeError "'NoneType' object has no attribute 'get_cell'") ;;
  src <- get_atoms ca ;;
  update_atoms a (fun x => Atoms.mk (Atoms.cell src) (Atoms.positions x) (Atoms.calc x)) ;;
  src' <- get_atoms ca ;;
  update_atoms a (fun x => Atoms.mk (Atoms.cell x) (Atoms.positions src') (Atoms.calc x)) ;;
  set_calculator a c.

(** ** Collaborators

    Code that the controller calls and that lives elsewhere: the [Vasp]
    class of ASE with the methods jasp adds to it, the NEB module, the
    readers of the file formats, and the hooks of the user.  They are
    arbitrary functions of the world; the readers and constructors get
    the files read-only and may change any object, the others may also
    change the files. None of them writes the controller's log. *)

Definition reader (A : Type) : Type := Sys -> Heap -> Res A * Heap.
Definition action (A : Type) : Type := World -> Res A * World.

Class Collaborators := {
  (** [Vasp(restart, output_template, track_output)] *)
  Vasp : option bool -> string -> bool -> reader loc;
  (** [calc.read_incar()], [calc.read_potcar()], [calc.read_kpoints()],
      [calc.read_metadata()] *)
  read_incar : loc -> reader unit;
  read_potcar : loc -> reader unit;
  read_kpoints : loc -> reader unit;
  read_metadata : loc -> reader unit;
  (** [calc.set] with the keyword arguments *)
  set : loc -> kwargs_t -> reader unit;
  (** [read_neb_calculator()], [neb_initialize(atoms, kwargs)] *)
  read_neb_calculator : reader loc;
  neb_initialize : option loc -> kwargs_t -> action loc;
  (** [ase.io.read('POSCAR')] *)
  ase_io_read : string -> reader loc;
  (** [calc.create_metadata()] *)
  create_metadata : loc -> action unit;
  (** [hook(calc)] for a registered hook *)
  run_hook : hook -> loc -> action unit;
  (** [calc.calculate()] *)
  calculate : loc -> action unit;
}.

Definition call {A} (r : reader A) : M A :=
  fun w => let x := r (sys w) (heap w) in
           mkOut (fst x) (mkWorld (sys w) (snd x)) [].

Definition act {A} (f : action A) : M A :=
  fun w => let x := f w in mkOut (fst x) (snd x) [].

(** ** The controller: [Jasp] (jasp.py, lines 103-367) *)

(** The arguments of [Jasp]. ([debug] only sets the level of the logger;
    the model logs every message.) *)
Record Args := mkArgs {
  restart : option bool;
  output_template : string;
  track_output : bool;
  atoms : option loc;
  keep_chgcar : bool;
  keep_wavecar : bool;
  kwargs : kwargs_t;
}.

(** The local variables of [Jasp] that outlive a branch; [None] is a
    variable that has not been assigned. *)
Record Locals := mkLocals {
  l_calc : option loc;
  l_self : option loc;
  l_atoms : option loc;
}.

Definition msg_neb : string := "Entering NEB setup".
Definition msg_empty : string := "empty vasp dir. start from scratch".
Definition msg_configured : string :=
  "initialized directory, but no job has been run".
Definition msg_queued : string :=
  "job created, and in queue, but not running. tricky case".
Definition msg_running : string := "job created, and in queue, and running".
Definition msg_finished : string :=
  "job is created, not in queue, not running.finished and first time we are looking at it".
Definition msg_observed : string :=
  "job was at least started, jobid deleted,no running, and the output files all exist".
Definition msg_unknown : string :=
  "I do not recognize the state of thisdirectory ".

Section Controller.
Context `{Collaborators}.

Definition if_ {A} (c : M bool) (t e : M A) : M A :=
  b <- c ;; if b then t else e.

(** [Vasp(restart=True)]: the other arguments take their defaults. *)
Definition Vasp_restart : M loc := call (Vasp (Some true) "vasp" false).

(** Lines 174-182 and 227-235: the sort file. *)
Definition read_sort (c : loc) : M unit :=
  update_calc c (Calc.set_sort []) ;;
  update_calc c (Calc.set_resort []) ;;
  txt <- read_file "ase-sort.dat" ;;
  for_each (Py.readlines txt) (fun line (_ : unit) =>
    let data := Py.split line in
    d0 <- require (data !! 0%nat) IndexError ;;
    i0 <- require (Py.int d0) (ValueError d0) ;;
    update_calc c (fun v => Calc.set_sort (default [] (Calc.sort v) ++ [i0]) v) ;;
    d1 <- require (data !! 1%nat) IndexError ;;
    i1 <- require (Py.int d1) (ValueError d1) ;;
    update_calc c (fun v => Calc.set_resort (default [] (Calc.resort v) ++ [i1]) v)) tt.

(** Lines 141-147. *)
Definition neb_branch (a : Args) : M Locals :=
  log_debug msg_neb ;;
  calc <- try_except
            (c <- call read_neb_calculator ;;
             call (set c (kwargs a)) ;;
             ret c)
            (act (neb_initialize (atoms a) (kwargs a))) ;;
  ret (mkLocals (Some calc) None (atoms a)).

(** Lines 150-155. *)
Definition empty_branch (a : Args) : M Locals :=
  calc <- call (Vasp (restart a) (output_template a) (track_output a)) ;;
  match atoms a with
  | Some at_ => set_calculator at_ calc
  | None => ret tt
  end ;;
  log_debug msg_empty ;;
  ret (mkLocals (Some calc) None (atoms a)).

(** Lines 158-203. *)
Definition configured_branch (a : Args) : M Locals :=
  log_debug msg_configured ;;
  calc <- call (Vasp (restart a) (output_template a) (track_output a)) ;;
  if_ (path_isfile "ase-sort.dat") (read_sort calc) (ret tt) ;;
  call (read_incar calc) ;;
  call (read_potcar calc) ;;
  calc <- if_ (has_images calc) (call read_neb_calculator) (ret calc) ;;
  except_IOError_pass (call (read_kpoints calc)) ;;
  match atoms a with
  | Some at_ =>
      set_calculator at_ calc ;;
      ret (mkLocals (Some calc) None (Some at_))
  | None =>
      fun w =>
        match (at_ <- call (ase_io_read "POSCAR") ;;
               set_calculator at_ calc ;;
               ret at_) w with
        | mkOut (Ok at_) w' ev =>
            mkOut (Ok (mkLocals (Some calc) None (Some at_))) w' ev
        | mkOut (Raise (IOError _)) w' ev =>
            mkOut (Ok (mkLocals (Some calc) None None)) w' ev
        | mkOut (Raise e) w' ev => mkOut (Raise e) w' ev
        end
  end.

(** Lines 215-219: the calculator of a queued job. *)
Definition queued_setup (a : Args) : M loc :=
  self <- call (Vasp (restart a) (output_template a) (track_output a)) ;;
  update_calc self (Calc.set_keep_chgcar (keep_chgcar a)) ;;
  update_calc self (Calc.set_keep_wavecar (keep_wavecar a)) ;;
  call (read_incar self) ;;
  ret self.

(** Lines 238-241: no sort file. *)
Definition identity_sort (a : Args) (self : loc) : M loc :=
  d <- getcwd ;;
  log_debug ("you are in " +:+ d) ;;
  patoms <- call (ase_io_read "POSCAR") ;;
  n <- len_atoms (atoms a) ;;
  update_calc self (Calc.set_sort (Py.range n)) ;;
  n' <- len_atoms (atoms a) ;;
  update_calc self (Calc.set_resort (Py.range n')) ;;
  ret patoms.

(** Lines 224-247: the structure of a queued job that is not an NEB. *)
Definition queued_structure (a : Args) (self : loc) : M unit :=
  patoms <-
    if_ (path_isfile "ase-sort.dat")
      (read_sort self ;;
       p <- call (ase_io_read "POSCAR") ;;
       v <- get_calc self ;;
       r <- require (Calc.resort v) (AttributeError "resort") ;;
       atoms_getitem p r)
      (identity_sort a self) ;;
  match atoms a with
  | Some at_ =>
      update_calc self (Calc.set_atoms at_) ;;
      set_calculator at_ self
  | None =>
      c <- atoms_copy patoms ;;
      update_calc self (Calc.set_atoms c)
  end.

(** Lines 206-257. *)
Definition queued_branch (a : Args) : M Locals :=
  log_debug msg_queued ;;
  self <- queued_setup a ;;
  if_ (has_images self)
    (_ <- call read_neb_calculator ;; ret tt)
    (queued_structure a self) ;;
  call (read_kpoints self) ;;
  call (read_potcar self) ;;
  v <- get_calc self ;;
  o <- dict_copy (Calc.params v input_params) ;;
  update_calc self (Calc.set_old_params input_params o) ;;
  update_calc self (Calc.set_converged false) ;;
  update_calc self (Calc.set_vasp_queued true) ;;
  ret (mkLocals (Some self) (Some self) (atoms a)).

(** Lines 260-275. *)
Definition running_branch (a : Args) : M Locals :=
  log_debug msg_running ;;
  calc <- call (Vasp (restart a) (output_template a) (track_output a)) ;;
  call (read_incar calc) ;;
  calc <- if_ (has_images calc)
            (log_debug "reading neb calculator" ;; call read_neb_calculator)
            Vasp_restart ;;
  match atoms a with
  | Some at_ => set_calculator at_ calc
  | None => ret tt
  end ;;
  update_calc calc (Calc.set_vasp_running true) ;;
  ret (mkLocals (Some calc) None (atoms a)).

(** Lines 294-310: the calculator of a finished job. *)
Definition load_finished (a : Args) : M loc :=
  calc <- call (Vasp (restart a) (output_template a) (track_output a)) ;;
  call (read_incar calc) ;;
  calc <- if_ (has_images calc)
            (log_debug "reading neb calculator" ;; call read_neb_calculator)
            Vasp_restart ;;
  match atoms a with
  | Some at_ =>
      v <- get_calc calc ;;
      when (negb (Calc.neb v)) (update_atoms_from at_ calc)
  | None => ret tt
  end ;;
  ret calc.

(** Lines 314-316: the hooks, in the order of the list.  The list is
    read once, before the first hook: Python's [for] walks the list
    object itself and would see a hook appended or removed by an earlier
    hook.  The loop below is that of Python for hooks that leave
    [calc.post_run_hooks] as it is ([hooks_keep_list] below), and the
    properties of the hooks are stated for such hooks. *)
Definition run_hooks (calc : loc) (hs : list hook) : M unit :=
  for_each hs (fun h (_ : unit) =>
                 tell (EvHook h calc) ;; act (run_hook h calc)) tt.

Definition run_post_run_hooks (calc : loc) : M unit :=
  v <- get_calc calc ;;
  match Calc.post_run_hooks v with
  | Some hs => run_hooks calc hs
  | None => ret tt
  end.

(** Lines 279-316. *)
Definition finished_branch (a : Args) : M Locals :=
  log_debug msg_finished ;;
  c <- read_file "jobid" ;;
  let jobid := Py.before_dot (Py.readline c) in
  calculation_is_ok (Some jobid) ;;
  unlink "jobid" ;;
  calc <- load_finished a ;;
  run_post_run_hooks calc ;;
  ret (mkLocals (Some calc) None (atoms a)).

(** Lines 141-316: the first [if]/[elif] chain. It has no [else]. *)
Definition resolve (a : Args) : M Locals :=
  if has_key "spring" (kwargs a) then neb_branch a
  else
  if_ (not_ (path_exists "INCAR")) (empty_branch a)
  (if_ (not_ (path_exists "jobid") &&& path_exists "INCAR"
        &&& not_ (path_exists "CONTCAR"))
     (configured_branch a)
  (if_ (path_exists "jobid" &&& job_in_queue &&& not_ (path_exists "running"))
     (queued_branch a)
  (if_ (path_exists "jobid" &&& job_in_queue &&& path_exists "running")
     (running_branch a)
  (if_ (path_exists "jobid" &&& not_ job_in_queue
        &&& not_ (path_exists "running"))
     (finished_branch a)
     (ret (mkLocals None None (atoms a))))))).

(** [self.keep_chgcar] and [self.keep_wavecar] at lines 318 and 322:
    [self] is a local variable of [Jasp], assigned at line 215 only. *)
Definition self_attr (l : Locals) (name : string)
    (field : Calc.t -> option bool) : M bool :=
  s <- require (l_self l) (UnboundLocalError "self") ;;
  v <- get_calc s ;;
  require (field v) (AttributeError name).

(** Lines 328-341. *)
Definition observed_branch (a : Args) (l : Locals) : M Locals :=
  log_debug msg_observed ;;
  ok <- calculation_is_ok None ;;
  calc <- (if ok : bool
           then c <- Vasp_restart ;; ret (Some c)
           else ret (l_calc l)) ;;
  match l_atoms l with
  | Some at_ =>
      c <- require calc (UnboundLocalError "calc") ;;
      update_atoms_from at_ c
  | None => ret tt
  end ;;
  ret (mkLocals calc (l_self l) (l_atoms l)).

(** Lines 318-344: an [if] of its own, and a second [if]/[elif]/[else]
    chain whose [if] is the test on WAVECAR. *)
Definition cleanup (a : Args) (l : Locals) : M Locals :=
  if_ (not_ (self_attr l "keep_chgcar" Calc.keep_chgcar)
       &&& path_exists "CHGCAR")
    (unlink "CHGCAR") (ret tt) ;;
  if_ (not_ (self_attr l "keep_wavecar" Calc.keep_wavecar)
       &&& path_exists "WAVECAR")
    (unlink "WAVECAR" ;; ret l)
  (if_ (not_ (path_exists "jobid") &&& not_ (path_exists "running")
        &&& path_exists "CONTCAR" &&& path_exists "OUTCAR"
        &&& path_exists "vasprun.xml")
    (observed_branch a l)
    (d <- getcwd ;; raise (VaspUnknownState (msg_unknown +:+ d)))).

(** [calc.old_X_params = calc.X_params.copy()] for group [X]. *)
Definition save_params (calc : loc) (g : group) : M unit :=
  v <- get_calc calc ;;
  l <- dict_copy (Calc.params v g) ;;
  update_calc calc (Calc.set_old_params g l).

(** Lines 351-358: the eight groups, in the order of the source. *)
Definition save_initial_params (calc : loc) : M unit :=
  for_each groups (fun g (_ : unit) => save_params calc g) tt.

(** Lines 346-350: the metadata of the resolved calculator. *)
Definition prepare (l : Locals) : M loc :=
  if_ (path_exists "METADATA")
    (c <- require (l_calc l) (UnboundLocalError "calc") ;;
     call (read_metadata c))
    (ret tt) ;;
  log_debug "saving initial parameters" ;;
  require (l_calc l) (UnboundLocalError "calc").

(** Lines 360-367. *)
Definition finish (a : Args) (calc : loc) : M loc :=
  call (set calc (kwargs a)) ;;
  if_ (not_ (path_exists "METADATA") &&& not_ (has_images calc))
    (act (create_metadata calc)) (ret tt) ;;
  ret calc.

(** Lines 138-350: the state of the directory is resolved, the
    calculator is there. *)
Definition Jasp_resolved (a : Args) : M loc :=
  d <- getcwd ;;
  log_debug ("Jasp called in " +:+ d) ;;
  l <- resolve a ;;
  l' <- cleanup a l ;;
  prepare l'.

Definition Jasp (a : Args) : M loc :=
  calc <- Jasp_resolved a ;;
  save_initial_params calc ;;
  finish a calc.

(** ** The context manager: class [jasp] (jasp.py, lines 370-430) *)

Record jasp := mk_jasp {
  jasp_cwd : string;
  jasp_vaspdir : string;
  jasp_kwargs : Args;
}.

Definition jasp__init__ (vaspdir : string) (kw : Args) : M jasp :=
  d <- getcwd ;;
  ret (mk_jasp d (expanduser vaspdir) kw).

Definition jasp__enter__ (self : jasp) : M loc :=
  if_ (not_ (path_isdir (jasp_vaspdir self)))
    (makedirs (jasp_vaspdir self)) (ret tt) ;;
  chdir (jasp_vaspdir self) ;;
  calc <- Jasp (jasp_kwargs self) ;;
  update_calc calc (Calc.set_dirs (jasp_vaspdir self) (jasp_cwd self)) ;;
  ret calc.

Definition jasp__exit__ (self : jasp) : M bool :=
  chdir (jasp_cwd self) ;;
  ret false.

(** [with jasp(vaspdir, ...) as calc: body] (the statement of lines 487
    and 498), as Python runs it: [__enter__] is called outside the
    protected region, [__exit__] after the body however it ends; an
    exception of the body is raised again unless [__exit__] returns
    true (then the statement ends normally, with no value). *)
Definition with_jasp {A} (vaspdir : string) (kw : Args)
    (body : loc -> M A) : M (option A) :=
  mgr <- jasp__init__ vaspdir kw ;;
  calc <- jasp__enter__ mgr ;;
  fun w =>
    match body calc w with
    | mkOut (Ok v) w' ev =>
        prepend ev ((jasp__exit__ mgr ;; ret (Some v)) w')
    | mkOut (Raise e) w' ev =>
        prepend ev ((suppress <- jasp__exit__ mgr ;;
                     if suppress : bool then ret None else raise e) w')
    end.

End Controller.


(** ** [isavaspdir] (jasp.py, lines 433-458) *)

(** Paths, as [posixpath] handles them. *)
Module Path.

(** [s.endswith('/')] *)
Fixpoint ends_with_slash (s : string) : bool :=
  match s with
  | "" => false
  | String a s' =>
      match s' with
      | "" => Ascii.eqb a "/"
      | _ => ends_with_slash s'
      end
  end.

(** [os.path.join(a, b)] *)
Definition join (a b : string) : string :=
  if Py.startswith b "/" then b
  else if String.eqb a "" || ends_with_slash a then a +:+ b
  else a +:+ "/" +:+ b.

(** [p[:i]] and [p[i:]] for [i = p.rfind('/') + 1] *)
Fixpoint cut (p : string) : string * string :=
  match p with
  | "" => ("", "")
  | String a p' =>
      let '(h, t) := cut p' in
      if negb (String.eqb h "") then (String a h, t)
      else if Ascii.eqb a "/" then ("/", t)
      else ("", String a t)
  end.

(** [s.rstrip('/')] *)
Fixpoint rstrip (s : string) : string :=
  match s with
  | "" => ""
  | String a s' =>
      match rstrip s' with
      | "" => if Ascii.eqb a "/" then "" else String a ""
      | r => String a r
      end
  end.

(** [os.path.split(p)] *)
Definition split (p : string) : string * string :=
  let '(head, tail) := cut p in
  (if negb (String.eqb head "")
      && negb (String.eqb head (Py.times "/" (String.length head)))
   then rstrip head else head,
   tail).

End Path.

(** The directory and the name that a path stands for; a relative path
    starts from the working directory.  Nothing is normalised here: the
    definition is that of the file system for a path without [.],
    without [..] and without doubled slash ([normalised] below), and a
    path such as [./INCAR], which the file system finds in the working
    directory, is looked for under the key [/cwd/.] and not found.  A
    directory holds plain, readable files. *)
Definition locate (s : Sys) (p : string) : string * string :=
  let '(head, tail) := Path.split p in
  (if Py.startswith head "/" then head
   else if String.eqb head "" then cwd s
   else Path.join (cwd s) head,
   tail).

(** The content of the file at a path, if it is there. *)
Definition entry (s : Sys) (p : string) : option string :=
  let '(d, f) := locate s p in dirs s !! d ≫= (.!! f).

(** [os.path.exists(p)] *)
Definition path_exists_at (p : string) : M bool :=
  fun w => mkOut (Ok (bool_decide (is_Some (entry (sys w) p)))) w [EvExists p].

(** [open(p).read()] *)
Definition read_path (p : string) : M string :=
  fun w => mkOut (match entry (sys w) p with
                  | Some c => Ok c
                  | None => Raise (IOError p)
                  end) w [EvOpen p].

Definition isavaspdir (path : string) : M bool :=
  if_ (path_exists_at (Path.join path "POSCAR")
       &&& path_exists_at (Path.join path "INCAR")
       &&& path_exists_at (Path.join path "KPOINTS")
       &&& path_exists_at (Path.join path "POTCAR"))
    (ret true)
  (if_ (path_exists_at (Path.join path "INCAR")
        &&& path_exists_at (Path.join path "KPOINTS")
        &&& path_exists_at (Path.join path "POTCAR"))
     (incar <- read_path (Path.join path "INCAR") ;;
      if Py.contains "IMAGES" incar then ret true else ret false)
     (ret false)).

(** * [get_elastic_moduli] (elastic_moduli.py)

    Python's floats are taken as an interface: [float] is the conversion
    of a string ([None] stands for its ValueError), [mul] the product
    and [tenth] the constant [0.1]. *)

Class Float64 := {
  f64 : Type;
  float : string -> option f64;
  mul : f64 -> f64 -> f64;
  tenth : f64;
}.

Definition header : string := " TOTAL ELASTIC MODULI (kBar)".

(** Lines 23-27: the loop over [enumerate(lines)] with its [break];
    [rest] is what is left of [all] from index [i] on. [None] when the
    loop ends without having assigned [data]. *)
Fixpoint scan (all rest : list string) (i : nat) : option (list string) :=
  match rest with
  | [] => None
  | line :: rest' =>
      if Py.startswith line header
      then Some (Py.slice (i + 3) (i + 3 + 6) all)
      else scan all rest' (S i)
  end.

(** A list of rows that NumPy turns into a matrix. *)
Definition rectangular {A} (m : list (list A)) : bool :=
  match m with
  | [] => true
  | r :: rs => forallb (fun r' => length r' =? length r) rs
  end.

Section Elastic.
Context `{Collaborators} `{Float64}.

(** [np.array(TEM) * 0.1]: of rows of different lengths NumPy makes an
    array of Python lists, and a list cannot be multiplied by a float. *)
Definition np_array_times_tenth (TEM : list (list f64)) : M (list (list f64)) :=
  if rectangular TEM
  then ret (map (map (fun x => mul x tenth)) TEM)
  else raise (TypeError "can't multiply sequence by non-int of type 'float'").

Definition get_elastic_moduli (self : loc) : M (list (list f64)) :=
  act (calculate self) ;;
  c <- read_file "OUTCAR" ;;
  let lines := Py.readlines c in
  data <- require (scan lines lines 0) (UnboundLocalError "data") ;;
  TEM <- for_each data (fun line TEM =>
           row <- require (mapM float (tail (Py.split line))) (ValueError line) ;;
           ret (TEM ++ [row])) [] ;;
  np_array_times_tenth TEM.

(** [i] is the index of the first line that starts with the header. *)
Definition first_header (lines : list string) (i : nat) : Prop :=
  (exists l, lines !! i = Some l /\ Py.startswith l header = true) /\
  forall j l, j < i -> lines !! j = Some l -> Py.startswith l header = false.

End Elastic.

(** ** The lifecycle rules

    The conditions of the branches of [Jasp], as facts about the
    directory and the call, and the state they give a directory when
    they are taken in the order of the source. *)

Inductive State :=
| NEB | Empty | Configured | Queued | Running | Finished | Observed
| Unrecognized.

Global Instance State_eq_dec : EqDecision State.
Proof. solve_decision. Defined.

Definition rule_neb (a : Args) : bool := has_key "spring" (kwargs a).

Definition rule_empty (w : World) : bool := negb (present w "INCAR").

Definition rule_configured (w : World) : bool :=
  negb (present w "jobid") && present w "INCAR" && negb (present w "CONTCAR").

Definition rule_queued (w : World) : bool :=
  present w "jobid" && in_queue (sys w) && negb (present w "running").

Definition rule_running (w : World) : bool :=
  present w "jobid" && in_queue (sys w) && present w "running".

Definition rule_finished (w : World) : bool :=
  present w "jobid" && negb (in_queue (sys w)) && negb (present w "running").

Definition rule_observed (w : World) : bool :=
  negb (present w "jobid") && negb (present w "running")
  && present w "CONTCAR" && present w "OUTCAR" && present w "vasprun.xml".

Definition classify (a : Args) (w : World) : State :=
  if rule_neb a then NEB
  else if rule_empty w then Empty
  else if rule_configured w then Configured
  else if rule_queued w then Queued
  else if rule_running w then Running
  else if rule_finished w then Finished
  else if rule_observed w then Observed
  else Unrecognized.

(** ** A concrete set of collaborators

    Small stand-ins for the external code, used to run the controller on
    concrete directories: a calculator is created with a few parameters,
    all unset; INCAR sets [images] when it mentions IMAGES; [set] stores
    a keyword in the dictionary that has it; hook 13 fails, the others
    do nothing. *)
Module Double.

Definition new_dict (d : gmap string Val) (h : Heap) : loc * Heap :=
  let l := fresh (dom (dicts h)) in
  (l, mkHeap (<[l := d]> (dicts h)) (calcs h) (atomss h)).

Definition defaults (g : group) : gmap string Val :=
  match g with
  | float_params => {[ "encut" := VNone ]}
  | int_params => {[ "images" := VNone; "nsw" := VNone ]}
  | string_params => {[ "prec" := VNone ]}
  | bool_params => {[ "lwave" := VNone ]}
  | input_params => {[ "xc" := VNone ]}
  | _ => ∅
  end.

(** The locations of the eight dictionaries of a new calculator, and
    the store that holds them. *)
Fixpoint new_dicts (gs : list group) (h : Heap) : (group -> loc) * Heap :=
  match gs with
  | [] => (fun _ => 0, h)
  | g :: gs' =>
      let '(l, h1) := new_dict (defaults g) h in
      let '(f, h2) := new_dicts gs' h1 in
      (fun g' => if decide (g' = g) then l else f g', h2)
  end.

Definition new_calc (is_neb : bool) (hooks : list hook) (at_ : option loc)
    (h : Heap) : Res loc * Heap :=
  let '(f, h1) := new_dicts groups h in
  let c := fresh (dom (calcs h1)) in
  let v := Calc.mk f (fun _ => None) None None at_ None None None
                   false false (Some hooks) is_neb None None in
  (Ok c, mkHeap (dicts h1) (<[c := v]> (calcs h1)) (atomss h1)).

Definition the_hooks : list hook := [7; 8; 9].

Definition read_structure (f : string) (s : Sys) (h : Heap) : Res loc * Heap :=
  match files s !! f with
  | None => (Raise (IOError f), h)
  | Some txt =>
      let a := fresh (dom (atomss h)) in
      let v := Atoms.mk [1; 1; 1]%Z (map (fun _ => 0%Z) (Py.readlines txt)) None in
      (Ok a, mkHeap (dicts h) (calcs h) (<[a := v]> (atomss h)))
  end.

Definition construct (restart : option bool) (tpl : string) (track : bool)
    : reader loc :=
  fun s h =>
    match restart with
    | Some true =>
        match read_structure "CONTCAR" s h with
        | (Ok a, h1) => new_calc false the_hooks (Some a) h1
        | (Raise e, h1) => (Raise e, h1)
        end
    | _ => new_calc false the_hooks None h
    end.

Definition needs (f : string) : reader unit :=
  fun s h => match files s !! f with
             | Some _ => (Ok tt, h)
             | None => (Raise (IOError f), h)
             end.

Definition store (c : loc) (g : group) (key : string) (v : Val) (h : Heap)
    : Heap :=
  match calcs h !! c with
  | Some r =>
      mkHeap (alter (fun d => <[key := v]> d) (Calc.params r g) (dicts h))
             (calcs h) (atomss h)
  | None => h
  end.

Definition incar (c : loc) : reader unit :=
  fun s h => match files s !! "INCAR" with
             | Some txt =>
                 (Ok tt, if Py.contains "IMAGES" txt
                         then store c int_params "images" (VInt 3) h
                         else h)
             | None => (Raise (IOError "INCAR"), h)
             end.

(** The first dictionary of the calculator that has the key. *)
Definition group_of (c : Calc.t) (key : string) (h : Heap) : option group :=
  find (fun g => bool_decide (is_Some (dicts h !! Calc.params c g ≫= (.!! key))))
       groups.

Fixpoint set_all (c : loc) (kw : kwargs_t) (h : Heap) : Res unit * Heap :=
  match kw with
  | [] => (Ok tt, h)
  | (key, v) :: kw' =>
      match calcs h !! c with
      | None => (Raise dangling, h)
      | Some r =>
          match group_of r key h with
          | Some g => set_all c kw' (store c g key v h)
          | None => (Raise (TypeError ("Parameter not defined: " +:+ key)), h)
          end
      end
  end.

Definition write_metadata (c : loc) : action unit :=
  fun w => (Ok tt, with_sys (fun s => set_files (<["METADATA" := "{}"]> (files s)) s) w).

Definition hook_body (h : hook) (c : loc) : action unit :=
  fun w => if decide (h = 13) then (Raise (Failure "hook 13"), w) else (Ok tt, w).

#[export] Instance collaborators : Collaborators := {|
  Vasp := construct;
  read_incar := incar;
  read_potcar := fun _ => needs "POTCAR";
  read_kpoints := fun _ => needs "KPOINTS";
  read_metadata := fun _ => needs "METADATA";
  set := fun c kw _ h => set_all c kw h;
  read_neb_calculator := fun _ h => new_calc true the_hooks None h;
  neb_initialize := fun _ _ w =>
    let x := new_calc true the_hooks None (heap w) in
    (fst x, mkWorld (sys w) (snd x));
  ase_io_read := read_structure;
  create_metadata := write_metadata;
  run_hook := hook_body;
  calculate := fun _ w => (Ok tt, w);
|}.

(** A directory [/calc] with the given files, no objects, an empty queue
    unless [queued], and the process in [/home]. *)
Definition world (fs : gmap string string) (queued : bool) : World :=
  mkWorld (mkSys "/home" {[ "/calc" := fs; "/home" := ∅ ]} queued)
          (mkHeap ∅ ∅ ∅).

Definition in_calc (w : World) : World :=
  with_sys (fun s => mkSys "/calc" (dirs s) (in_queue s)) w.

Definition no_args : Args := mkArgs None "vasp" false None false false [].

Definition log_ok : string :=
  "done" +:+ Py.nl +:+ " " +:+ marker +:+ ": 3" +:+ Py.nl.

Definition log_cut : string :=
  "step 1" +:+ Py.nl +:+ "interrupted" +:+ Py.nl.

Definition jobid_text : string := "123.host" +:+ Py.nl.

Definition inputs : gmap string string :=
  {[ "INCAR" := "ENCUT = 400"; "POSCAR" := "Cu" +:+ Py.nl +:+ "Cu" +:+ Py.nl;
     "KPOINTS" := "k"; "POTCAR" := "p" ]}.

Definition outputs : gmap string string :=
  {[ "CONTCAR" := "Cu" +:+ Py.nl; "OUTCAR" := log_ok; "vasprun.xml" := "<x/>" ]}.

(** Finished long ago: the outputs, no jobid, no running. *)
Definition observed : World := in_calc (world (inputs ∪ outputs) false).

(** Finished, not yet looked at: the outputs and the jobid. *)
Definition finished : World :=
  in_calc (world (<["jobid" := jobid_text]> (inputs ∪ outputs)) false).

(** Finished with a log that was cut; seen from the directory and from
    [/home]. *)
Definition cut_files : gmap string string :=
  <["jobid" := jobid_text]> (<["OUTCAR" := log_cut]> (inputs ∪ outputs)).

Definition cut : World := in_calc (world cut_files false).

Definition cut_from_home : World := world cut_files false.

(** Finished with nothing in CONTCAR and a log that was cut. *)
Definition hollow : World :=
  in_calc (world (<["jobid" := jobid_text]>
                    (<["CONTCAR" := ""]> (<["OUTCAR" := log_cut]> (inputs ∪ outputs))))
                 false).

(** A running flag without a jobid. *)
Definition stale : World :=
  in_calc (world (<["running" := ""]> (inputs ∪ outputs)) false).

(** Nothing at all. *)
Definition blank : World := in_calc (world ∅ false).

(** In the queue, with a WAVECAR of an earlier run, and an Atoms object
    of three atoms at location 0. *)
Definition three_atoms : Atoms.t := Atoms.mk [1; 1; 1]%Z [0; 0; 0]%Z None.

Definition waiting : World :=
  with_heap (fun h => mkHeap (dicts h) (calcs h) {[ 0 := three_atoms ]})
    (in_calc (world (<["jobid" := jobid_text]> (<["WAVECAR" := "w"]> inputs)) true)).

(** The same for an NEB. *)
Definition waiting_neb : World :=
  in_calc (world (<["jobid" := jobid_text]>
                    (<["WAVECAR" := "w"]> (<["INCAR" := "IMAGES = 3"]> inputs)))
                 true).

Definition with_atoms : Args := mkArgs None "vasp" false (Some 0) false false [].


(** An OUTCAR with the elastic moduli of a calculation. *)
Definition moduli_log : string :=
  "head" +:+ Py.nl
  +:+ header +:+ Py.nl
  +:+ " Direction    XX          YY" +:+ Py.nl
  +:+ " ------------------------" +:+ Py.nl
  +:+ " XX 2803 1622" +:+ Py.nl
  +:+ " YY 1622 2803" +:+ Py.nl
  +:+ " ZZ 1622 1622" +:+ Py.nl
  +:+ " XY 0 0" +:+ Py.nl
  +:+ " YZ 0 0" +:+ Py.nl
  +:+ " ZX 0 0" +:+ Py.nl
  +:+ " ------------------------" +:+ Py.nl.

Definition with_moduli : World :=
  in_calc (world (<["OUTCAR" := moduli_log]> (inputs ∪ outputs)) false).

(** Exact rationals stand in for the floats; [float] reads integers. *)
#[export] Instance rationals : Float64 := {|
  f64 := QArith_base.Q;
  float := fun s => QArith_base.inject_Z <$> Py.int s;
  mul := QArith_base.Qmult;
  tenth := QArith_base.Qmake 1 10;
|}.

End Double.


(** ** More directories *)
Module Sample.

(** Results without a log, and with an empty one. *)
Definition no_log : World :=
  Double.in_calc (Double.world (delete "OUTCAR" (Double.inputs ∪ Double.outputs)) false).

Definition empty_log : World :=
  Double.in_calc
    (Double.world (<["OUTCAR" := ""]> (Double.inputs ∪ Double.outputs)) false).

(** Finished long ago, with nothing in CONTCAR. *)
Definition hollow_observed : World :=
  Double.in_calc
    (Double.world (<["CONTCAR" := ""]> (Double.inputs ∪ Double.outputs)) false).

(** A finished job with a log that was cut, next to the output of the
    queue for job 123. *)
Definition with_job_output : World :=
  Double.in_calc
    (Double.world (<["vasp.o123" := "killed" +:+ Py.nl]> Double.cut_files) false).

(** Inputs only. *)
Definition configured : World := Double.in_calc (Double.world Double.inputs false).

(** In the queue, with a WAVECAR and a CHGCAR of an earlier run and a
    METADATA file; seen from the directory and from [/home]. *)
Definition queued_files : gmap string string :=
  <["jobid" := Double.jobid_text]>
    (<["WAVECAR" := "w"]> (<["CHGCAR" := "c"]> (<["METADATA" := "{}"]> Double.inputs))).

Definition queued_from_home : World :=
  with_heap (fun h => mkHeap (dicts h) (calcs h) {[ 0 := Double.three_atoms ]})
    (Double.world queued_files true).

Definition queued : World := Double.in_calc queued_from_home.

Definition keeping_wavecar : Args := mkArgs None "vasp" false (Some 0) false true [].

Definition with_spring : Args :=
  mkArgs None "vasp" false None false false [("spring", VInt 5)].

(** A new calculator at location 0, and a sort file next to the inputs. *)
Definition fresh_calc : Heap := snd (Double.new_calc false [] None (mkHeap ∅ ∅ ∅)).

Definition sorting (txt : string) : World :=
  with_heap (fun _ => fresh_calc)
    (Double.in_calc (Double.world (<["ase-sort.dat" := txt]> Double.inputs) false)).

(** A log that ends with the header of the elastic moduli. *)
Definition moduli_cut : World :=
  Double.in_calc
    (Double.world (<["OUTCAR" := "head" +:+ Py.nl +:+ header +:+ Py.nl]>
                     (Double.inputs ∪ Double.outputs)) false).

(** A table of elastic moduli with a field that is no number. *)
Definition moduli_stars : World :=
  Double.in_calc
    (Double.world (<["OUTCAR" := header +:+ Py.nl +:+ "a" +:+ Py.nl +:+ "b" +:+ Py.nl
                                 +:+ " XX 1 2" +:+ Py.nl +:+ " YY ** 2" +:+ Py.nl]>
                     (Double.inputs ∪ Double.outputs)) false).

(** Collaborators whose [calculate] fails. *)
Definition failing : Collaborators := {|
  Vasp := Double.construct;
  read_incar := Double.incar;
  read_potcar := fun _ => Double.needs "POTCAR";
  read_kpoints := fun _ => Double.needs "KPOINTS";
  read_metadata := fun _ => Double.needs "METADATA";
  set := fun c kw _ h => Double.set_all c kw h;
  read_neb_calculator := fun _ h => Double.new_calc true Double.the_hooks None h;
  neb_initialize := fun _ _ w =>
    let x := Double.new_calc true Double.the_hooks None (heap w) in
    (fst x, mkWorld (sys w) (snd x));
  ase_io_read := Double.read_structure;
  create_metadata := Double.write_metadata;
  run_hook := Double.hook_body;
  calculate := fun _ w => (Raise (Failure "vasp"), w);
|}.

(** Collaborators whose [Vasp(restart=True)] needs vasprun.xml. *)
Definition strict : Collaborators := {|
  Vasp := fun r tpl track s h =>
    match r, files s !! "vasprun.xml" with
    | Some true, None => (Raise (IOError "vasprun.xml"), h)
    | _, _ => Double.construct r tpl track s h
    end;
  read_incar := Double.incar;
  read_potcar := fun _ => Double.needs "POTCAR";
  read_kpoints := fun _ => Double.needs "KPOINTS";
  read_metadata := fun _ => Double.needs "METADATA";
  set := fun c kw _ h => Double.set_all c kw h;
  read_neb_calculator := fun _ h => Double.new_calc true Double.the_hooks None h;
  neb_initialize := fun _ _ w =>
    let x := Double.new_calc true Double.the_hooks None (heap w) in
    (fst x, mkWorld (sys w) (snd x));
  ase_io_read := Double.read_structure;
  create_metadata := Double.write_metadata;
  run_hook := Double.hook_body;
  calculate := fun _ w => (Ok tt, w);
|}.

(** A finished job without vasprun.xml. *)
Definition no_xml : World :=
  Double.in_calc
    (Double.world (<["jobid" := Double.jobid_text]>
                     (delete "vasprun.xml" (Double.inputs ∪ Double.outputs))) false).

End Sample.


(** * The vocabulary of the properties *)

(** An event on file [f] of the working directory. *)
Definition touches (f : string) (e : event) : bool :=
  match e with
  | EvExists g | EvOpen g | EvUnlink g => String.eqb f g
  | _ => false
  end.

(** The events of the tests of a branch condition. *)
Definition probe (e : event) : Prop :=
  match e with
  | EvExists _ | EvQueue => True
  | _ => False
  end.

Definition is_hook (e : event) : bool :=
  match e with
  | EvHook _ _ => true
  | _ => false
  end.

Definition is_unlink (e : event) : bool :=
  match e with
  | EvUnlink _ => true
  | _ => false
  end.

(** The hooks that were called, in the order of the calls. *)
Definition hooks_fired (evs : list event) : list event := filter is_hook evs.

(** Any event but the call of a hook. *)
Definition not_hook (e : event) : Prop := is_hook e = false.

(** What a call of [Jasp] logs first. *)
Definition called (w : World) : event :=
  EvLog ("Jasp called in " +:+ cwd (sys w)).

(** [emits P m]: whatever the world, every event of [m] satisfies [P]. *)
Definition emits {A} (P : event -> Prop) (m : M A) : Prop :=
  forall w, Forall P (events (m w)).

(** A computation that only looks: it returns, and leaves the world as it
    found it. *)
Definition looks {A} (m : M A) (w : World) : Prop :=
  (exists a, res (m w) = Ok a) /\ final (m w) = w.

(** A computation that leaves the files, the working directory and the
    queue alone. *)
Definition keeps_sys {A} (m : M A) : Prop :=
  forall w, sys (final (m w)) = sys w.

(** A condition that only probes: it answers [b], changes nothing. *)
Definition tests (c : M bool) (b : bool) (w : World) : Prop :=
  exists evs, Forall probe evs /\ c w = mkOut (Ok b) w evs.

(** What the validator answers for a CONTCAR with content [c] and an
    OUTCAR with content [o], given the captured job output. *)
Definition verdict (output : list string) (o : string) : Res bool :=
  match last (Py.readlines o) with
  | None => Raise IndexError
  | Some l =>
      if Py.contains marker l then Ok true
      else Raise (VaspNotFinished (not_finished_message output (Py.readlines o)))
  end.

(** The exception of [len(None)]. *)
Definition no_len : exn := TypeError "object of type 'NoneType' has no len()".





(** The world in which [__enter__] calls [Jasp]: the process is in
    [vaspdir], which has been made if it was not there. *)
Definition entered (vaspdir : string) (w : World) : World :=
  mkWorld (mkSys vaspdir
                 (match dirs (sys w) !! vaspdir with
                  | Some _ => dirs (sys w)
                  | None => <[vaspdir := ∅]> (dirs (sys w))
                  end)
                 (in_queue (sys w)))
          (heap w).

(** What [__enter__] does before it calls [Jasp]. *)
Definition entering (vaspdir : string) (w : World) : list event :=
  match dirs (sys w) !! vaspdir with
  | Some _ => [EvChdir vaspdir]
  | None => [EvMakedirs vaspdir; EvChdir vaspdir]
  end.

Section Branches.
Context `{Collaborators}.

(** The branch of the first chain that each state selects; the chain
    has none for the last two. *)
Definition branch (s : State) (a : Args) : M Locals :=
  match s with
  | NEB => neb_branch a
  | Empty => empty_branch a
  | Configured => configured_branch a
  | Queued => queued_branch a
  | Running => running_branch a
  | Finished => finished_branch a
  | Observed | Unrecognized => ret (mkLocals None None (atoms a))
  end.

End Branches.

(** ** The vocabulary of the further properties *)

(** The captured output of the queue, as lines 71-76 build it from the
    name and the content of the file. *)
Definition captured (j f c : string) : list string :=
  ["joboutput file: " +:+ j; Py.nl +:+ rule +:+ Py.nl; f +:+ ":" +:+ Py.nl]
  ++ Py.readlines c ++ [rule; Py.nl].

(** The world that the two tests of lines 318-324 leave. *)
Definition swept (kc kw : bool) (w : World) : World :=
  let w1 := if negb kc && present w "CHGCAR" then without "CHGCAR" w else w in
  if negb kw && present w "WAVECAR" then without "WAVECAR" w1 else w1.

(** One line of ase-sort.dat: its first two fields, as integers. *)
Definition sort_pair (line : string) : option (Z * Z) :=
  match Py.split line with
  | d0 :: d1 :: _ =>
      match Py.int d0, Py.int d1 with
      | Some i0, Some i1 => Some (i0, i1)
      | _, _ => None
      end
  | _ => None
  end.

(** The world with [v] for the calculator at [c]. *)
Definition put_calc (c : loc) (v : Calc.t) (w : World) : World :=
  mkWorld (sys w)
          (mkHeap (dicts (heap w)) (<[c := v]> (calcs (heap w))) (atomss (heap w))).

(** The body of the loop of lines 179-182 and 232-235. *)
Definition sort_line (c : loc) (line : string) (_ : unit) : M unit :=
  let data := Py.split line in
  d0 <- require (data !! 0%nat) IndexError ;;
  i0 <- require (Py.int d0) (ValueError d0) ;;
  update_calc c (fun v => Calc.set_sort (default [] (Calc.sort v) ++ [i0]) v) ;;
  d1 <- require (data !! 1%nat) IndexError ;;
  i1 <- require (Py.int d1) (ValueError d1) ;;
  update_calc c (fun v => Calc.set_resort (default [] (Calc.resort v) ++ [i1]) v).

(** The calculator with the two lists. *)
Definition sorted (s r : list Z) (cv : Calc.t) : Calc.t :=
  Calc.set_resort r (Calc.set_sort s cv).

(** What [isavaspdir] looks for, given the files of a directory. *)
Definition vasp_files (look : string -> option string) : bool :=
  bool_decide (is_Some (look "INCAR"))
  && bool_decide (is_Some (look "KPOINTS"))
  && bool_decide (is_Some (look "POTCAR"))
  && (bool_decide (is_Some (look "POSCAR"))
      || Py.contains "IMAGES" (default "" (look "INCAR"))).


(** A name without a slash. *)
Definition plain (f : string) : Prop := Path.cut f = ("", f).

(** The components of a path, as [p.split('/')] gives them. *)
Fixpoint pieces (p : string) : list string :=
  match p with
  | "" => [""]
  | String a p' =>
      if Ascii.eqb a "/" then "" :: pieces p'
      else match pieces p' with
           | [] => [String a ""]
           | x :: xs => String a x :: xs
           end
  end.

(** A component that [os.path.normpath] leaves where it is. *)
Definition ordinary (x : string) : bool :=
  negb (String.eqb x "") && negb (String.eqb x ".") && negb (String.eqb x "..").

(** A path that [os.path.normpath] does not change, the empty path
    apart: the root, or ordinary components with one slash between
    them, after one slash for an absolute path.  On these paths the
    keys of the directories are the directories. *)
Definition normalised (p : string) : bool :=
  match pieces p with
  | [] | [""] => false
  | "" :: ps => forallb ordinary ps || String.eqb p "/"
  | ps => forallb ordinary ps
  end.

(** What the loop of lines 314-316 does, told hook by hook: the hooks
    that were called, in the order of the calls, the world they left
    and how the loop ended.  A hook that raises is the last one. *)
Record Fired := mkFired {
  outcome : Res unit;
  left_ : World;
  fired : list hook;
}.

Section Hooks.
Context `{Collaborators}.

Fixpoint fire (hs : list hook) (calc : loc) (w : World) : Fired :=
  match hs with
  | [] => mkFired (Ok tt) w []
  | h :: hs' =>
      match run_hook h calc w with
      | (Ok _, w') =>
          let f := fire hs' calc w' in
          mkFired (outcome f) (left_ f) (h :: fired f)
      | (Raise e, w') => mkFired (Raise e) w' [h]
      end
  end.

(** No hook changes the list of hooks of the calculator. *)
Definition hooks_keep_list (calc : loc) : Prop :=
  forall h w,
    Calc.post_run_hooks <$> calcs (heap (snd (run_hook h calc w))) !! calc
    = Calc.post_run_hooks <$> calcs (heap w) !! calc.

End Hooks.

Section Queued.
Context `{Collaborators}.

(** The call on a queued job, after the tests of the first chain. *)
Definition Jasp_queued (a : Args) : M loc :=
  calc <- (l <- queued_branch a ;; l' <- cleanup a l ;; prepare l') ;;
  save_initial_params calc ;;
  finish a calc.

End Queued.

(** * Properties *)

(** ** Running the monad *)

Lemma out_eta {A} (o : Out A) : o = mkOut (res o) (final o) (events o).
Proof. destruct o; reflexivity. Qed.

Lemma bind_ok {A B} (m : M A) (k : A -> M B) (w : World) (a : A) :
  res (m w) = Ok a ->
  bind m k w = prepend (events (m w)) (k a (final (m w))).
Proof. unfold bind. destruct (m w) as [r w' ev]; cbn. intros ->. reflexivity. Qed.

Lemma bind_raise {A B} (m : M A) (k : A -> M B) (w : World) (e : exn) :
  res (m w) = Raise e ->
  bind m k w = mkOut (Raise e) (final (m w)) (events (m w)).
Proof. unfold bind. destruct (m w) as [r w' ev]; cbn. intros ->. reflexivity. Qed.

Lemma bind_eq {A B} (m : M A) (k : A -> M B) (w w' : World) (r : Res A)
    (ev : list event) :
  m w = mkOut r w' ev ->
  bind m k w = match r with
               | Ok a => prepend ev (k a w')
               | Raise e => mkOut (Raise e) w' ev
               end.
Proof. unfold bind. intros ->. reflexivity. Qed.

Lemma bind_res_ok {A B} (m : M A) (k : A -> M B) (w : World) (b : B) :
  res (bind m k w) = Ok b ->
  exists a, res (m w) = Ok a /\ res (k a (final (m w))) = Ok b.
Proof.
  unfold bind. destruct (m w) as [[a|e] w' ev]; cbn; [|discriminate].
  intros E. exists a. split; [reflexivity | exact E].
Qed.

(** Unfolding the plumbing of the monad and the operations that only
    look at the world, and nothing else. *)
Ltac run :=
  cbn [bind prepend res final events ret raise require when tell log_debug
       path_exists path_isfile getcwd job_in_queue read_file listdir
       path_isdir call act fst snd negb andb orb app].

Ltac step_with H := rewrite (bind_eq _ _ _ _ _ _ H); run.

(** ** What a computation may log *)

Section Emits.
Context (P : event -> Prop).

Lemma emits_ret {A} (a : A) : emits P (ret a).
Proof. intros w. constructor. Qed.

Lemma emits_raise {A} (e : exn) : emits P (@raise A e).
Proof. intros w. constructor. Qed.

Lemma emits_tell (e : event) : P e -> emits P (tell e).
Proof. intros He w. repeat constructor. exact He. Qed.

Lemma emits_bind {A B} (m : M A) (k : A -> M B) :
  emits P m -> (forall a, emits P (k a)) -> emits P (bind m k).
Proof.
  intros Hm Hk w. unfold bind. specialize (Hm w).
  destruct (m w) as [[a|e] w' ev]; cbn in *; [|exact Hm].
  apply Forall_app. split; [exact Hm | apply Hk].
Qed.

Lemma emits_silent {A} (m : M A) :
  (forall w, events (m w) = []) -> emits P m.
Proof. intros E w. rewrite E. constructor. Qed.

Lemma emits_try_except {A} (m h : M A) :
  emits P m -> emits P h -> emits P (try_except m h).
Proof.
  intros Hm Hh w. unfold try_except. specialize (Hm w).
  destruct (m w) as [[a|e] w' ev]; cbn in *; [exact Hm|].
  apply Forall_app. split; [exact Hm | apply Hh].
Qed.

Lemma emits_except_IOError_pass (m : M unit) :
  emits P m -> emits P (except_IOError_pass m).
Proof.
  intros Hm w. unfold except_IOError_pass. specialize (Hm w).
  destruct (m w) as [[a|[]] w' ev]; cbn in *; exact Hm.
Qed.

Lemma emits_for_each {A S} (l : list A) (body : A -> S -> M S) (s : S) :
  (forall x t, emits P (body x t)) -> emits P (for_each l body s).
Proof.
  intros Hb. revert s. induction l as [|x l IH]; intros s; cbn [for_each].
  - apply emits_ret.
  - apply emits_bind; [apply Hb | exact IH].
Qed.

Lemma emits_if {A} (b : bool) (t e : M A) :
  emits P t -> emits P e -> emits P (if b then t else e).
Proof. destruct b; auto. Qed.

Lemma emits_option {A B} (o : option A) (t : A -> M B) (e : M B) :
  (forall a, emits P (t a)) -> emits P e ->
  emits P (match o with Some a => t a | None => e end).
Proof. destruct o; auto. Qed.

Lemma emits_path_exists (f : string) : P (EvExists f) -> emits P (path_exists f).
Proof. intros He w. repeat constructor. exact He. Qed.

Lemma emits_read_file (f : string) : P (EvOpen f) -> emits P (read_file f).
Proof. intros He w. repeat constructor. exact He. Qed.

Lemma emits_unlink (f : string) : P (EvUnlink f) -> emits P (unlink f).
Proof.
  intros He w. unfold unlink. destruct (file w f); repeat constructor; exact He.
Qed.

Lemma emits_listdir : P EvListdir -> emits P listdir.
Proof. intros He w. repeat constructor. exact He. Qed.

Lemma emits_job_in_queue : P EvQueue -> emits P job_in_queue.
Proof. intros He w. repeat constructor. exact He. Qed.

Lemma emits_chdir (d : string) : P (EvChdir d) -> emits P (chdir d).
Proof.
  intros He w. unfold chdir. destruct (dirs (sys w) !! d);
    repeat constructor; exact He.
Qed.

Lemma emits_makedirs (d : string) : P (EvMakedirs d) -> emits P (makedirs d).
Proof.
  intros He w. unfold makedirs. destruct (dirs (sys w) !! d);
    repeat constructor; exact He.
Qed.

End Emits.

(** The operations on the store and the collaborators log nothing. *)
Ltac silent :=
  apply emits_silent; intros ?;
  unfold get_calc, update_calc, get_atoms, update_atoms, new_atoms, dict_copy,
    getcwd, path_isdir, call, act;
  repeat case_match; reflexivity.

(** One step of the analysis of what a computation logs; the events of
    the computation are left as goals. *)
Ltac emits_step :=
  lazymatch goal with
  | |- emits _ (bind _ _) => apply emits_bind; [|intros ?]
  | |- emits _ (ret _) => apply emits_ret
  | |- emits _ (raise _) => apply emits_raise
  | |- emits _ (tell _) => apply emits_tell
  | |- emits _ (log_debug _) => apply emits_tell
  | |- emits _ (try_except _ _) => apply emits_try_except
  | |- emits _ (except_IOError_pass _) => apply emits_except_IOError_pass
  | |- emits _ (for_each _ _ _) => apply emits_for_each; intros ? ?
  | |- emits _ (if _ then _ else _) => apply emits_if
  | |- emits _ (match ?o with Some _ => _ | None => _ end) => destruct o
  | |- emits _ (if_ _ _ _) => unfold if_
  | |- emits _ (and_then _ _) => unfold and_then
  | |- emits _ (not_ _) => unfold not_
  | |- emits _ (when _ _) => unfold when
  | |- emits _ (require ?o _) => destruct o; cbn [require]
  | |- emits _ (path_exists _) => apply emits_path_exists
  | |- emits _ (path_isfile _) => apply emits_path_exists
  | |- emits _ (read_file _) => apply emits_read_file
  | |- emits _ (unlink _) => apply emits_unlink
  | |- emits _ listdir => apply emits_listdir
  | |- emits _ job_in_queue => apply emits_job_in_queue
  | |- emits _ (chdir _) => apply emits_chdir
  | |- emits _ (makedirs _) => apply emits_makedirs
  | |- emits _ (params_get _ _ _) => unfold params_get
  | |- emits _ (has_images _) => unfold has_images
  | |- emits _ (set_calculator _ _) => unfold set_calculator
  | |- emits _ (len_atoms ?a) => unfold len_atoms; destruct a
  | |- emits _ (atoms_getitem _ _) => unfold atoms_getitem
  | |- emits _ (atoms_copy _) => unfold atoms_copy
  | |- emits _ (update_atoms_from _ _) => unfold update_atoms_from
  | |- emits _ (fun _ => mkOut _ _ []) => apply emits_silent; reflexivity
  | |- emits _ _ => silent
  end.

Lemma for_each_looks {A S} (l : list A) (body : A -> S -> M S) (w : World) :
  (forall x s, x ∈ l -> looks (body x s) w) ->
  forall s, looks (for_each l body s) w.
Proof.
  induction l as [|x l IH]; intros Hb s.
  - split; [eexists|]; reflexivity.
  - destruct (Hb x s) as [[s' E] F]; [left|].
    assert (Hl : forall y t, y ∈ l -> looks (body y t) w)
      by (intros y t Hy; apply Hb; right; exact Hy).
    destruct (IH Hl s') as [[s'' E'] F'].
    unfold looks. cbn [for_each]. rewrite (bind_ok _ _ _ _ E), F. cbn.
    split; [exists s''; exact E' | exact F'].
Qed.

(** ** Files *)

Lemma files_set_files (fs : gmap string string) (s : Sys) :
  files (set_files fs s) = fs.
Proof. unfold files, set_files; cbn. rewrite lookup_insert_eq. reflexivity. Qed.

Lemma elem_of_listdir (w : World) (f : string) :
  f ∈ elements (dom (files (sys w))) -> is_Some (file w f).
Proof. unfold file. rewrite elem_of_elements, elem_of_dom. auto. Qed.

Lemma file_without (f g : string) (w : World) :
  file (without f w) g = if decide (f = g) then None else file w g.
Proof.
  unfold file, without, with_sys; cbn [sys]. rewrite files_set_files.
  apply lookup_delete.
Qed.

Lemma file_put_file (f c g : string) (w : World) :
  file (put_file f c w) g = if decide (f = g) then Some c else file w g.
Proof.
  unfold file, put_file, with_sys; cbn [sys]. rewrite files_set_files.
  apply lookup_insert.
Qed.

Lemma unlink_present (f c : string) (w : World) :
  file w f = Some c ->
  unlink f w = mkOut (Ok tt) (without f w) [EvUnlink f].
Proof. unfold unlink. intros ->. reflexivity. Qed.

Lemma unlink_absent (f : string) (w : World) :
  file w f = None ->
  unlink f w = mkOut (Raise (OSError f)) w [EvUnlink f].
Proof. unfold unlink. intros ->. reflexivity. Qed.

Lemma read_file_run (f : string) (w : World) :
  read_file f w =
  mkOut (match file w f with Some c => Ok c | None => Raise (IOError f) end)
        w [EvOpen f].
Proof. reflexivity. Qed.

Lemma present_true (w : World) (f : string) :
  present w f = true <-> exists c, file w f = Some c.
Proof.
  unfold present. rewrite bool_decide_eq_true. reflexivity.
Qed.

Lemma present_false (w : World) (f : string) :
  present w f = false <-> file w f = None.
Proof.
  unfold present. rewrite bool_decide_eq_false, eq_None_not_Some. reflexivity.
Qed.

Lemma present_without (f g : string) (w : World) :
  present (without f w) g = if decide (f = g) then false else present w g.
Proof.
  unfold present. rewrite file_without. destruct (decide (f = g)); reflexivity.
Qed.

Lemma nonempty_length (c : string) :
  c <> "" -> negb (0 <? String.length c)%nat = false.
Proof. destruct c; [congruence | reflexivity]. Qed.

(** ** The validator *)

Lemma job_output_step_looks (j f : string) (output : list string) (w : World) :
  is_Some (file w f) -> looks (job_output_step j f output) w.
Proof.
  intros [c Hc]. unfold job_output_step, looks.
  destruct (Py.contains ("o" +:+ j) f).
  - run. rewrite Hc. run. split; [eexists|]; reflexivity.
  - split; [eexists|]; reflexivity.
Qed.

Lemma job_output_looks (jobid : option string) (w : World) :
  looks (job_output jobid) w.
Proof.
  destruct jobid as [j|]; cbn [job_output].
  - destruct (for_each_looks (elements (dom (files (sys w))))
                (job_output_step j) w) with (s := [Py.nl]) as [[out E] F].
    + intros f s Hf. apply job_output_step_looks, elem_of_listdir, Hf.
    + unfold looks. run. rewrite E, F. split; [eexists|]; reflexivity.
  - split; [eexists|]; reflexivity.
Qed.

(** An empty CONTCAR next to a jobid file: both are removed, and the
    validator raises. *)
Lemma calculation_is_ok_empty (jobid : option string) (w : World) (j : string) :
  file w "CONTCAR" = Some "" ->
  file w "jobid" = Some j ->
  res (calculation_is_ok jobid w) = Raise (VaspNotFinished msg_empty_contcar) /\
  final (calculation_is_ok jobid w) = without "jobid" (without "CONTCAR" w).
Proof.
  intros Hc Hj. unfold calculation_is_ok.
  destruct (job_output_looks jobid w) as [[out E] F].
  rewrite (bind_ok _ _ _ _ E), F. run. rewrite Hc.
  assert (Hj' : file (without "CONTCAR" w) "jobid" = Some j).
  { rewrite file_without. rewrite decide_False by discriminate. exact Hj. }
  cbn [String.length Nat.ltb Nat.leb negb]. run.
  step_with (unlink_present _ _ _ Hc). step_with (unlink_present _ _ _ Hj').
  split; reflexivity.
Qed.

(** Without a jobid file the second [os.unlink] fails: the exception is
    an OSError, and CONTCAR is gone all the same. *)
Lemma calculation_is_ok_empty_no_jobid (jobid : option string) (w : World) :
  file w "CONTCAR" = Some "" ->
  file w "jobid" = None ->
  res (calculation_is_ok jobid w) = Raise (OSError "jobid") /\
  final (calculation_is_ok jobid w) = without "CONTCAR" w.
Proof.
  intros Hc Hj. unfold calculation_is_ok.
  destruct (job_output_looks jobid w) as [[out E] F].
  rewrite (bind_ok _ _ _ _ E), F. run. rewrite Hc.
  assert (Hj' : file (without "CONTCAR" w) "jobid" = None).
  { rewrite file_without. rewrite decide_False by discriminate. exact Hj. }
  cbn [String.length Nat.ltb Nat.leb negb]. run.
  step_with (unlink_present _ _ _ Hc). step_with (unlink_absent _ _ Hj').
  split; reflexivity.
Qed.

(** With a CONTCAR that has content, the validator only reads; what it
    answers is decided by the last line of OUTCAR. *)
Lemma calculation_is_ok_nonempty (jobid : option string) (w : World)
    (c o : string) :
  file w "CONTCAR" = Some c -> c <> "" ->
  file w "OUTCAR" = Some o ->
  exists output,
    res (job_output jobid w) = Ok output /\
    final (calculation_is_ok jobid w) = w /\
    res (calculation_is_ok jobid w) = verdict output o.
Proof.
  intros Hc Hne Ho. unfold calculation_is_ok, verdict.
  destruct (job_output_looks jobid w) as [[out E] F].
  exists out. split; [exact E|].
  rewrite (bind_ok _ _ _ _ E), F. run. rewrite Hc.
  rewrite (nonempty_length c Hne). run.
  rewrite Ho.
  destruct (last (Py.readlines o)) as [l|]; run.
  - destruct (Py.contains marker l); run; split; reflexivity.
  - split; reflexivity.
Qed.

(** When the validator returns, it has only read. *)
Lemma calculation_is_ok_returns (jobid : option string) (w : World) (b : bool) :
  res (calculation_is_ok jobid w) = Ok b ->
  final (calculation_is_ok jobid w) = w.
Proof.
  intros E.
  destruct (file w "CONTCAR") as [c|] eqn:Hc.
  - destruct (decide (c = "")) as [->|Hne].
    + destruct (file w "jobid") as [j|] eqn:Hj.
      * destruct (calculation_is_ok_empty jobid w j Hc Hj) as [R _]. congruence.
      * destruct (calculation_is_ok_empty_no_jobid jobid w Hc Hj) as [R _].
        congruence.
    + destruct (file w "OUTCAR") as [o|] eqn:Ho.
      * destruct (calculation_is_ok_nonempty jobid w c o Hc Hne Ho)
          as (out & _ & F & _). exact F.
      * exfalso. revert E. unfold calculation_is_ok.
        destruct (job_output_looks jobid w) as [[out E'] F].
        rewrite (bind_ok _ _ _ _ E'), F. run. rewrite Hc.
        rewrite (nonempty_length c Hne). run. rewrite Ho. discriminate.
  - exfalso. revert E. unfold calculation_is_ok.
    destruct (job_output_looks jobid w) as [[out E'] F].
    rewrite (bind_ok _ _ _ _ E'), F. run. rewrite Hc. discriminate.
Qed.

(** The validator stays in the working directory. *)
Lemma calculation_is_ok_cwd (jobid : option string) (w : World) :
  cwd (sys (final (calculation_is_ok jobid w))) = cwd (sys w).
Proof.
  unfold calculation_is_ok.
  destruct (job_output_looks jobid w) as [[out E'] F].
  rewrite (bind_ok _ _ _ _ E'), F. run.
  destruct (file w "CONTCAR") as [c|] eqn:Hc; [|reflexivity].
  destruct (negb (0 <? String.length c)%nat).
  - rewrite (bind_eq _ _ _ _ _ _ (unlink_present _ _ _ Hc)). cbn [prepend final].
    unfold bind, unlink. destruct (file (without "CONTCAR" w) "jobid"); reflexivity.
  - run. destruct (file w "OUTCAR") as [o|]; [|reflexivity].
    destruct (last (Py.readlines o)) as [l|]; [|reflexivity]. run.
    destruct (negb (Py.contains marker l)); reflexivity.
Qed.

(** ** The controller *)

Lemma probes_no_hook (evs : list event) :
  Forall probe evs -> hooks_fired evs = [].
Proof.
  induction 1 as [|e evs He _ IH]; [reflexivity|].
  unfold hooks_fired in *. cbn. destruct e; cbn in *; tauto.
Qed.

Lemma probes_no_unlink (evs : list event) :
  Forall probe evs -> filter is_unlink evs = [].
Proof.
  induction 1 as [|e evs He _ IH]; [reflexivity|].
  cbn. destruct e; cbn in *; tauto.
Qed.

Section ControllerFacts.
Context `{Collaborators}.

Lemma tests_exists (f : string) (w : World) :
  tests (path_exists f) (present w f) w.
Proof. exists [EvExists f]. split; [repeat constructor | reflexivity]. Qed.

Lemma tests_queue (w : World) : tests job_in_queue (in_queue (sys w)) w.
Proof. exists [EvQueue]. split; [repeat constructor | reflexivity]. Qed.

Lemma tests_not (c : M bool) (b : bool) (w : World) :
  tests c b w -> tests (not_ c) (negb b) w.
Proof.
  intros (evs & Hp & E). exists (evs ++ []). split.
  - rewrite app_nil_r. exact Hp.
  - unfold not_. rewrite (bind_eq _ _ _ _ _ _ E). reflexivity.
Qed.

Lemma tests_and (c1 c2 : M bool) (b1 b2 : bool) (w : World) :
  tests c1 b1 w -> tests c2 b2 w -> tests (c1 &&& c2) (b1 && b2) w.
Proof.
  intros (e1 & H1 & E1) (e2 & H2 & E2). unfold tests, and_then.
  rewrite (bind_eq _ _ _ _ _ _ E1). destruct b1; cbn [andb].
  - exists (e1 ++ e2). split; [apply Forall_app; auto|].
    rewrite E2. reflexivity.
  - exists (e1 ++ []). split; [rewrite app_nil_r; exact H1 | reflexivity].
Qed.

Lemma prepend_nil {A} (o : Out A) : prepend [] o = o.
Proof. destruct o; reflexivity. Qed.

Lemma prepend_prepend {A} (e1 e2 : list event) (o : Out A) :
  prepend e1 (prepend e2 o) = prepend (e1 ++ e2) o.
Proof. unfold prepend; cbn. rewrite app_assoc. reflexivity. Qed.

Lemma if_tests {A} (c : M bool) (b : bool) (w : World) (t e : M A) :
  tests c b w ->
  exists evs, Forall probe evs /\
    if_ c t e w = prepend evs ((if b then t else e) w).
Proof.
  intros (evs & Hp & E). exists evs. split; [exact Hp|].
  unfold if_. rewrite (bind_eq _ _ _ _ _ _ E). reflexivity.
Qed.

Create HintDb tests.
Hint Resolve tests_exists tests_queue tests_not tests_and : tests.

(** The first chain tests the conditions, changes nothing while it
    does, and runs the branch of the state. *)
Lemma resolve_classify (a : Args) (w : World) :
  exists evs, Forall probe evs /\
    resolve a w = prepend evs (branch (classify a w) a w).
Proof.
  unfold resolve, classify, rule_neb.
  destruct (has_key "spring" (kwargs a)).
  { exists []. split; [constructor | symmetry; apply prepend_nil]. }
  edestruct (if_tests (A := Locals) (not_ (path_exists "INCAR"))
               (rule_empty w)) as (e1 & P1 & ->); [unfold rule_empty; eauto with tests|].
  destruct (rule_empty w); cbv beta iota;
    [exists e1; split; [assumption | reflexivity]|].
  edestruct (if_tests (A := Locals)
               (not_ (path_exists "jobid") &&& path_exists "INCAR"
                &&& not_ (path_exists "CONTCAR")) (rule_configured w))
    as (e2 & P2 & ->);
    [unfold rule_configured; eauto 10 with tests|].
  rewrite prepend_prepend.
  destruct (rule_configured w); cbv beta iota;
    [eexists; split; [|reflexivity]; repeat (apply Forall_app; split); assumption|].
  edestruct (if_tests (A := Locals)
               (path_exists "jobid" &&& job_in_queue
                &&& not_ (path_exists "running")) (rule_queued w))
    as (e3 & P3 & ->);
    [unfold rule_queued; eauto 10 with tests|].
  rewrite prepend_prepend.
  destruct (rule_queued w); cbv beta iota;
    [eexists; split; [|reflexivity]; repeat (apply Forall_app; split); assumption|].
  edestruct (if_tests (A := Locals)
               (path_exists "jobid" &&& job_in_queue
                &&& path_exists "running") (rule_running w))
    as (e4 & P4 & ->);
    [unfold rule_running; eauto 10 with tests|].
  rewrite prepend_prepend.
  destruct (rule_running w); cbv beta iota;
    [eexists; split; [|reflexivity]; repeat (apply Forall_app; split); assumption|].
  edestruct (if_tests (A := Locals)
               (path_exists "jobid" &&& not_ job_in_queue
                &&& not_ (path_exists "running")) (rule_finished w))
    as (e5 & P5 & ->);
    [unfold rule_finished; eauto 10 with tests|].
  rewrite prepend_prepend.
  destruct (rule_finished w); cbv beta iota;
    [eexists; split; [|reflexivity]; repeat (apply Forall_app; split); assumption|].
  eexists. split; [|destruct (rule_observed w); reflexivity].
  repeat (apply Forall_app; split); assumption.
Qed.

(** Line 318 reads [self]. *)
Lemma cleanup_unbound (a : Args) (l : Locals) (w : World) :
  l_self l = None ->
  cleanup a l w = mkOut (Raise (UnboundLocalError "self")) w [].
Proof.
  intros E. unfold cleanup, if_, and_then, not_, self_attr. rewrite E.
  reflexivity.
Qed.

(** Only the branch of the queued job assigns [self]. *)
Lemma branch_no_self (s : State) (a : Args) (w : World) (l : Locals) :
  s <> Queued -> res (branch s a w) = Ok l -> l_self l = None.
Proof.
  intros Hs E. destruct s; try congruence; cbn [branch] in E;
    try (cbn in E; injection E as <-; reflexivity).
  - unfold neb_branch in E.
    repeat (apply bind_res_ok in E as (? & _ & E)).
    cbn in E; injection E as <-; reflexivity.
  - unfold empty_branch in E.
    repeat (apply bind_res_ok in E as (? & _ & E)).
    cbn in E; injection E as <-; reflexivity.
  - unfold configured_branch in E.
    repeat (apply bind_res_ok in E as (? & _ & E)).
    destruct (atoms a).
    + repeat (apply bind_res_ok in E as (? & _ & E)).
      cbn in E; injection E as <-; reflexivity.
    + match type of E with
      | res (match ?o with _ => _ end) = _ =>
          destruct o as [[?|[]] ? ?]; cbn in E; try discriminate;
            injection E as <-; reflexivity
      end.
  - unfold running_branch in E.
    repeat (apply bind_res_ok in E as (? & _ & E)).
    cbn in E; injection E as <-; reflexivity.
  - unfold finished_branch in E.
    repeat (apply bind_res_ok in E as (? & _ & E)).
    cbn in E; injection E as <-; reflexivity.
Qed.

(** Outside the queued state the call ends at line 318 at the latest:
    when the branch of the state returns, [self] is read and is not
    there. *)
Lemma Jasp_no_self (a : Args) (w : World) (evs : list event) (m : M Locals) :
  resolve a w = prepend evs (m w) ->
  (forall l, res (m w) = Ok l -> l_self l = None) ->
  Jasp a w =
  mkOut (match res (m w) with
         | Ok _ => Raise (UnboundLocalError "self")
         | Raise e => Raise e
         end)
        (final (m w)) (called w :: evs ++ events (m w)).
Proof.
  intros E Hn.
  unfold prepend in E. unfold Jasp, Jasp_resolved.
  assert (R : (l <- resolve a ;; l' <- cleanup a l ;; prepare l') w =
              mkOut (match res (m w) with
                     | Ok _ => Raise (UnboundLocalError "self")
                     | Raise e => Raise e
                     end) (final (m w)) (evs ++ events (m w))).
  { rewrite (bind_eq (resolve a) _ w _ _ _ E).
    destruct (m w) as [[l|e] w' ev]; cbn in *; [|reflexivity].
    rewrite (bind_eq _ _ _ _ _ _ (cleanup_unbound a l w' (Hn l eq_refl))).
    unfold prepend. cbn. rewrite !app_nil_r. reflexivity. }
  unfold bind at 1. unfold bind at 1. cbn [getcwd]. unfold bind at 1.
  cbn [log_debug tell]. rewrite R. unfold called.
  destruct (res (m w)); reflexivity.
Qed.

Lemma Jasp_not_queued (a : Args) (w : World) :
  classify a w <> Queued ->
  exists evs, Forall probe evs /\
    Jasp a w =
    mkOut (match res (branch (classify a w) a w) with
           | Ok _ => Raise (UnboundLocalError "self")
           | Raise e => Raise e
           end)
          (final (branch (classify a w) a w))
          (called w :: evs ++ events (branch (classify a w) a w)).
Proof.
  intros Hs. destruct (resolve_classify a w) as (evs & Hp & E).
  exists evs. split; [exact Hp|].
  apply Jasp_no_self; [exact E|].
  intros l. apply branch_no_self. exact Hs.
Qed.

Lemma resolve_empty (a : Args) (w : World) :
  classify a w = Empty ->
  resolve a w = prepend [EvExists "INCAR"] (empty_branch a w).
Proof.
  unfold classify, resolve, rule_neb.
  destruct (has_key "spring" (kwargs a)); [discriminate|].
  unfold rule_empty at 1. intros E.
  unfold if_, not_. cbv beta iota delta [bind path_exists ret prepend res final events].
  destruct (present w "INCAR"); cbn [negb] in *.
  - exfalso. revert E. repeat case_match; discriminate.
  - reflexivity.
Qed.

(** *** Where hooks are called *)

Lemma not_hook_fired (evs : list event) :
  Forall not_hook evs -> hooks_fired evs = [].
Proof.
  induction 1 as [|e evs He _ IH]; [reflexivity|].
  unfold hooks_fired in *. cbn. rewrite He. exact IH.
Qed.

Lemma probe_not_hook (evs : list event) :
  Forall probe evs -> Forall not_hook evs.
Proof.
  intros Hp. eapply Forall_impl; [exact Hp|].
  intros []; cbn; try tauto; reflexivity.
Qed.

Ltac quiet :=
  repeat first
    [ progress unfold calculation_is_ok, job_output, job_output_step,
        read_sort, Vasp_restart, neb_branch, empty_branch, running_branch,
        load_finished, queued_setup, identity_sort, queued_structure,
        queued_branch, observed_branch, self_attr, cleanup,
        save_params, save_initial_params, prepare, finish
    | emits_step ];
  try reflexivity.

Lemma calculation_is_ok_quiet (jobid : option string) :
  emits not_hook (calculation_is_ok jobid).
Proof. quiet. Qed.

Lemma configured_branch_quiet (a : Args) : emits not_hook (configured_branch a).
Proof.
  unfold configured_branch. quiet.
  intros w. cbv beta.
  match goal with
  | |- Forall _ (events (match ?m w with _ => _ end)) =>
      let Hq := fresh in
      assert (Hq : emits not_hook m) by quiet;
      specialize (Hq w); destruct (m w) as [[?|[]] ? ?]; exact Hq
  end.
Qed.

(** Hooks are called in the branch of the finished job only. *)
Lemma branch_quiet (s : State) (a : Args) :
  s <> Finished -> emits not_hook (branch s a).
Proof.
  intros Hs. destruct s; try congruence; cbn [branch];
    try apply configured_branch_quiet; quiet.
Qed.

Lemma load_finished_quiet (a : Args) : emits not_hook (load_finished a).
Proof. quiet. Qed.

(** The loop of lines 315-316 calls the hooks of the list from the
    first on, each once, until one raises; the exception of the loop
    is the exception of that hook. *)
Lemma run_hooks_events (calc : loc) (hs : list hook) (w : World) :
  exists n,
    events (run_hooks calc hs w) = map (fun h => EvHook h calc) (take n hs) /\
    (res (run_hooks calc hs w) = Ok tt -> n = length hs) /\
    (forall e, res (run_hooks calc hs w) = Raise e ->
       exists k h w', n = S k /\ hs !! k = Some h /\
                      fst (run_hook h calc w') = Raise e).
Proof.
  revert w. induction hs as [|h hs IH]; intros w.
  - exists 0. repeat split; cbn; congruence.
  - unfold run_hooks in *. cbn [for_each]. run.
    destruct (run_hook h calc w) as [[[]|e] w'] eqn:Eh; cbn [fst snd].
    + destruct (IH w') as (n & Ev & Hok & Hraise).
      exists (S n). cbn [prepend res events take map app].
      rewrite Ev. split; [reflexivity|]. split.
      * intros E. cbn. f_equal. apply Hok, E.
      * intros e E. destruct (Hraise e E) as (k & h' & w'' & -> & Hk & Hr).
        exists (S k), h', w''. repeat split; assumption.
    + exists 1. cbn. split; [destruct hs; reflexivity|]. split; [discriminate|].
      intros e' [= <-]. exists 0, h, w. rewrite Eh. repeat split.
Qed.

(** Without a jobid file no hook is called, whatever the arguments. *)
Lemma no_jobid_no_hooks (a : Args) (w : World) :
  present w "jobid" = false -> hooks_fired (events (Jasp a w)) = [].
Proof.
  intros Hj.
  assert (Hs : classify a w <> Queued /\ classify a w <> Finished).
  { unfold classify, rule_queued, rule_running, rule_finished. rewrite Hj.
    cbn [andb]. repeat case_match; split; discriminate. }
  destruct Hs as [Hq Hf].
  destruct (Jasp_not_queued a w Hq) as (evs & Hp & ->). cbn [events].
  apply not_hook_fired. constructor; [reflexivity|].
  apply Forall_app. split; [apply probe_not_hook, Hp|].
  apply branch_quiet, Hf.
Qed.

(** The branch of the finished job when the validator raises. *)
Lemma finished_branch_rejected (a : Args) (w : World) (j : string) (e : exn) :
  file w "jobid" = Some j ->
  res (calculation_is_ok (Some (Py.before_dot (Py.readline j))) w) = Raise e ->
  finished_branch a w =
  mkOut (Raise e)
        (final (calculation_is_ok (Some (Py.before_dot (Py.readline j))) w))
        ([EvLog msg_finished; EvOpen "jobid"]
         ++ events (calculation_is_ok (Some (Py.before_dot (Py.readline j))) w)).
Proof.
  intros Hj E. unfold finished_branch. run. rewrite Hj.
  rewrite (bind_raise _ _ _ _ E). reflexivity.
Qed.

(** The branch of the finished job when the validator returns. *)
Lemma finished_branch_accepted (a : Args) (w : World) (j : string) (b : bool) :
  file w "jobid" = Some j ->
  res (calculation_is_ok (Some (Py.before_dot (Py.readline j))) w) = Ok b ->
  finished_branch a w =
  prepend ([EvLog msg_finished; EvOpen "jobid"]
           ++ events (calculation_is_ok (Some (Py.before_dot (Py.readline j))) w)
           ++ [EvUnlink "jobid"])
          ((calc <- load_finished a ;;
            run_post_run_hooks calc ;;
            ret (mkLocals (Some calc) None (atoms a))) (without "jobid" w)).
Proof.
  intros Hj E. unfold finished_branch. run. rewrite Hj.
  rewrite (bind_ok _ _ _ _ E), (calculation_is_ok_returns _ _ _ E).
  rewrite (bind_eq _ _ _ _ _ _ (unlink_present _ _ _ Hj)).
  unfold prepend. cbn [res final events app]. rewrite <- !app_assoc. reflexivity.
Qed.

(** The call in the state of the finished job when the validator raises. *)
Lemma Jasp_finished_rejected (a : Args) (w : World) (j : string) (e : exn) :
  classify a w = Finished ->
  file w "jobid" = Some j ->
  res (calculation_is_ok (Some (Py.before_dot (Py.readline j))) w) = Raise e ->
  exists probes, Forall probe probes /\
    Jasp a w =
    mkOut (Raise e)
          (final (calculation_is_ok (Some (Py.before_dot (Py.readline j))) w))
          (called w :: probes ++ [EvLog msg_finished; EvOpen "jobid"]
             ++ events (calculation_is_ok (Some (Py.before_dot (Py.readline j))) w)).
Proof.
  intros Hs Hj E.
  assert (Hq : classify a w <> Queued) by (rewrite Hs; discriminate).
  destruct (Jasp_not_queued a w Hq) as (probes & Hp & J).
  rewrite Hs in J. cbn [branch] in J.
  rewrite (finished_branch_rejected a w j e Hj E) in J.
  exists probes. split; [exact Hp | exact J].
Qed.

(** *** The states in which the call cannot return *)

Lemma empty_branch_touches (a : Args) :
  emits (fun e => touches "jobid" e = false /\ touches "running" e = false)
        (empty_branch a).
Proof. unfold empty_branch. repeat emits_step. split; reflexivity. Qed.

End ControllerFacts.

(** ** The claims on the states that line 318 cuts off *)

Section CutOff.
Context `{Collaborators}.

(** C2 (the code departs from it): in the state "finished, previously
    observed" no calculator is returned.  The first chain has no branch
    for the state, the cleanup at line 318 reads the local variable
    [self], which only the branch of the queued job assigns, and the
    call ends with an UnboundLocalError; the branch written for the
    state (lines 328-341) is never reached.  The directory is left as
    it was and no hook is called, so a second call does the same. *)
Theorem Jasp_observed_raises (a : Args) (w : World) :
  classify a w = Observed ->
  res (Jasp a w) = Raise (UnboundLocalError "self") /\
  final (Jasp a w) = w /\
  hooks_fired (events (Jasp a w)) = [] /\
  res (Jasp a (final (Jasp a w))) = Raise (UnboundLocalError "self") /\
  hooks_fired (events (Jasp a (final (Jasp a w)))) = [].
Proof.
  intros E.
  assert (Hq : classify a w <> Queued) by (rewrite E; discriminate).
  destruct (Jasp_not_queued a w Hq) as (evs & Hp & J).
  rewrite E in J. cbn [branch ret res final events] in J.
  assert (F : final (Jasp a w) = w) by (rewrite J; reflexivity).
  rewrite F, J. cbn [res final events].
  assert (Hh : hooks_fired (called w :: evs ++ []) = []).
  { apply not_hook_fired. constructor; [reflexivity|].
    rewrite app_nil_r. apply probe_not_hook, Hp. }
  repeat split; try reflexivity; exact Hh.
Qed.

(** C3 (the code departs from it): for a combination of sentinel
    files that no rule matches, the call does not reach the [else] that
    raises VaspUnknownState: it ends at line 318 with an
    UnboundLocalError for [self].  No file is deleted. *)
Theorem Jasp_unrecognized_raises (a : Args) (w : World) :
  classify a w = Unrecognized ->
  res (Jasp a w) = Raise (UnboundLocalError "self") /\
  (forall msg, res (Jasp a w) <> Raise (VaspUnknownState msg)) /\
  final (Jasp a w) = w /\
  filter is_unlink (events (Jasp a w)) = [].
Proof.
  intros E.
  assert (Hq : classify a w <> Queued) by (rewrite E; discriminate).
  destruct (Jasp_not_queued a w Hq) as (evs & Hp & J).
  rewrite E in J. cbn [branch ret res final events] in J. rewrite J. cbn [res final events].
  repeat split; try discriminate.
  rewrite app_nil_r. cbn. apply probes_no_unlink, Hp.
Qed.

(** C8 (the code departs from it): in a directory without INCAR the
    branch of the empty directory is taken, and nothing is done to the
    files jobid and running; but no calculator is returned: when the
    new calculator has been built, and attached to the [atoms] argument
    if there is one, the call ends at line 318 with an UnboundLocalError
    for [self]. *)
Theorem Jasp_empty_raises (a : Args) (w : World) :
  classify a w = Empty ->
  (forall c, res (Jasp a w) <> Ok c) /\
  Forall (fun e => touches "jobid" e = false /\ touches "running" e = false)
         (events (Jasp a w)) /\
  (forall c h,
      Vasp (restart a) (output_template a) (track_output a) (sys w) (heap w)
      = (Ok c, h) ->
      atoms a = None ->
      Jasp a w = mkOut (Raise (UnboundLocalError "self")) (mkWorld (sys w) h)
                       [called w; EvExists "INCAR"; EvLog msg_empty]) /\
  (forall c h at_ v,
      Vasp (restart a) (output_template a) (track_output a) (sys w) (heap w)
      = (Ok c, h) ->
      atoms a = Some at_ ->
      atomss h !! at_ = Some v ->
      res (Jasp a w) = Raise (UnboundLocalError "self") /\
      sys (final (Jasp a w)) = sys w /\
      atomss (heap (final (Jasp a w))) !! at_ =
        Some (Atoms.mk (Atoms.cell v) (Atoms.positions v) (Some c))).
Proof.
  intros E. pose proof (resolve_empty a w E) as R.
  assert (Hn : forall l, res (empty_branch a w) = Ok l -> l_self l = None)
    by (intros l; apply (branch_no_self Empty); discriminate).
  pose proof (Jasp_no_self a w _ _ R Hn) as J.
  split; [|split; [|split]].
  - intros c. rewrite J. cbn [res].
    destruct (res (empty_branch a w)); discriminate.
  - rewrite J. cbn [events].
    constructor; [split; reflexivity|].
    constructor; [split; reflexivity|].
    apply empty_branch_touches.
  - intros c h Hv Ha. rewrite J. unfold empty_branch. rewrite Ha.
    unfold bind, call. rewrite Hv. reflexivity.
  - intros c h at_ v Hv Ha Hat. rewrite J. unfold empty_branch. rewrite Ha.
    unfold bind, call, set_calculator, update_atoms. rewrite Hv.
    cbn [fst snd heap atomss]. rewrite Hat. cbn.
    rewrite lookup_insert_eq. repeat split.
Qed.

End CutOff.

(** ** The hooks of a finished job *)

Section FinishedFirst.
Context `{Collaborators}.

Lemma hooks_fired_app (e1 e2 : list event) :
  hooks_fired (e1 ++ e2) = hooks_fired e1 ++ hooks_fired e2.
Proof. apply filter_app. Qed.

Lemma hooks_fired_hooks (calc : loc) (hs : list hook) :
  hooks_fired (map (fun h => EvHook h calc) hs) = map (fun h => EvHook h calc) hs.
Proof.
  induction hs as [|h hs IH]; [reflexivity|].
  unfold hooks_fired in *. cbn [map].
  rewrite filter_cons_True by exact I. rewrite IH. reflexivity.
Qed.

Lemma run_post_run_hooks_run (calc : loc) (cv : Calc.t) (w : World) :
  calcs (heap w) !! calc = Some cv ->
  run_post_run_hooks calc w =
  run_hooks calc (default [] (Calc.post_run_hooks cv)) w.
Proof.
  intros E. unfold run_post_run_hooks, bind, get_calc. rewrite E.
  destruct (Calc.post_run_hooks cv); cbn [default]; apply prepend_nil.
Qed.

(** The loop of the source and the hooks told one by one. *)
Lemma run_hooks_fire (calc : loc) (hs : list hook) (w : World) :
  run_hooks calc hs w =
  mkOut (outcome (fire hs calc w)) (left_ (fire hs calc w))
        (map (fun h => EvHook h calc) (fired (fire hs calc w))).
Proof.
  revert w. induction hs as [|h hs IH]; intros w; [reflexivity|].
  unfold run_hooks in *. cbn [for_each fire].
  unfold bind at 1. unfold bind at 1. cbn [tell]. unfold act.
  destruct (run_hook h calc w) as [[[]|e] w']; cbn; [|reflexivity].
  rewrite IH. reflexivity.
Qed.

Lemma fire_all (hs : list hook) (calc : loc) (w : World) :
  outcome (fire hs calc w) = Ok tt -> fired (fire hs calc w) = hs.
Proof.
  revert w. induction hs as [|h hs IH]; intros w; [reflexivity|].
  cbn [fire]. destruct (run_hook h calc w) as [[[]|e] w']; cbn; [|discriminate].
  intros E. rewrite (IH _ E). reflexivity.
Qed.

Lemma fire_raise (hs : list hook) (calc : loc) (w : World) (e : exn) :
  outcome (fire hs calc w) = Raise e ->
  exists k h,
    hs !! k = Some h /\
    fired (fire hs calc w) = take (S k) hs /\
    outcome (fire (take k hs) calc w) = Ok tt /\
    run_hook h calc (left_ (fire (take k hs) calc w))
    = (Raise e, left_ (fire hs calc w)).
Proof.
  revert w. induction hs as [|h hs IH]; intros w; [discriminate|].
  cbn [fire]. destruct (run_hook h calc w) as [[[]|e'] w'] eqn:R; cbn.
  - intros E. destruct (IH _ E) as (k & h' & Hk & Hf & Ho & Hr).
    exists (S k), h'. cbn [take fire]. rewrite R. cbn.
    split; [exact Hk|]. split; [rewrite Hf; reflexivity|].
    split; [exact Ho | exact Hr].
  - intros [= <-]. exists 0, h. cbn. rewrite R. repeat split.
Qed.

End FinishedFirst.

(** ** The claims on the validator *)

Lemma contcar_is_no_job_output (j : string) :
  Py.contains ("o" +:+ j) "CONTCAR" = false.
Proof. reflexivity. Qed.

(** The captured job output does not depend on what CONTCAR holds. *)
Lemma job_output_contcar (jobid : option string) (w : World) (c c' : string) :
  file w "CONTCAR" = Some c ->
  res (job_output jobid (put_file "CONTCAR" c' w)) = res (job_output jobid w).
Proof.
  intros Hc. destruct jobid as [j|]; [|reflexivity].
  cbn [job_output]. run.
  assert (D : dom (files (sys (put_file "CONTCAR" c' w))) = dom (files (sys w))).
  { unfold put_file, with_sys; cbn [sys]. rewrite files_set_files, dom_insert_L.
    apply subseteq_union_1_L, singleton_subseteq_l, elem_of_dom.
    eexists; exact Hc. }
  rewrite D. clear D.
  assert (G : forall l s,
             (forall f, f ∈ l -> is_Some (file w f)) ->
             res (for_each l (job_output_step j) s (put_file "CONTCAR" c' w)) =
             res (for_each l (job_output_step j) s w)).
  { induction l as [|f l IH]; intros s Hl; [reflexivity|].
    cbn [for_each].
    assert (St : exists s', job_output_step j f s (put_file "CONTCAR" c' w)
                            = mkOut (Ok s') (put_file "CONTCAR" c' w)
                                    (if Py.contains ("o" +:+ j) f then [EvOpen f] else [])
                            /\ job_output_step j f s w
                            = mkOut (Ok s') w
                                    (if Py.contains ("o" +:+ j) f then [EvOpen f] else [])).
    { destruct (Hl f) as [x Hx]; [left|]. unfold job_output_step.
      destruct (Py.contains ("o" +:+ j) f) eqn:Ec.
      - assert (f <> "CONTCAR")
          by (intros ->; rewrite contcar_is_no_job_output in Ec; discriminate).
        run. rewrite file_put_file, decide_False by congruence. rewrite Hx.
        eexists; split; reflexivity.
      - eexists; split; reflexivity. }
    destruct St as (s' & E1 & E2).
    rewrite (bind_eq _ _ _ _ _ _ E1), (bind_eq _ _ _ _ _ _ E2).
    cbn [prepend res]. apply IH. intros g Hg. apply Hl. right. exact Hg. }
  cbn [prepend res]. apply G. intros f Hf. apply elem_of_listdir, Hf.
Qed.

(** C5, as the code has it: with a CONTCAR that is not empty, a log
    whose last line lacks the termination marker makes the validator
    raise VaspNotFinished with a message that ends in the last 20 lines
    of the log (all of them when there are fewer); nothing is changed,
    and the exception is the same whatever the (non-empty) content of
    CONTCAR. *)
Theorem no_marker_rejected (jobid : option string) (w : World) (c o l : string) :
  file w "CONTCAR" = Some c -> c <> "" ->
  file w "OUTCAR" = Some o ->
  last (Py.readlines o) = Some l ->
  Py.contains marker l = false ->
  exists output,
    res (job_output jobid w) = Ok output /\
    res (calculation_is_ok jobid w) =
      Raise (VaspNotFinished
               (Py.join (output ++ ["Last 20 lines of OUTCAR:" +:+ Py.nl]
                                ++ Py.lastn 20 (Py.readlines o) ++ [rule]))) /\
    final (calculation_is_ok jobid w) = w /\
    forall c', c' <> "" ->
      res (calculation_is_ok jobid (put_file "CONTCAR" c' w)) =
      res (calculation_is_ok jobid w).
Proof.
  intros Hc Hne Ho Hl Hm.
  destruct (calculation_is_ok_nonempty jobid w c o Hc Hne Ho) as (out & E & F & R).
  exists out. split; [exact E|].
  assert (V : verdict out o =
              Raise (VaspNotFinished (not_finished_message out (Py.readlines o))))
    by (unfold verdict; rewrite Hl, Hm; reflexivity).
  split; [rewrite R, V; reflexivity|]. split; [exact F|].
  intros c' Hne'.
  assert (Hc' : file (put_file "CONTCAR" c' w) "CONTCAR" = Some c')
    by (rewrite file_put_file, decide_True; reflexivity).
  assert (Ho' : file (put_file "CONTCAR" c' w) "OUTCAR" = Some o)
    by (rewrite file_put_file, decide_False by discriminate; exact Ho).
  destruct (calculation_is_ok_nonempty jobid _ c' o Hc' Hne' Ho')
    as (out' & E' & _ & R').
  rewrite (job_output_contcar jobid w c c' Hc), E in E'.
  injection E' as <-. rewrite R, R'. reflexivity.
Qed.

Section Collected.
Context `{Collaborators}.

(** C4: an empty CONTCAR, next to a jobid file, makes the validator
    delete CONTCAR and jobid (and nothing else) and raise
    VaspNotFinished.  In a directory with an INCAR, a following call of
    the controller (without the NEB keyword) finds the state
    "configured, not submitted" and runs its branch; the validator is
    not run again. *)
Theorem empty_contcar_collected (jobid : option string) (w : World) (j : string) :
  file w "CONTCAR" = Some "" ->
  file w "jobid" = Some j ->
  let v := calculation_is_ok jobid w in
  res v = Raise (VaspNotFinished msg_empty_contcar) /\
  final v = without "jobid" (without "CONTCAR" w) /\
  (forall f, file (final v) f =
             if decide (f = "CONTCAR" \/ f = "jobid") then None else file w f) /\
  forall a,
    has_key "spring" (kwargs a) = false ->
    present w "INCAR" = true ->
    classify a (final v) = Configured /\
    exists probes, Forall probe probes /\
      Jasp a (final v) =
      mkOut (match res (configured_branch a (final v)) with
             | Ok _ => Raise (UnboundLocalError "self")
             | Raise e => Raise e
             end)
            (final (configured_branch a (final v)))
            (called (final v) :: probes
               ++ events (configured_branch a (final v))).
Proof.
  intros Hc Hj v.
  destruct (calculation_is_ok_empty jobid w j Hc Hj) as [R F]. fold v in R, F.
  split; [exact R|]. split; [exact F|]. split.
  - intros f. rewrite F, !file_without.
    repeat case_decide; subst; try reflexivity; exfalso; intuition congruence.
  - intros a Hk Hi.
    assert (C : classify a (final v) = Configured).
    { unfold classify, rule_neb, rule_empty, rule_configured. rewrite Hk, F.
      rewrite !present_without.
      repeat case_decide; try discriminate; try congruence.
      rewrite Hi. reflexivity. }
    split; [exact C|].
    assert (Hq : classify a (final v) <> Queued) by (rewrite C; discriminate).
    destruct (Jasp_not_queued a (final v) Hq) as (probes & Hp & J).
    rewrite C in J. exists probes. split; [exact Hp | exact J].
Qed.

End Collected.

(** ** The claim on the sort arrays of a queued job *)

Section QueuedSort.
Context `{Collaborators}.

Lemma has_images_pure (c : loc) (w : World) :
  final (has_images c w) = w /\ events (has_images c w) = [].
Proof.
  unfold has_images, params_get, bind, get_calc.
  destruct (calcs (heap w) !! c) as [v|]; cbn; [|split; reflexivity].
  destruct (dicts (heap w) !! Calc.params v int_params); cbn; split; reflexivity.
Qed.

Lemma keeps_sys_bind {A B} (m : M A) (k : A -> M B) :
  keeps_sys m -> (forall x, keeps_sys (k x)) -> keeps_sys (bind m k).
Proof.
  intros Hm Hk w. unfold bind. specialize (Hm w).
  destruct (m w) as [[x|e] w' ev]; cbn in *; [|exact Hm].
  rewrite Hk. exact Hm.
Qed.

Lemma keeps_sys_call {A} (r : reader A) : keeps_sys (call r).
Proof. intros w. reflexivity. Qed.

Lemma keeps_sys_ret {A} (x : A) : keeps_sys (ret x).
Proof. intros w. reflexivity. Qed.

Lemma keeps_sys_update_calc (c : loc) (f : Calc.t -> Calc.t) :
  keeps_sys (update_calc c f).
Proof. intros w. unfold update_calc. destruct (calcs (heap w) !! c); reflexivity. Qed.

Lemma queued_setup_sys (a : Args) (w : World) :
  sys (final (queued_setup a w)) = sys w.
Proof.
  revert w. unfold queued_setup.
  repeat first [ apply keeps_sys_bind; [|intros ?]
               | apply keeps_sys_call | apply keeps_sys_ret
               | apply keeps_sys_update_calc ].
Qed.

(** Lines 239-241 without the [atoms] argument. *)
Lemma identity_sort_no_atoms (a : Args) (self : loc) (w : World) :
  atoms a = None ->
  (forall p, res (identity_sort a self w) <> Ok p) /\
  (forall p h, ase_io_read "POSCAR" (sys w) (heap w) = (Ok p, h) ->
               res (identity_sort a self w) = Raise no_len).
Proof.
  intros Ha. unfold identity_sort. rewrite Ha. run.
  destruct (ase_io_read "POSCAR" (sys w) (heap w)) as [[p|e] h]; cbn [fst snd].
  - split; [discriminate|]. intros p' h' _. reflexivity.
  - split; [discriminate|]. intros p' h' [=].
Qed.

Lemma update_calc_run (c : loc) (f : Calc.t -> Calc.t) (w : World) (v : Calc.t) :
  calcs (heap w) !! c = Some v ->
  update_calc c f w =
  mkOut (Ok tt)
        (mkWorld (sys w) (mkHeap (dicts (heap w)) (<[c := f v]> (calcs (heap w)))
                                 (atomss (heap w)))) [].
Proof. unfold update_calc. intros ->. reflexivity. Qed.

Lemma len_atoms_run (at_ : loc) (w : World) (v : Atoms.t) :
  atomss (heap w) !! at_ = Some v ->
  len_atoms (Some at_) w = mkOut (Ok (length (Atoms.positions v))) w [].
Proof. unfold len_atoms, bind, get_atoms. intros ->. reflexivity. Qed.

(** Lines 239-241 with it. *)
Lemma identity_sort_atoms (a : Args) (self at_ p : loc) (w : World) (h : Heap)
    (v : Atoms.t) (cv : Calc.t) :
  atoms a = Some at_ ->
  ase_io_read "POSCAR" (sys w) (heap w) = (Ok p, h) ->
  atomss h !! at_ = Some v ->
  calcs h !! self = Some cv ->
  res (identity_sort a self w) = Ok p /\
  calcs (heap (final (identity_sort a self w))) !! self =
    Some (Calc.set_resort (Py.range (length (Atoms.positions v)))
            (Calc.set_sort (Py.range (length (Atoms.positions v))) cv)).
Proof.
  intros Ha Hr Hv Hc. unfold identity_sort. rewrite Ha. run. rewrite Hr.
  cbn [fst snd].
  set (n := length (Atoms.positions v)).
  set (w1 := mkWorld (sys w) h).
  rewrite (bind_eq _ _ _ _ _ _ (len_atoms_run at_ w1 v Hv)). cbn [prepend].
  rewrite (bind_eq _ _ _ _ _ _ (update_calc_run self _ w1 cv Hc)).
  cbn [prepend]. fold n.
  set (cv1 := Calc.set_sort (Py.range n) cv).
  set (w2 := mkWorld (sys w1) (mkHeap (dicts (heap w1)) (<[self := cv1]> (calcs (heap w1)))
                                       (atomss (heap w1)))).
  rewrite (bind_eq _ _ _ _ _ _ (len_atoms_run at_ w2 v Hv)). cbn [prepend].
  assert (Hc2 : calcs (heap w2) !! self = Some cv1) by apply lookup_insert_eq.
  rewrite (bind_eq _ _ _ _ _ _ (update_calc_run self _ w2 cv1 Hc2)).
  cbn [prepend res final heap calcs ret]. rewrite lookup_insert_eq.
  split; reflexivity.
Qed.

(** In the queued state, for a job that is not an NEB and has no sort
    file, an exception of lines 239-241 is the exception of the call. *)
Lemma Jasp_queued_identity_sort (a : Args) (w : World) (self : loc) (e : exn) :
  classify a w = Queued ->
  present w "ase-sort.dat" = false ->
  res (queued_setup a w) = Ok self ->
  res (has_images self (final (queued_setup a w))) = Ok false ->
  res (identity_sort a self (final (queued_setup a w))) = Raise e ->
  res (Jasp a w) = Raise e.
Proof.
  intros Hs Hf Hq Hi Hb.
  destruct (resolve_classify a w) as (probes & _ & R). rewrite Hs in R.
  cbn [branch] in R.
  assert (B : res (queued_branch a w) = Raise e).
  { unfold queued_branch. run. rewrite (bind_ok _ _ _ _ Hq).
    set (w1 := final (queued_setup a w)) in *.
    destruct (has_images_pure self w1) as [Fi Ei].
    assert (I : has_images self w1 = mkOut (Ok false) w1 [])
      by (rewrite (out_eta (has_images self w1)), Hi, Fi, Ei; reflexivity).
    assert (P : present w1 "ase-sort.dat" = false).
    { unfold present, file, w1. rewrite queued_setup_sys. exact Hf. }
    assert (S : res (if_ (has_images self) (call read_neb_calculator ;; ret tt)
                       (queued_structure a self) w1) = Raise e).
    { unfold if_ at 1. rewrite (bind_eq _ _ _ _ _ _ I). cbn [prepend res].
      unfold queued_structure, if_.
      assert (T : (b <- path_isfile "ase-sort.dat" ;;
                   if b
                   then read_sort self ;;
                        p <- call (ase_io_read "POSCAR") ;;
                        v <- get_calc self ;;
                        r <- require (Calc.resort v) (AttributeError "resort") ;;
                        atoms_getitem p r
                   else identity_sort a self) w1
                  = mkOut (Raise e) (final (identity_sort a self w1))
                          ([EvExists "ase-sort.dat"]
                           ++ events (identity_sort a self w1))).
      { run. rewrite P. unfold prepend. rewrite Hb. reflexivity. }
      rewrite (bind_eq _ _ _ _ _ _ T). reflexivity. }
    cbn [prepend res]. rewrite (bind_raise _ _ _ _ S). reflexivity. }
  unfold Jasp, Jasp_resolved. run. unfold prepend in R.
  rewrite (bind_eq (resolve a) _ w _ _ _ R), B. reflexivity.
Qed.

(** C10, as the code has it: in the state "queued, not yet running", for
    a job that is not an NEB (INCAR sets no [images]) and has no sort
    file, the identity [sort] and [resort] arrays are
    [range(len(atoms))] for the [atoms] argument of the call, whatever
    structure POSCAR holds.  Without the argument [len(atoms)] raises a
    TypeError, and the call never returns a calculator. *)
Theorem Jasp_queued_needs_atoms (a : Args) (w : World) (self : loc) :
  classify a w = Queued ->
  present w "ase-sort.dat" = false ->
  res (queued_setup a w) = Ok self ->
  res (has_images self (final (queued_setup a w))) = Ok false ->
  let w1 := final (queued_setup a w) in
  (forall e, res (identity_sort a self w1) = Raise e -> res (Jasp a w) = Raise e) /\
  (atoms a = None ->
     (forall c, res (Jasp a w) <> Ok c) /\
     (forall p h, ase_io_read "POSCAR" (sys w1) (heap w1) = (Ok p, h) ->
                  res (Jasp a w) = Raise no_len)) /\
  (forall at_ p h v cv,
     atoms a = Some at_ ->
     ase_io_read "POSCAR" (sys w1) (heap w1) = (Ok p, h) ->
     atomss h !! at_ = Some v ->
     calcs h !! self = Some cv ->
     res (identity_sort a self w1) = Ok p /\
     calcs (heap (final (identity_sort a self w1))) !! self =
       Some (Calc.set_resort (Py.range (length (Atoms.positions v)))
               (Calc.set_sort (Py.range (length (Atoms.positions v))) cv))).
Proof.
  intros Hs Hf Hq Hi w1.
  pose proof (fun e => Jasp_queued_identity_sort a w self e Hs Hf Hq Hi) as L.
  fold w1 in L. split; [exact L|]. split.
  - intros Ha. destruct (identity_sort_no_atoms a self w1 Ha) as [N T]. split.
    + intros c E.
      destruct (res (identity_sort a self w1)) as [p|e] eqn:Eb.
      * exact (N p eq_refl).
      * rewrite (L e eq_refl) in E. discriminate.
    + intros p h Hr. apply L. exact (T p h Hr).
  - intros at_ p h v cv. apply identity_sort_atoms.
Qed.

End QueuedSort.

Section ElasticFacts.
Context `{Collaborators} `{Float64}.

Lemma scan_first_header (all rest : list string) (k i : nat) :
  rest = drop k all ->
  (exists l, rest !! i = Some l /\ Py.startswith l header = true) ->
  (forall j l, j < i -> rest !! j = Some l -> Py.startswith l header = false) ->
  scan all rest k = Some (Py.slice (k + i + 3) (k + i + 3 + 6) all).
Proof.
  revert k i. induction rest as [|line rest IH]; intros k i Hr (l & Hl & Hs) Hn.
  - rewrite lookup_nil in Hl. discriminate.
  - cbn [scan]. destruct i as [|i].
    + cbn in Hl. injection Hl as ->. rewrite Hs, Nat.add_0_r. reflexivity.
    + rewrite (Hn 0 line) by (try lia; reflexivity).
      rewrite (IH (S k) i).
      * f_equal. f_equal; lia.
      * replace (S k) with (k + 1) by lia.
        rewrite <- drop_drop, <- Hr. reflexivity.
      * exists l. split; assumption.
      * intros j l' Hj Hl'. apply (Hn (S j) l'); [lia | exact Hl'].
Qed.

Lemma scan_no_header (all rest : list string) (k : nat) :
  (forall l, l ∈ rest -> Py.startswith l header = false) ->
  scan all rest k = None.
Proof.
  revert k. induction rest as [|line rest IH]; intros k Hn; [reflexivity|].
  cbn [scan]. rewrite (Hn line) by left. apply IH.
  intros l Hl. apply Hn. right. exact Hl.
Qed.

Lemma rows_loop (data : list string) (rows acc : list (list f64)) (w : World) :
  mapM (fun line => mapM float (tail (Py.split line))) data = Some rows ->
  for_each data (fun line TEM =>
      row <- require (mapM float (tail (Py.split line))) (ValueError line) ;;
      ret (TEM ++ [row])) acc w
  = mkOut (Ok (acc ++ rows)) w [].
Proof.
  revert rows acc. induction data as [|line data IH]; intros rows acc E.
  - cbn in E. injection E as <-. rewrite app_nil_r. reflexivity.
  - cbn [mapM] in E. apply bind_Some in E as (row & Er & E).
    apply bind_Some in E as (rows' & Ers & E). cbn in E. injection E as <-.
    cbn [for_each]. rewrite Er. run.
    rewrite (IH rows' (acc ++ [row]) Ers). cbn. rewrite <- app_assoc.
    reflexivity.
Qed.

(** C9: after [calculate], with an OUTCAR whose first header line is
    line [i], the result is the matrix of the fields after the first of
    lines [i+3] to [i+8] (six lines when the file has them), each
    converted by [float] and multiplied by 0.1, provided the fields are
    numbers and the rows have one length; with an OUTCAR that has no
    header line the function raises (the local variable [data] was never
    assigned). *)
Theorem get_elastic_moduli_matrix (self : loc) (w w1 : World) (txt : string) :
  calculate self w = (Ok tt, w1) ->
  file w1 "OUTCAR" = Some txt ->
  (forall i rows,
     first_header (Py.readlines txt) i ->
     mapM (fun line => mapM float (tail (Py.split line)))
          (Py.slice (i + 3) (i + 9) (Py.readlines txt)) = Some rows ->
     rectangular rows = true ->
     res (get_elastic_moduli self w) = Ok (map (map (fun x => mul x tenth)) rows) /\
     (i + 9 <= length (Py.readlines txt) ->
      length (Py.slice (i + 3) (i + 9) (Py.readlines txt)) = 6)) /\
  ((forall l, l ∈ Py.readlines txt -> Py.startswith l header = false) ->
   res (get_elastic_moduli self w) = Raise (UnboundLocalError "data")).
Proof.
  intros Hc Ho. unfold get_elastic_moduli. run. rewrite Hc. cbn [fst snd].
  run. rewrite Ho. split.
  - intros i rows [Hh Hn] Hr Hrect. split.
    + rewrite (scan_first_header (Py.readlines txt) (Py.readlines txt) 0 i
                 eq_refl Hh Hn). run.
      replace (0 + i + 3 + 6) with (i + 9) by lia. cbn [Nat.add].
      rewrite (bind_eq _ _ _ _ _ _ (rows_loop _ rows [] w1 Hr)).
      unfold np_array_times_tenth. cbn [app]. rewrite Hrect. reflexivity.
    + intros Hlen. unfold Py.slice. rewrite length_take, length_drop. lia.
  - intros Hn. rewrite (scan_no_header _ _ 0 Hn). reflexivity.
Qed.

End ElasticFacts.

(** * The claim on the saved parameters *)

Section Snapshot.
Context `{Collaborators}.






End Snapshot.

(** * The claim on the context manager *)

Section ContextManager.
Context `{Collaborators}.

Lemma chdir_run (d : string) (w : World) (x : gmap string string) :
  dirs (sys w) !! d = Some x ->
  chdir d w =
  mkOut (Ok tt) (mkWorld (mkSys d (dirs (sys w)) (in_queue (sys w))) (heap w))
        [EvChdir d].
Proof. unfold chdir. intros ->. reflexivity. Qed.

Lemma makedirs_run (d : string) (w : World) :
  dirs (sys w) !! d = None ->
  makedirs d w =
  mkOut (Ok tt)
        (mkWorld (mkSys (cwd (sys w)) (<[d := ∅]> (dirs (sys w))) (in_queue (sys w)))
                 (heap w))
        [EvMakedirs d].
Proof. unfold makedirs. intros ->. reflexivity. Qed.

(** An exception of [Jasp] leaves [__enter__], and with it the [with]
    statement: [__exit__] is not called. *)
Lemma with_jasp_enter_raises {A} (vaspdir : string) (kw : Args)
    (body : loc -> M A) (w : World) (e : exn) :
  res (Jasp kw (entered vaspdir w)) = Raise e ->
  with_jasp vaspdir kw body w =
  mkOut (Raise e) (final (Jasp kw (entered vaspdir w)))
        (entering vaspdir w ++ events (Jasp kw (entered vaspdir w))).
Proof.
  intros E. unfold with_jasp, jasp__init__. run.
  assert (En : jasp__enter__ (mk_jasp (cwd (sys w)) (expanduser vaspdir) kw) w =
               mkOut (Raise e) (final (Jasp kw (entered vaspdir w)))
                     (entering vaspdir w ++ events (Jasp kw (entered vaspdir w)))).
  { revert E. unfold jasp__enter__, if_, not_, expanduser, entered, entering.
    cbn [jasp_vaspdir jasp_kwargs jasp_cwd]. run.
    destruct (dirs (sys w) !! vaspdir) as [d|] eqn:Ed; intros E.
    - rewrite bool_decide_eq_true_2 by eauto. run.
      rewrite (bind_eq _ _ _ _ _ _ (chdir_run vaspdir w d Ed)).
      cbn [prepend]. rewrite (bind_raise _ _ _ _ E). reflexivity.
    - rewrite bool_decide_eq_false_2 by (intros [? ?]; discriminate). run.
      rewrite (makedirs_run vaspdir w Ed).
      cbn [prepend res final events].
      set (w' := mkWorld (mkSys (cwd (sys w)) (<[vaspdir := ∅]> (dirs (sys w)))
                                (in_queue (sys w))) (heap w)).
      assert (Ed' : dirs (sys w') !! vaspdir = Some ∅) by apply lookup_insert_eq.
      rewrite (bind_eq _ _ _ _ _ _ (chdir_run vaspdir w' ∅ Ed')).
      cbn [prepend sys heap dirs in_queue w'].
      rewrite (bind_raise _ _ _ _ E). reflexivity. }
  rewrite (bind_eq _ _ _ _ _ _ En). reflexivity.
Qed.

(** C6 (the code departs from it): [Jasp] is called in [__enter__],
    after the change of directory, and Python calls [__exit__] only when
    [__enter__] has returned.  So an exception of the controller (of the
    validator, or the error of a state that no rule matches) leaves the
    [with] statement with the process still in [vaspdir]: the working
    directory is not restored.  The exception itself is not suppressed. *)
Theorem with_jasp_enter_not_restored {A} (vaspdir : string) (kw : Args)
    (body : loc -> M A) (w : World) :
  let w_in := entered vaspdir w in
  let o := with_jasp vaspdir kw body w in
  (forall e, res (Jasp kw w_in) = Raise e ->
     res o = Raise e /\ final o = final (Jasp kw w_in)) /\
  (forall j e,
     classify kw w_in = Finished ->
     file w_in "jobid" = Some j ->
     res (calculation_is_ok (Some (Py.before_dot (Py.readline j))) w_in) = Raise e ->
     res o = Raise e /\ cwd (sys (final o)) = vaspdir) /\
  (classify kw w_in = Unrecognized ->
     res o = Raise (UnboundLocalError "self") /\ cwd (sys (final o)) = vaspdir).
Proof.
  intros w_in o. split; [|split].
  - intros e E. unfold o. rewrite (with_jasp_enter_raises vaspdir kw body w e E).
    split; reflexivity.
  - intros j e Hs Hj E.
    destruct (Jasp_finished_rejected kw w_in j e Hs Hj E) as (probes & _ & J).
    assert (R : res (Jasp kw w_in) = Raise e) by (rewrite J; reflexivity).
    unfold o. rewrite (with_jasp_enter_raises vaspdir kw body w e R).
    cbn [res final]. split; [reflexivity|].
    fold w_in. rewrite J. cbn [final]. apply calculation_is_ok_cwd.
  - intros Hs.
    assert (Hq : classify kw w_in <> Queued) by (rewrite Hs; discriminate).
    destruct (Jasp_not_queued kw w_in Hq) as (probes & _ & J).
    rewrite Hs in J. cbn [branch ret res final events] in J.
    assert (R : res (Jasp kw w_in) = Raise (UnboundLocalError "self"))
      by (rewrite J; reflexivity).
    unfold o. rewrite (with_jasp_enter_raises vaspdir kw body w _ R).
    cbn [res final]. split; [reflexivity|].
    fold w_in. rewrite J. reflexivity.
Qed.

(** When [__enter__] has returned, [__exit__] is called however the body
    ends: the process goes back to the directory it came from, and an
    exception of the body is raised again. *)
Lemma with_jasp_body_restores {A} (vaspdir : string) (kw : Args)
    (body : loc -> M A) (w : World) (calc : loc) (d : gmap string string) :
  let mgr := mk_jasp (cwd (sys w)) (expanduser vaspdir) kw in
  let w_b := final (body calc (final (jasp__enter__ mgr w))) in
  res (jasp__enter__ mgr w) = Ok calc ->
  dirs (sys w_b) !! cwd (sys w) = Some d ->
  cwd (sys (final (with_jasp vaspdir kw body w))) = cwd (sys w) /\
  forall e, res (body calc (final (jasp__enter__ mgr w))) = Raise e ->
            res (with_jasp vaspdir kw body w) = Raise e.
Proof.
  intros mgr w_b En Hd. unfold with_jasp, jasp__init__. run. fold mgr.
  rewrite (bind_ok _ _ _ _ En). cbn [prepend res final].
  unfold w_b in Hd.
  destruct (body calc (final (jasp__enter__ mgr w))) as [[v|e] w' ev];
    cbn [final] in Hd; unfold jasp__exit__, bind, chdir;
    cbn [jasp_cwd mgr]; rewrite Hd; cbn; (split; [reflexivity|]);
    intros e' [=]; subst; reflexivity.
Qed.

End ContextManager.

(** * Further properties of the code *)

(** ** More of the monad *)

Lemma bind_assoc {A B C} (m : M A) (k : A -> M B) (k' : B -> M C) (w : World) :
  bind (bind m k) k' w = bind m (fun x => bind (k x) k') w.
Proof.
  unfold bind. destruct (m w) as [[a|e] w1 ev]; [|reflexivity].
  destruct (k a w1) as [[b|e] w2 ev2]; cbn; [|reflexivity].
  destruct (k' b w2) as [r w3 ev3]; unfold prepend; cbn.
  rewrite app_assoc. reflexivity.
Qed.

Lemma bind_events_ok {A B} (m : M A) (k : A -> M B) (w : World) (a : A) :
  res (m w) = Ok a ->
  events (bind m k w) = events (m w) ++ events (k a (final (m w))).
Proof. intros E. rewrite (bind_ok _ _ _ _ E). reflexivity. Qed.

Lemma bind_final_ok {A B} (m : M A) (k : A -> M B) (w : World) (a : A) :
  res (m w) = Ok a ->
  final (bind m k w) = final (k a (final (m w))).
Proof. intros E. rewrite (bind_ok _ _ _ _ E). reflexivity. Qed.

Lemma present_sys (w1 w2 : World) (f : string) :
  sys w1 = sys w2 -> present w1 f = present w2 f.
Proof. unfold present, file. intros ->. reflexivity. Qed.

Lemma file_sys (w1 w2 : World) (f : string) :
  sys w1 = sys w2 -> file w1 f = file w2 f.
Proof. unfold file. intros ->. reflexivity. Qed.

Lemma bind_prepend {A B} (m m' : M A) (k : A -> M B) (w : World) (evs : list event) :
  m w = prepend evs (m' w) ->
  bind m k w = prepend evs (bind m' k w).
Proof.
  unfold bind. intros ->. destruct (m' w) as [[a|e] w' ev]; cbn; [|reflexivity].
  unfold prepend; cbn. rewrite app_assoc. reflexivity.
Qed.

Lemma bind_ret {A B} (a : A) (k : A -> M B) (w : World) :
  bind (ret a) k w = k a w.
Proof. unfold bind, ret. cbn. apply prepend_nil. Qed.

Lemma for_each_app {A S} (l1 l2 : list A) (body : A -> S -> M S) (s : S) (w : World) :
  for_each (l1 ++ l2) body s w = bind (for_each l1 body s) (for_each l2 body) w.
Proof.
  revert s w. induction l1 as [|x l1 IH]; intros s w; cbn [for_each app].
  - rewrite bind_ret. reflexivity.
  - rewrite bind_assoc.
    destruct (body x s w) as [[s'|e] w' ev] eqn:E;
      rewrite !(bind_eq _ _ _ _ _ _ E); [|reflexivity].
    rewrite IH. reflexivity.
Qed.

(** ** The validator, further *)

Lemma validator_no_contcar (jobid : option string) (w : World) :
  file w "CONTCAR" = None ->
  res (calculation_is_ok jobid w) = Raise (IOError "CONTCAR") /\
  final (calculation_is_ok jobid w) = w.
Proof.
  intros Hc. unfold calculation_is_ok.
  destruct (job_output_looks jobid w) as [[out E] F].
  rewrite (bind_ok _ _ _ _ E), F. run. rewrite Hc. split; reflexivity.
Qed.

Lemma validator_no_outcar (jobid : option string) (w : World) (c : string) :
  file w "CONTCAR" = Some c -> c <> "" ->
  file w "OUTCAR" = None ->
  res (calculation_is_ok jobid w) = Raise (IOError "OUTCAR") /\
  final (calculation_is_ok jobid w) = w.
Proof.
  intros Hc Hne Ho. unfold calculation_is_ok.
  destruct (job_output_looks jobid w) as [[out E] F].
  rewrite (bind_ok _ _ _ _ E), F. run. rewrite Hc.
  rewrite (nonempty_length c Hne). run. rewrite Ho. split; reflexivity.
Qed.

Lemma verdict_ok (output : list string) (o : string) (b : bool) :
  verdict output o = Ok b ->
  b = true /\ exists l, last (Py.readlines o) = Some l /\ Py.contains marker l = true.
Proof.
  unfold verdict. destruct (last (Py.readlines o)) as [l|]; [|discriminate].
  destruct (Py.contains marker l) eqn:E; [|discriminate].
  intros [= <-]. split; [reflexivity|]. exists l. split; [reflexivity | exact E].
Qed.

(** X1: the validator returns exactly when CONTCAR has content and
    the last line of OUTCAR has the termination marker; what it returns
    is then [True], never [False], and it has changed nothing. *)
Theorem calculation_is_ok_returns_iff (jobid : option string) (w : World) :
  ((exists b, res (calculation_is_ok jobid w) = Ok b) <->
   exists c o l,
     file w "CONTCAR" = Some c /\ c <> "" /\
     file w "OUTCAR" = Some o /\
     last (Py.readlines o) = Some l /\ Py.contains marker l = true) /\
  (forall b, res (calculation_is_ok jobid w) = Ok b ->
             b = true /\ final (calculation_is_ok jobid w) = w).
Proof.
  assert (K : forall b, res (calculation_is_ok jobid w) = Ok b ->
            b = true /\
            exists c o l,
              file w "CONTCAR" = Some c /\ c <> "" /\
              file w "OUTCAR" = Some o /\
              last (Py.readlines o) = Some l /\ Py.contains marker l = true).
  { intros b E.
    destruct (file w "CONTCAR") as [c|] eqn:Hc;
      [|destruct (validator_no_contcar jobid w Hc) as [R _]; congruence].
    destruct (decide (c = "")) as [->|Hne].
    { destruct (file w "jobid") as [j|] eqn:Hj.
      - destruct (calculation_is_ok_empty jobid w j Hc Hj) as [R _]. congruence.
      - destruct (calculation_is_ok_empty_no_jobid jobid w Hc Hj) as [R _].
        congruence. }
    destruct (file w "OUTCAR") as [o|] eqn:Ho;
      [|destruct (validator_no_outcar jobid w c Hc Hne Ho) as [R _]; congruence].
    destruct (calculation_is_ok_nonempty jobid w c o Hc Hne Ho) as (out & _ & _ & V).
    rewrite V in E. destruct (verdict_ok out o b E) as (-> & l & Hl & Hm).
    split; [reflexivity|]. exists c, o, l. auto. }
  split; [split|].
  - intros [b E]. apply (K b E).
  - intros (c & o & l & Hc & Hne & Ho & Hl & Hm).
    destruct (calculation_is_ok_nonempty jobid w c o Hc Hne Ho) as (out & _ & _ & V).
    exists true. rewrite V. unfold verdict. rewrite Hl, Hm. reflexivity.
  - intros b E. split; [apply (K b E)|].
    apply (calculation_is_ok_returns jobid w b E).
Qed.

(** X2: the validator on files it cannot read.  Without CONTCAR it
    raises the IOError of [open('CONTCAR')]; with content in CONTCAR and
    no OUTCAR, the IOError of [open('OUTCAR')]; with an OUTCAR of no
    lines, the IndexError of [lines[-1]].  Nothing is changed in any of
    the three cases. *)
Theorem calculation_is_ok_unreadable (jobid : option string) (w : World) :
  (file w "CONTCAR" = None ->
   res (calculation_is_ok jobid w) = Raise (IOError "CONTCAR") /\
   final (calculation_is_ok jobid w) = w) /\
  (forall c, file w "CONTCAR" = Some c -> c <> "" ->
     (file w "OUTCAR" = None ->
      res (calculation_is_ok jobid w) = Raise (IOError "OUTCAR") /\
      final (calculation_is_ok jobid w) = w) /\
     (file w "OUTCAR" = Some "" ->
      res (calculation_is_ok jobid w) = Raise IndexError /\
      final (calculation_is_ok jobid w) = w)).
Proof.
  split; [apply validator_no_contcar|].
  intros c Hc Hne. split; [apply (validator_no_outcar jobid w c Hc Hne)|].
  intros Ho.
  destruct (calculation_is_ok_nonempty jobid w c "" Hc Hne Ho) as (out & _ & F & V).
  split; [rewrite V; reflexivity | exact F].
Qed.

(** X3: an empty CONTCAR in a directory without a jobid file: CONTCAR
    is deleted, then [os.unlink('jobid')] fails and the exception of the
    validator is that OSError, not VaspNotFinished; whatever the job id,
    a second call raises the IOError of the missing CONTCAR. *)
Theorem calculation_is_ok_empty_unlink_fails (jobid : option string) (w : World) :
  file w "CONTCAR" = Some "" ->
  file w "jobid" = None ->
  let v := calculation_is_ok jobid w in
  res v = Raise (OSError "jobid") /\
  final v = without "CONTCAR" w /\
  forall jobid', res (calculation_is_ok jobid' (final v)) = Raise (IOError "CONTCAR").
Proof.
  intros Hc Hj v.
  destruct (calculation_is_ok_empty_no_jobid jobid w Hc Hj) as [R F].
  split; [exact R|]. split; [exact F|].
  intros jobid'. subst v. rewrite F. apply validator_no_contcar.
  rewrite file_without. rewrite decide_True by reflexivity. reflexivity.
Qed.

Lemma job_output_step_miss (j f : string) (output : list string) (w : World) :
  Py.contains ("o" +:+ j) f = false ->
  job_output_step j f output w = mkOut (Ok output) w [].
Proof. unfold job_output_step. intros ->. reflexivity. Qed.

Lemma job_output_step_hit (j f c : string) (output : list string) (w : World) :
  Py.contains ("o" +:+ j) f = true ->
  file w f = Some c ->
  job_output_step j f output w = mkOut (Ok (captured j f c)) w [EvOpen f].
Proof.
  unfold job_output_step. intros -> Hf. run. rewrite Hf. reflexivity.
Qed.

Lemma job_output_none_of (j : string) (l : list string) (output : list string)
    (w : World) :
  (forall g, g ∈ l -> Py.contains ("o" +:+ j) g = false) ->
  for_each l (job_output_step j) output w = mkOut (Ok output) w [].
Proof.
  induction l as [|x l IH]; intros Hl; [reflexivity|].
  cbn [for_each].
  rewrite (bind_eq _ _ _ _ _ _ (job_output_step_miss j x output w (Hl x ltac:(left)))).
  rewrite IH; [reflexivity|]. intros g Hg. apply Hl. right. exact Hg.
Qed.

Lemma job_output_one_of (j f c : string) (l : list string) (output : list string)
    (w : World) :
  NoDup l -> f ∈ l ->
  file w f = Some c ->
  Py.contains ("o" +:+ j) f = true ->
  (forall g, g ∈ l -> Py.contains ("o" +:+ j) g = true -> g = f) ->
  for_each l (job_output_step j) output w = mkOut (Ok (captured j f c)) w [EvOpen f].
Proof.
  intros Hnd. revert output. induction Hnd as [|x l Hx Hnd IH]; intros output Hf Hc Hm Hu.
  - inversion Hf.
  - cbn [for_each]. destruct (decide (x = f)) as [->|Hxf].
    + rewrite (bind_eq _ _ _ _ _ _ (job_output_step_hit j f c output w Hm Hc)).
      rewrite job_output_none_of; [reflexivity|].
      intros g Hg. destruct (Py.contains ("o" +:+ j) g) eqn:E; [|reflexivity].
      exfalso. apply Hx. rewrite <- (Hu g); [exact Hg | right; exact Hg | exact E].
    + assert (Hx' : Py.contains ("o" +:+ j) x = false).
      { destruct (Py.contains ("o" +:+ j) x) eqn:E; [|reflexivity].
        exfalso. apply Hxf, Hu; [left | exact E]. }
      rewrite (bind_eq _ _ _ _ _ _ (job_output_step_miss j x output w Hx')).
      rewrite IH; [reflexivity| | | |].
      * apply elem_of_cons in Hf as [->|Hf]; [congruence | exact Hf].
      * exact Hc.
      * exact Hm.
      * intros g Hg. apply Hu. right. exact Hg.
Qed.

(** X4: the output of the queue that the validator quotes
    (lines 66-76).  When no file of the directory has [o<jobid>] in its
    name, it is the single newline, and no file is opened; when exactly
    one has, it is the header with the job id, the name of that file
    and its lines, and that file alone is opened. *)
Theorem job_output_captures (j : string) (w : World) :
  ((forall g, is_Some (file w g) -> Py.contains ("o" +:+ j) g = false) ->
   job_output (Some j) w = mkOut (Ok [Py.nl]) w [EvListdir]) /\
  (forall f c,
     file w f = Some c ->
     Py.contains ("o" +:+ j) f = true ->
     (forall g, is_Some (file w g) -> Py.contains ("o" +:+ j) g = true -> g = f) ->
     job_output (Some j) w = mkOut (Ok (captured j f c)) w [EvListdir; EvOpen f]).
Proof.
  split.
  - intros Hn. unfold job_output. run.
    rewrite job_output_none_of; [reflexivity|].
    intros g Hg. apply Hn, elem_of_listdir, Hg.
  - intros f c Hf Hm Hu. unfold job_output. run.
    rewrite (job_output_one_of j f c); [reflexivity | apply NoDup_elements | | exact Hf
                                       | exact Hm |].
    + apply elem_of_elements, elem_of_dom. exists c. exact Hf.
    + intros g Hg. apply Hu, elem_of_listdir, Hg.
Qed.

(** ** Computations that leave the files alone *)

Lemma keeps_sys_raise {A} (e : exn) : keeps_sys (@raise A e).
Proof. intros w. reflexivity. Qed.

Lemma keeps_sys_for_each {A S} (l : list A) (body : A -> S -> M S) (s : S) :
  (forall x t, keeps_sys (body x t)) -> keeps_sys (for_each l body s).
Proof.
  intros Hb. revert s. induction l as [|x l IH]; intros s; cbn [for_each].
  - apply keeps_sys_ret.
  - apply keeps_sys_bind; [apply Hb | intros s'; apply IH].
Qed.

Lemma keeps_sys_try_except {A} (m h : M A) :
  keeps_sys m -> keeps_sys h -> keeps_sys (try_except m h).
Proof.
  intros Hm Hh w. unfold try_except. specialize (Hm w).
  destruct (m w) as [[a|e] w' ev]; cbn in *; [exact Hm|].
  rewrite Hh. exact Hm.
Qed.

Lemma keeps_sys_except_IOError_pass (m : M unit) :
  keeps_sys m -> keeps_sys (except_IOError_pass m).
Proof.
  intros Hm w. unfold except_IOError_pass. specialize (Hm w).
  destruct (m w) as [[a|[]] w' ev]; exact Hm.
Qed.

Ltac store_only :=
  intros ?;
  unfold get_calc, update_calc, get_atoms, update_atoms, new_atoms, dict_copy,
    getcwd, path_isdir, path_exists, path_isfile, read_file, tell, log_debug,
    job_in_queue, listdir, call, with_heap;
  repeat case_match; reflexivity.

Ltac keeps_step :=
  lazymatch goal with
  | |- keeps_sys (bind _ _) => apply keeps_sys_bind; [|intros ?]
  | |- keeps_sys (ret _) => apply keeps_sys_ret
  | |- keeps_sys (raise _) => apply keeps_sys_raise
  | |- keeps_sys (try_except _ _) => apply keeps_sys_try_except
  | |- keeps_sys (except_IOError_pass _) => apply keeps_sys_except_IOError_pass
  | |- keeps_sys (for_each _ _ _) => apply keeps_sys_for_each; intros ? ?
  | |- keeps_sys (if _ then _ else _) => case_match
  | |- keeps_sys (match ?o with Some _ => _ | None => _ end) => destruct o
  | |- keeps_sys (if_ _ _ _) => unfold if_
  | |- keeps_sys (and_then _ _) => unfold and_then
  | |- keeps_sys (not_ _) => unfold not_
  | |- keeps_sys (when _ _) => unfold when
  | |- keeps_sys (require ?o _) => destruct o; cbn [require]
  | |- keeps_sys (params_get _ _ _) => unfold params_get
  | |- keeps_sys (has_images _) => unfold has_images
  | |- keeps_sys (set_calculator _ _) => unfold set_calculator
  | |- keeps_sys (len_atoms ?a) => unfold len_atoms; destruct a
  | |- keeps_sys (atoms_getitem _ _) => unfold atoms_getitem
  | |- keeps_sys (atoms_copy _) => unfold atoms_copy
  | |- keeps_sys (update_atoms_from _ _) => unfold update_atoms_from
  | |- keeps_sys _ => store_only
  end.

Section Frame.
Context `{Collaborators}.

Ltac keeps :=
  repeat first
    [ progress unfold read_sort, Vasp_restart, empty_branch, running_branch,
        load_finished, queued_setup, identity_sort, queued_structure,
        queued_branch, save_params, save_initial_params, prepare
    | keeps_step ].

Lemma read_sort_keeps (c : loc) : keeps_sys (read_sort c).
Proof. keeps. Qed.

Lemma empty_branch_keeps (a : Args) : keeps_sys (empty_branch a).
Proof. keeps. Qed.

Lemma running_branch_keeps (a : Args) : keeps_sys (running_branch a).
Proof. keeps. Qed.

Lemma queued_branch_keeps (a : Args) : keeps_sys (queued_branch a).
Proof. keeps. Qed.

Lemma load_finished_keeps (a : Args) : keeps_sys (load_finished a).
Proof. keeps. Qed.

Lemma save_initial_params_keeps (c : loc) : keeps_sys (save_initial_params c).
Proof. keeps. Qed.

Lemma prepare_keeps (l : Locals) : keeps_sys (prepare l).
Proof. keeps. Qed.

Lemma configured_branch_keeps (a : Args) : keeps_sys (configured_branch a).
Proof.
  unfold configured_branch. keeps.
  intros w.
  match goal with
  | |- sys (final (match ?m w with _ => _ end)) = _ =>
      assert (K : keeps_sys m) by keeps; specialize (K w);
      destruct (m w) as [[?|[]] ? ?]; exact K
  end.
Qed.

End Frame.

(** ** The second chain on a queued job *)

Section Sweep.
Context `{Collaborators}.

Lemma self_attr_run (l : Locals) (name : string) (field : Calc.t -> option bool)
    (w : World) (s : loc) (cv : Calc.t) (b : bool) :
  l_self l = Some s ->
  calcs (heap w) !! s = Some cv ->
  field cv = Some b ->
  self_attr l name field w = mkOut (Ok b) w [].
Proof.
  intros Hs Hc Hf. unfold self_attr, bind, get_calc. rewrite Hs. cbn.
  rewrite Hc. cbn. rewrite Hf. reflexivity.
Qed.

Lemma tests_self_attr (l : Locals) (name : string) (field : Calc.t -> option bool)
    (w : World) (s : loc) (cv : Calc.t) (b : bool) :
  l_self l = Some s ->
  calcs (heap w) !! s = Some cv ->
  field cv = Some b ->
  tests (self_attr l name field) b w.
Proof.
  intros Hs Hc Hf. exists []. split; [constructor|].
  apply (self_attr_run l name field w s cv b Hs Hc Hf).
Qed.

Lemma cleanup_run (a : Args) (l : Locals) (w : World) (s : loc) (cv : Calc.t)
    (kc kw : bool) :
  l_self l = Some s ->
  calcs (heap w) !! s = Some cv ->
  Calc.keep_chgcar cv = Some kc ->
  Calc.keep_wavecar cv = Some kw ->
  present w "jobid" = true ->
  res (cleanup a l w) =
    (if negb kw && present w "WAVECAR" then Ok l
     else Raise (VaspUnknownState (msg_unknown +:+ cwd (sys w)))) /\
  final (cleanup a l w) = swept kc kw w /\
  filter is_unlink (events (cleanup a l w)) =
    (if negb kc && present w "CHGCAR" then [EvUnlink "CHGCAR"] else [])
    ++ (if negb kw && present w "WAVECAR" then [EvUnlink "WAVECAR"] else []).
Proof.
  intros Hs Hc Hkc Hkw Hj. unfold cleanup, swept.
  set (c1 := negb kc && present w "CHGCAR").
  set (w1 := if c1 then without "CHGCAR" w else w).
  assert (S1 : (if c1 then unlink "CHGCAR" else ret tt) w =
               mkOut (Ok tt) w1 (if c1 then [EvUnlink "CHGCAR"] else [])).
  { subst w1 c1. destruct (negb kc && present w "CHGCAR") eqn:C; [|reflexivity].
    apply andb_true_iff in C as [_ P]. apply present_true in P as [c P].
    apply (unlink_present _ _ _ P). }
  edestruct (if_tests (A := unit)
               (not_ (self_attr l "keep_chgcar" Calc.keep_chgcar)
                &&& path_exists "CHGCAR") c1 w (unlink "CHGCAR") (ret tt))
    as (e1 & P1 & E1).
  { apply tests_and; [apply tests_not, (tests_self_attr l _ _ w s cv kc Hs Hc Hkc)
                     | apply tests_exists]. }
  rewrite S1 in E1. rewrite (bind_eq _ _ _ _ _ _ E1). cbv beta iota.
  assert (Hc1 : calcs (heap w1) !! s = Some cv).
  { subst w1. destruct c1; exact Hc. }
  assert (Hp1 : forall f, f <> "CHGCAR" -> present w1 f = present w f).
  { intros f Hf. subst w1. destruct c1; [|reflexivity].
    rewrite present_without. rewrite decide_False by congruence. reflexivity. }
  assert (Hcwd : cwd (sys w1) = cwd (sys w)).
  { subst w1. destruct c1; reflexivity. }
  rewrite <- (Hp1 "WAVECAR") by discriminate.
  set (c2 := negb kw && present w1 "WAVECAR").
  edestruct (if_tests (A := Locals)
               (not_ (self_attr l "keep_wavecar" Calc.keep_wavecar)
                &&& path_exists "WAVECAR") c2 w1) as (e2 & P2 & ->).
  { apply tests_and; [apply tests_not, (tests_self_attr l _ _ w1 s cv kw Hs Hc1 Hkw)
                     | apply tests_exists]. }
  rewrite prepend_prepend.
  assert (F1 : filter is_unlink ((e1 ++ (if c1 then [EvUnlink "CHGCAR"] else [])) ++ e2)
               = if c1 then [EvUnlink "CHGCAR"] else []).
  { rewrite !filter_app, (probes_no_unlink e1 P1), (probes_no_unlink e2 P2).
    destruct c1; reflexivity. }
  destruct c2 eqn:C2.
  - subst c2. apply andb_true_iff in C2 as [_ P]. apply present_true in P as [c P].
    rewrite (bind_eq _ _ _ _ _ _ (unlink_present _ _ _ P)). cbn.
    split; [reflexivity|]. split; [reflexivity|].
    rewrite filter_app, F1. reflexivity.
  - assert (T : tests (not_ (path_exists "jobid") &&& not_ (path_exists "running")
                       &&& path_exists "CONTCAR" &&& path_exists "OUTCAR"
                       &&& path_exists "vasprun.xml")
                      (negb (present w1 "jobid") && negb (present w1 "running")
                       && present w1 "CONTCAR" && present w1 "OUTCAR"
                       && present w1 "vasprun.xml") w1)
      by (repeat first [apply tests_and | apply tests_not | apply tests_exists]).
    rewrite (Hp1 "jobid"), Hj in T by discriminate. cbn [negb andb] in T.
    destruct (if_tests (A := Locals) _ _ _ (observed_branch a l)
                (d <- getcwd ;; raise (VaspUnknownState (msg_unknown +:+ d))) T)
      as (e3 & P3 & ->).
    cbn. rewrite Hcwd.
    split; [reflexivity|]. split; [reflexivity|].
    rewrite app_nil_r, <- !app_assoc, !filter_app.
    rewrite (probes_no_unlink e1 P1), (probes_no_unlink e2 P2),
      (probes_no_unlink e3 P3).
    destruct c1; reflexivity.
Qed.

(** With a jobid file in the directory, the second chain has no way to
    return but the deletion of WAVECAR. *)
Lemma cleanup_ok (a : Args) (l l' : Locals) (w : World) :
  present w "jobid" = true ->
  res (cleanup a l w) = Ok l' ->
  l' = l /\
  present w "WAVECAR" = true /\
  (exists s cv kc,
     l_self l = Some s /\
     calcs (heap w) !! s = Some cv /\
     Calc.keep_chgcar cv = Some kc /\
     Calc.keep_wavecar cv = Some false /\
     final (cleanup a l w) = swept kc false w) /\
  EvUnlink "WAVECAR" ∈ events (cleanup a l w).
Proof.
  intros Hj E.
  destruct (l_self l) as [s|] eqn:Hs;
    [|rewrite (cleanup_unbound a l w Hs) in E; discriminate].
  destruct (calcs (heap w) !! s) as [cv|] eqn:Hc.
  2:{ exfalso. revert E. unfold cleanup, if_, and_then, not_, self_attr.
      rewrite Hs. unfold bind, require, ret, get_calc. cbn. rewrite Hc. cbn.
      discriminate. }
  destruct (Calc.keep_chgcar cv) as [kc|] eqn:Hkc.
  2:{ exfalso. revert E. unfold cleanup, if_, and_then, not_, self_attr.
      rewrite Hs. unfold bind, require, ret, get_calc. cbn. rewrite Hc. cbn.
      rewrite Hkc. cbn. discriminate. }
  destruct (Calc.keep_wavecar cv) as [kw|] eqn:Hkw.
  2:{ exfalso. revert E. unfold cleanup.
      set (first_ := if_ _ (unlink "CHGCAR") (ret tt)).
      assert (S1 : exists w1 ev, first_ w = mkOut (Ok tt) w1 ev /\
                                 calcs (heap w1) !! s = Some cv).
      { subst first_. unfold if_, and_then, not_. rewrite !bind_assoc.
        rewrite (bind_eq _ _ _ _ _ _ (self_attr_run l _ _ w s cv kc Hs Hc Hkc)).
        destruct kc; cbn; [eauto|].
        destruct (present w "CHGCAR") eqn:P; cbn; [|eauto].
        apply present_true in P as [c P]. unfold unlink. rewrite P. cbn. eauto. }
      destruct S1 as (w1 & ev & S1 & Hc1).
      rewrite (bind_eq _ _ _ _ _ _ S1). cbv beta iota.
      unfold if_, and_then, not_, self_attr. rewrite Hs.
      unfold bind, require, ret, get_calc. cbn. rewrite Hc1. cbn. rewrite Hkw. cbn.
      discriminate. }
  destruct (cleanup_run a l w s cv kc kw Hs Hc Hkc Hkw Hj) as (R & F & U).
  rewrite R in E.
  destruct (negb kw && present w "WAVECAR") eqn:C; [|discriminate].
  apply andb_true_iff in C as [Hk Hw]. apply negb_true_iff in Hk. subst kw.
  injection E as <-. split; [reflexivity|]. split; [exact Hw|].
  split; [exists s, cv, kc; repeat split; assumption|].
  assert (In : EvUnlink "WAVECAR" ∈ filter is_unlink (events (cleanup a l w))).
  { rewrite U. apply elem_of_app. right. left. }
  apply list_elem_of_filter in In. apply In.
Qed.

End Sweep.

Section Returns.
Context `{Collaborators}.

Lemma Jasp_queued_run (a : Args) (w : World) :
  classify a w = Queued ->
  exists evs, Forall probe evs /\
    Jasp a w = prepend (called w :: evs) (Jasp_queued a w).
Proof.
  intros HQ. destruct (resolve_classify a w) as (evs & P & E).
  rewrite HQ in E. cbn [branch] in E.
  exists evs. split; [exact P|].
  unfold Jasp, Jasp_queued. apply bind_prepend.
  unfold Jasp_resolved.
  rewrite (bind_eq getcwd _ w w (Ok (cwd (sys w))) [] eq_refl). cbv beta iota.
  rewrite (bind_eq (log_debug _) _ w w (Ok tt) [called w] eq_refl). cbv beta iota.
  rewrite (bind_prepend _ _ _ _ _ E).
  rewrite !prepend_prepend. reflexivity.
Qed.

Lemma classify_queued (a : Args) (w : World) :
  classify a w = Queued ->
  has_key "spring" (kwargs a) = false /\ present w "INCAR" = true /\
  present w "jobid" = true /\ in_queue (sys w) = true /\
  present w "running" = false.
Proof.
  unfold classify, rule_neb, rule_empty, rule_configured, rule_queued,
    rule_running, rule_finished, rule_observed.
  destruct (has_key "spring" (kwargs a)); [discriminate|].
  destruct (present w "INCAR"); [|discriminate].
  destruct (present w "jobid"), (present w "CONTCAR"), (in_queue (sys w)),
    (present w "running"); cbn; try discriminate; auto;
    repeat case_match; discriminate.
Qed.

Lemma Jasp_raises_unless_queued (a : Args) (w : World) (c : loc) :
  res (Jasp a w) = Ok c -> classify a w = Queued.
Proof.
  intros E. destruct (decide (classify a w = Queued)) as [|N]; [assumption|].
  destruct (Jasp_not_queued a w N) as (evs & _ & J). rewrite J in E. cbn in E.
  destruct (res (branch (classify a w) a w)); discriminate.
Qed.

Lemma queued_branch_locals (a : Args) (w : World) (l : Locals) :
  res (queued_branch a w) = Ok l ->
  exists self, l = mkLocals (Some self) (Some self) (atoms a).
Proof.
  intros E. unfold queued_branch in E.
  apply bind_res_ok in E as (? & _ & E).
  apply bind_res_ok in E as (self & _ & E).
  repeat (apply bind_res_ok in E as (? & _ & E)).
  cbn in E. injection E as <-. exists self. reflexivity.
Qed.

(** The calculator that [prepare] returns is the local [calc]. *)
Lemma prepare_calc (l : Locals) (w : World) (c : loc) :
  res (prepare l w) = Ok c -> l_calc l = Some c.
Proof.
  intros E. unfold prepare in E.
  apply bind_res_ok in E as (? & _ & E).
  apply bind_res_ok in E as (? & _ & E).
  unfold require in E. destruct (l_calc l); cbn in E; congruence.
Qed.

(** What a call that returns has gone through: the calculator it
    returns is the one that lines 318 and 322 read, its [keep_wavecar]
    is false, and its [keep_chgcar] decides on CHGCAR. *)
Lemma Jasp_ok_inv (a : Args) (w : World) (c : loc) :
  res (Jasp a w) = Ok c ->
  classify a w = Queued /\
  present w "WAVECAR" = true /\
  EvUnlink "WAVECAR" ∈ events (Jasp a w) /\
  exists l cv kc,
    res (queued_branch a w) = Ok l /\
    let w1 := final (queued_branch a w) in
    let w2 := final (cleanup a l w1) in
    let w3 := final (save_initial_params c (final (prepare l w2))) in
    calcs (heap w1) !! c = Some cv /\
    Calc.keep_chgcar cv = Some kc /\
    Calc.keep_wavecar cv = Some false /\
    res (cleanup a l w1) = Ok l /\
    sys w3 = sys (swept kc false w) /\
    res (finish a c w3) = Ok c /\
    final (Jasp a w) = final (finish a c w3).
Proof.
  intros E. pose proof (Jasp_raises_unless_queued a w c E) as HQ.
  split; [exact HQ|].
  destruct (Jasp_queued_run a w HQ) as (evs & P & J).
  destruct (classify_queued a w HQ) as (_ & _ & Hj & _ & _).
  rewrite J. rewrite J in E. cbn [prepend res final events] in *.
  unfold Jasp_queued in *.
  pose proof E as E0.
  apply bind_res_ok in E as (c' & E1 & E2).
  pose proof E1 as E1'.
  apply bind_res_ok in E1 as (l & El & E1).
  pose proof E1 as E1''.
  apply bind_res_ok in E1 as (l' & Ec & Ep).
  pose proof (queued_branch_keeps a w) as K.
  assert (Hj1 : present (final (queued_branch a w)) "jobid" = true)
    by (rewrite (present_sys _ w _ K); exact Hj).
  destruct (cleanup_ok a l l' _ Hj1 Ec)
    as (-> & Hw & (s & cv & kc & Hs & Hcv & Hkc & Hkw & F) & U).
  pose proof E2 as E2'.
  apply bind_res_ok in E2 as ([] & Es & Ef).
  assert (c' = c) as ->.
  { unfold finish in Ef.
    apply bind_res_ok in Ef as (? & _ & Ef).
    apply bind_res_ok in Ef as (? & _ & Ef). cbn in Ef. congruence. }
  assert (s = c) as ->.
  { destruct (queued_branch_locals a w l El) as (self & ->).
    apply prepare_calc in Ep. cbn in Hs, Ep. congruence. }
  split; [rewrite <- (present_sys _ w _ K); exact Hw|].
  split.
  { right. apply elem_of_app. right.
    rewrite (bind_events_ok _ _ _ _ E1'). apply elem_of_app. left.
    rewrite (bind_events_ok _ _ _ _ El). apply elem_of_app. right.
    rewrite (bind_events_ok _ _ _ _ Ec). apply elem_of_app. left. exact U. }
  exists l, cv, kc. split; [exact El|]. cbv zeta.
  split; [exact Hcv|]. split; [exact Hkc|]. split; [exact Hkw|].
  split; [exact Ec|].
  split.
  { rewrite save_initial_params_keeps, prepare_keeps, F. unfold swept.
    rewrite !(present_sys _ w _ K).
    destruct (negb kc && present w "CHGCAR"), (negb false && present w "WAVECAR");
      unfold without, with_sys; cbn [sys]; rewrite ?K; reflexivity. }
  rewrite (bind_final_ok _ _ _ _ E1'), (bind_final_ok _ _ _ _ Es).
  rewrite (bind_final_ok _ _ _ _ El), (bind_final_ok _ _ _ _ Ec).
  split; [|reflexivity].
  rewrite (bind_final_ok _ _ _ _ El), (bind_final_ok _ _ _ _ Ec) in Ef.
  exact Ef.
Qed.

End Returns.

Section ReturnsFacts.
Context `{Collaborators}.

(** X5: the controller returns a calculator only for a queued job
    (no [spring] keyword; INCAR and jobid there, the job in the queue,
    no running file) in a directory that has a WAVECAR, and it has then
    called [os.unlink('WAVECAR')]. *)
Theorem Jasp_returns_only_queued (a : Args) (w : World) (c : loc) :
  res (Jasp a w) = Ok c ->
  has_key "spring" (kwargs a) = false /\
  present w "INCAR" = true /\
  present w "jobid" = true /\
  in_queue (sys w) = true /\
  present w "running" = false /\
  present w "WAVECAR" = true /\
  EvUnlink "WAVECAR" ∈ events (Jasp a w).
Proof.
  intros E. destruct (Jasp_ok_inv a w c E) as (HQ & Hw & U & _).
  destruct (classify_queued a w HQ) as (? & ? & ? & ? & ?).
  repeat split; assumption.
Qed.

(** X6: a queued job whose WAVECAR is kept ([self.keep_wavecar] true)
    or absent.  The test of line 322 fails, the [elif] of line 328 finds
    the jobid file, and the call ends in the [else] of line 342 with
    VaspUnknownState naming the directory, after the work of the branch
    of the queued job and the deletion of CHGCAR unless it is kept. *)
Theorem Jasp_queued_unknown_state (a : Args) (w : World) (l : Locals) :
  classify a w = Queued ->
  res (queued_branch a w) = Ok l ->
  let w1 := final (queued_branch a w) in
  exists self,
    l_self l = Some self /\
    forall cv kc kw,
      calcs (heap w1) !! self = Some cv ->
      Calc.keep_chgcar cv = Some kc ->
      Calc.keep_wavecar cv = Some kw ->
      kw = true \/ present w "WAVECAR" = false ->
      res (Jasp a w) = Raise (VaspUnknownState (msg_unknown +:+ cwd (sys w))) /\
      final (Jasp a w) = swept kc kw w1 /\
      sys (final (Jasp a w)) =
        sys (if negb kc && present w "CHGCAR" then without "CHGCAR" w else w).
Proof.
  intros HQ El w1.
  destruct (queued_branch_locals a w l El) as (self & ->).
  exists self. split; [reflexivity|].
  intros cv kc kw Hc Hkc Hkw Hk.
  destruct (Jasp_queued_run a w HQ) as (evs & P & J).
  destruct (classify_queued a w HQ) as (_ & _ & Hj & _ & _).
  pose proof (queued_branch_keeps a w) as K. fold w1 in K.
  assert (Hj1 : present w1 "jobid" = true)
    by (rewrite (present_sys _ w _ K); exact Hj).
  destruct (cleanup_run a (mkLocals (Some self) (Some self) (atoms a)) w1 self cv
              kc kw eq_refl Hc Hkc Hkw Hj1) as (R & F & _).
  assert (C : negb kw && present w1 "WAVECAR" = false).
  { rewrite (present_sys _ w _ K). destruct Hk as [->| ->]; [reflexivity|].
    apply andb_false_r. }
  rewrite C, K in R.
  assert (Q : Jasp_queued a w =
              mkOut (Raise (VaspUnknownState (msg_unknown +:+ cwd (sys w))))
                    (swept kc kw w1)
                    (events (queued_branch a w)
                     ++ events (cleanup a (mkLocals (Some self) (Some self) (atoms a)) w1))).
  { unfold Jasp_queued.
    assert (I : (l <- queued_branch a ;; l' <- cleanup a l ;; prepare l') w =
                mkOut (Raise (VaspUnknownState (msg_unknown +:+ cwd (sys w))))
                      (swept kc kw w1)
                      (events (queued_branch a w)
                       ++ events (cleanup a (mkLocals (Some self) (Some self) (atoms a)) w1))).
    { rewrite (bind_ok _ _ _ _ El). fold w1.
      rewrite (bind_raise _ _ _ _ R), F. reflexivity. }
    rewrite (bind_eq _ _ _ _ _ _ I). reflexivity. }
  rewrite J, Q. cbn [prepend res final].
  split; [reflexivity|]. split; [reflexivity|].
  unfold swept. rewrite C. rewrite (present_sys _ w _ K).
  destruct (negb kc && present w "CHGCAR");
    unfold without, with_sys; cbn [sys]; rewrite ?K; reflexivity.
Qed.

Lemma finish_keeps (a : Args) (c : loc) (w : World) :
  present w "METADATA" = true ->
  sys (final (finish a c w)) = sys w.
Proof.
  intros Hm. unfold finish.
  assert (S : forall r : reader unit, final (call r w) = mkWorld (sys w) (snd (r (sys w) (heap w))))
    by reflexivity.
  unfold bind at 1. destruct (call (set c (kwargs a)) w) as [[[]|e] w' ev] eqn:E.
  2:{ cbn. apply (f_equal final) in E. rewrite S in E. cbn in E. subst w'. reflexivity. }
  apply (f_equal final) in E. rewrite S in E. cbn [final] in E.
  cbn [prepend final].
  assert (Hm' : present w' "METADATA" = true)
    by (rewrite (present_sys w' w "METADATA"); [exact Hm | subst w'; reflexivity]).
  assert (T : tests (not_ (path_exists "METADATA") &&& not_ (has_images c)) false w').
  { unfold and_then.
    destruct (tests_not _ _ _ (tests_exists "METADATA" w')) as (evs & P & E').
    rewrite Hm' in E'. cbn [negb] in E'.
    exists (evs ++ []). split; [rewrite app_nil_r; exact P|].
    rewrite (bind_eq _ _ _ _ _ _ E'). reflexivity. }
  destruct (if_tests _ _ _ (act (create_metadata c)) (ret tt) T) as (e1 & _ & I).
  rewrite (bind_eq _ _ _ _ _ _ I). cbn. subst w'. reflexivity.
Qed.

(** X7: when the controller returns in a directory that has a
    METADATA file, the files it leaves are those it found without
    WAVECAR, and without CHGCAR unless the calculator it returns keeps
    it ([keep_chgcar], as the calculator is at line 318): CHGCAR is as
    it was when [keep_chgcar] is true and is not there when it is
    false; no other file is touched, and the working directory is the
    same. *)
Theorem Jasp_returns_frame (a : Args) (w : World) (c : loc) :
  res (Jasp a w) = Ok c ->
  present w "METADATA" = true ->
  let w' := final (Jasp a w) in
  exists cv kc,
    calcs (heap (final (queued_branch a w))) !! c = Some cv /\
    Calc.keep_chgcar cv = Some kc /\
    Calc.keep_wavecar cv = Some false /\
    sys w' = sys (swept kc false w) /\
    cwd (sys w') = cwd (sys w) /\
    file w' "WAVECAR" = None /\
    file w' "CHGCAR" = (if kc then file w "CHGCAR" else None) /\
    (forall f, f <> "WAVECAR" -> f <> "CHGCAR" -> file w' f = file w f).
Proof.
  intros E Hm w'.
  destruct (Jasp_ok_inv a w c E)
    as (_ & Hw & _ & l & cv & kc & _ & Hcv & Hkc & Hkw & _ & S3 & _ & F).
  cbv zeta in S3, F, Hcv.
  assert (S : sys w' = sys (swept kc false w)).
  { subst w'. rewrite F. rewrite finish_keeps; [exact S3|].
    rewrite (present_sys _ (swept kc false w) _ S3).
    unfold swept. rewrite Hw. cbn [negb andb].
    rewrite present_without. rewrite decide_False by discriminate.
    destruct (negb kc && present w "CHGCAR"); [|exact Hm].
    rewrite present_without. rewrite decide_False by discriminate. exact Hm. }
  exists cv, kc.
  split; [exact Hcv|]. split; [exact Hkc|]. split; [exact Hkw|].
  split; [exact S|].
  assert (Fs : forall f, file w' f = file (swept kc false w) f)
    by (intros f; apply file_sys, S).
  split.
  { rewrite S. unfold swept. rewrite Hw. cbn [negb andb].
    destruct (negb kc && present w "CHGCAR"); reflexivity. }
  rewrite !Fs. unfold swept. rewrite Hw. cbn [negb andb].
  split; [|split].
  - rewrite file_without. rewrite decide_True by reflexivity. reflexivity.
  - rewrite file_without. rewrite decide_False by discriminate.
    destruct kc; cbn [negb andb]; [reflexivity|].
    destruct (present w "CHGCAR") eqn:P.
    + rewrite file_without. rewrite decide_True by reflexivity. reflexivity.
    + apply present_false, P.
  - intros f H1 H2. rewrite Fs. unfold swept. rewrite Hw. cbn [negb andb].
    rewrite file_without. rewrite decide_False by congruence.
    destruct (negb kc && present w "CHGCAR"); [|reflexivity].
    rewrite file_without. rewrite decide_False by congruence. reflexivity.
Qed.

(** X8: with the [spring] keyword no file of the directory is
    examined: the only entries of the log are the two messages.  An
    exception of [read_neb_calculator] or of [calc.set] is swallowed
    by the bare [except], and [neb_initialize] runs on what they left.
    The call never returns a calculator: it ends with the exception of
    [neb_initialize], or at line 318. *)
Theorem Jasp_spring_never_returns (a : Args) (w : World) :
  has_key "spring" (kwargs a) = true ->
  events (Jasp a w) = [called w; EvLog msg_neb] /\
  (forall c, res (Jasp a w) <> Ok c) /\
  (forall c h h',
     read_neb_calculator (sys w) (heap w) = (Ok c, h) ->
     set c (kwargs a) (sys w) h = (Ok tt, h') ->
     res (Jasp a w) = Raise (UnboundLocalError "self") /\
     final (Jasp a w) = mkWorld (sys w) h') /\
  (forall e h,
     read_neb_calculator (sys w) (heap w) = (Raise e, h) ->
     let x := neb_initialize (atoms a) (kwargs a) (mkWorld (sys w) h) in
     res (Jasp a w) = match fst x with
                      | Ok _ => Raise (UnboundLocalError "self")
                      | Raise e' => Raise e'
                      end /\
     final (Jasp a w) = snd x) /\
  (forall c e h h',
     read_neb_calculator (sys w) (heap w) = (Ok c, h) ->
     set c (kwargs a) (sys w) h = (Raise e, h') ->
     let x := neb_initialize (atoms a) (kwargs a) (mkWorld (sys w) h') in
     res (Jasp a w) = match fst x with
                      | Ok _ => Raise (UnboundLocalError "self")
                      | Raise e' => Raise e'
                      end /\
     final (Jasp a w) = snd x).
Proof.
  intros Hk.
  assert (R : resolve a w = prepend [] (neb_branch a w))
    by (unfold resolve; rewrite Hk; symmetry; apply prepend_nil).
  assert (Hn : forall l, res (neb_branch a w) = Ok l -> l_self l = None).
  { intros l E. unfold neb_branch in E.
    repeat (apply bind_res_ok in E as (? & _ & E)).
    cbn in E. injection E as <-. reflexivity. }
  rewrite (Jasp_no_self a w [] _ R Hn). cbn [res final events app].
  assert (Ev : events (neb_branch a w) = [EvLog msg_neb]).
  { unfold neb_branch.
    rewrite (bind_eq (log_debug msg_neb) _ w w (Ok tt) [EvLog msg_neb] eq_refl).
    cbv beta iota. cbn [prepend events].
    match goal with
    | |- [_] ++ events (?m w) = _ =>
        assert (Q : emits (fun _ => False) m) by (repeat emits_step);
        specialize (Q w); destruct (events (m w)) as [|e ?];
        [reflexivity | inversion Q as [|? ? []]]
    end. }
  split; [rewrite Ev; reflexivity|].
  split; [intros c; destruct (res (neb_branch a w)); discriminate|].
  split; [|split].
  - intros c h h' Hr Hs.
    unfold neb_branch, bind, try_except, log_debug, tell, call, act, ret, prepend.
    cbn. rewrite Hr. cbn. rewrite Hs. cbn. split; reflexivity.
  - intros e h Hr.
    unfold neb_branch, bind, try_except, log_debug, tell, call, act, ret, prepend.
    cbn. rewrite Hr. cbn.
    destruct (neb_initialize (atoms a) (kwargs a) (mkWorld (sys w) h)) as [[c|e'] w'];
      cbn; split; reflexivity.
  - intros c e h h' Hr Hs.
    unfold neb_branch, bind, try_except, log_debug, tell, call, act, ret, prepend.
    cbn. rewrite Hr. cbn. rewrite Hs. cbn.
    destruct (neb_initialize (atoms a) (kwargs a) (mkWorld (sys w) h')) as [[c'|e'] w'];
      cbn; split; reflexivity.
Qed.

Ltac no_unlink :=
  repeat first
    [ progress unfold read_sort, Vasp_restart, empty_branch, running_branch,
        load_finished, queued_setup, identity_sort, queued_structure,
        queued_branch, save_params, save_initial_params, prepare
    | emits_step ];
  try reflexivity.

Lemma configured_branch_no_unlink (a : Args) :
  emits (fun e => is_unlink e = false) (configured_branch a).
Proof.
  unfold configured_branch. no_unlink.
  intros w. cbv beta.
  match goal with
  | |- Forall _ (events (match ?m w with _ => _ end)) =>
      let Hq := fresh in
      assert (Hq : emits (fun e => is_unlink e = false) m) by no_unlink;
      specialize (Hq w); destruct (m w) as [[?|[]] ? ?]; exact Hq
  end.
Qed.

Lemma Forall_no_unlink (evs : list event) :
  Forall (fun e => is_unlink e = false) evs -> filter is_unlink evs = [].
Proof.
  induction 1 as [|e evs He _ IH]; [reflexivity|].
  cbn. unfold filter in IH. cbn in *.
  destruct (decide (is_unlink e)) as [D|D]; [|exact IH].
  rewrite He in D. destruct D.
Qed.

(** X9: in an empty directory, in a directory configured and not
    submitted, and for a running job, the call never returns a
    calculator, deletes nothing ([os.unlink] is not called) and leaves
    the files, the working directory and the queue as they were. *)
Theorem Jasp_reads_only (a : Args) (w : World) :
  classify a w = Empty \/ classify a w = Configured \/ classify a w = Running ->
  (forall c, res (Jasp a w) <> Ok c) /\
  sys (final (Jasp a w)) = sys w /\
  filter is_unlink (events (Jasp a w)) = [].
Proof.
  intros Hs.
  assert (N : classify a w <> Queued) by (destruct Hs as [->|[->| ->]]; discriminate).
  destruct (Jasp_not_queued a w N) as (evs & P & ->). cbn [res final events].
  split; [intros c; destruct (res (branch (classify a w) a w)); discriminate|].
  split.
  - destruct Hs as [->|[->| ->]]; cbn [branch].
    + apply empty_branch_keeps.
    + apply configured_branch_keeps.
    + apply running_branch_keeps.
  - change (called w :: evs ++ ?x) with ([called w] ++ evs ++ x).
    rewrite !filter_app, (probes_no_unlink evs P). cbn.
    apply Forall_no_unlink.
    destruct Hs as [->|[->| ->]]; cbn [branch].
    + assert (Q : emits (fun e => is_unlink e = false) (empty_branch a)) by no_unlink.
      apply Q.
    + apply configured_branch_no_unlink.
    + assert (Q : emits (fun e => is_unlink e = false) (running_branch a)) by no_unlink.
      apply Q.
Qed.

End ReturnsFacts.

(** ** The sort file *)

Lemma update_put_calc (c : loc) (f : Calc.t -> Calc.t) (cv : Calc.t) (w : World) :
  update_calc c f (put_calc c cv w) = mkOut (Ok tt) (put_calc c (f cv) w) [].
Proof.
  unfold update_calc, put_calc, with_heap. cbn. rewrite lookup_insert_eq.
  rewrite insert_insert_eq. reflexivity.
Qed.

Lemma update_calc_put (c : loc) (f : Calc.t -> Calc.t) (cv : Calc.t) (w : World) :
  calcs (heap w) !! c = Some cv ->
  update_calc c f w = mkOut (Ok tt) (put_calc c (f cv) w) [].
Proof. intros E. unfold update_calc, put_calc, with_heap. rewrite E. reflexivity. Qed.

Lemma bind_update_put {B} (c : loc) (f : Calc.t -> Calc.t) (cv : Calc.t)
    (k : unit -> M B) (w : World) :
  bind (update_calc c f) k (put_calc c cv w) = k tt (put_calc c (f cv) w).
Proof.
  rewrite (bind_eq _ _ _ _ _ _ (update_put_calc c f cv w)). apply prepend_nil.
Qed.

Lemma sort_line_run (c : loc) (line d0 d1 : string) (ds : list string)
    (i0 i1 : Z) (s r : list Z) (cv : Calc.t) (w : World) :
  Py.split line = d0 :: d1 :: ds ->
  Py.int d0 = Some i0 -> Py.int d1 = Some i1 ->
  sort_line c line tt (put_calc c (sorted s r cv) w) =
  mkOut (Ok tt) (put_calc c (sorted (s ++ [i0]) (r ++ [i1]) cv) w) [].
Proof.
  intros Hd H0 H1. unfold sort_line. rewrite Hd.
  change ((d0 :: d1 :: ds) !! 0%nat) with (Some d0).
  change ((d0 :: d1 :: ds) !! 1%nat) with (Some d1).
  cbn [require]. rewrite bind_ret, H0. cbn [require].
  rewrite bind_ret, bind_update_put, bind_ret, H1. cbn [require].
  rewrite bind_ret, update_put_calc.
  reflexivity.
Qed.

Lemma sort_lines_run (c : loc) (lines : list string) (pairs : list (Z * Z))
    (s r : list Z) (cv : Calc.t) (w : World) :
  mapM sort_pair lines = Some pairs ->
  for_each lines (sort_line c) tt (put_calc c (sorted s r cv) w) =
  mkOut (Ok tt) (put_calc c (sorted (s ++ pairs.*1) (r ++ pairs.*2) cv) w) [].
Proof.
  revert pairs s r. induction lines as [|line lines IH]; intros pairs s r Hp.
  - cbn in Hp. injection Hp as <-. cbn. rewrite !app_nil_r. reflexivity.
  - cbn [mapM] in Hp.
    destruct (sort_pair line) as [[i0 i1]|] eqn:Hl; [|discriminate].
    cbn in Hp. destruct (mapM sort_pair lines) as [ps|] eqn:Hps; [|discriminate].
    cbn in Hp. injection Hp as <-.
    unfold sort_pair in Hl.
    destruct (Py.split line) as [|d0 [|d1 ds]] eqn:Hd; try discriminate.
    destruct (Py.int d0) as [j0|] eqn:H0; [|discriminate].
    destruct (Py.int d1) as [j1|] eqn:H1; [|discriminate].
    injection Hl as -> ->.
    cbn [for_each].
    rewrite (bind_eq _ _ _ _ _ _ (sort_line_run c line d0 d1 ds i0 i1 s r cv w Hd H0 H1)).
    cbv beta iota. rewrite prepend_nil, (IH ps) by reflexivity.
    cbn [fmap list_fmap fst snd]. rewrite <- !app_assoc. reflexivity.
Qed.

Section SortFile.
Context `{Collaborators}.

Lemma read_sort_start (c : loc) (cv : Calc.t) (w : World) (txt : string) :
  calcs (heap w) !! c = Some cv ->
  file w "ase-sort.dat" = Some txt ->
  read_sort c w =
  prepend [EvOpen "ase-sort.dat"]
    (for_each (Py.readlines txt) (sort_line c) tt (put_calc c (sorted [] [] cv) w)).
Proof.
  intros Hc Hf. unfold read_sort.
  rewrite (bind_eq _ _ _ _ _ _ (update_calc_put c _ cv w Hc)). cbv beta iota.
  rewrite prepend_nil, bind_update_put.
  assert (R : read_file "ase-sort.dat" (put_calc c (sorted [] [] cv) w) =
              mkOut (Ok txt) (put_calc c (sorted [] [] cv) w) [EvOpen "ase-sort.dat"]).
  { rewrite read_file_run. change (file (put_calc _ _ w)) with (file w).
    rewrite Hf. reflexivity. }
  change (Calc.set_resort [] (Calc.set_sort [] cv)) with (sorted [] [] cv).
  rewrite (bind_eq _ _ _ _ _ _ R). reflexivity.
Qed.

(** X10: the sort file (lines 174-182 and 227-235).  When every
    line of ase-sort.dat starts with two integers, [sort] is the list
    of the first ones and [resort] the list of the second ones, in the
    order of the lines; further fields are ignored, and nothing else
    changes. *)
Theorem read_sort_parses (c : loc) (cv : Calc.t) (w : World) (txt : string)
    (pairs : list (Z * Z)) :
  calcs (heap w) !! c = Some cv ->
  file w "ase-sort.dat" = Some txt ->
  mapM sort_pair (Py.readlines txt) = Some pairs ->
  read_sort c w =
  mkOut (Ok tt) (put_calc c (sorted (pairs.*1) (pairs.*2) cv) w)
        [EvOpen "ase-sort.dat"].
Proof.
  intros Hc Hf Hp. rewrite (read_sort_start c cv w txt Hc Hf).
  rewrite (sort_lines_run c _ pairs [] [] cv w Hp). reflexivity.
Qed.

(** X11: the first line of ase-sort.dat that does not start with two
    integers ends the loop with an exception, and the lists keep what
    was appended before it: a blank line raises IndexError; a single
    integer raises IndexError after it has been appended to [sort],
    which is then one longer than [resort]; a first field that is no
    integer raises ValueError; a second field that is no integer raises
    ValueError after the first has been appended. *)
Theorem read_sort_bad_line (c : loc) (cv : Calc.t) (w : World) (txt : string)
    (good rest : list string) (bad : string) (pairs : list (Z * Z)) :
  calcs (heap w) !! c = Some cv ->
  file w "ase-sort.dat" = Some txt ->
  Py.readlines txt = good ++ bad :: rest ->
  mapM sort_pair good = Some pairs ->
  let o := read_sort c w in
  (Py.split bad = [] ->
   res o = Raise IndexError /\
   final o = put_calc c (sorted (pairs.*1) (pairs.*2) cv) w) /\
  (forall d0 i0,
     Py.split bad = [d0] -> Py.int d0 = Some i0 ->
     res o = Raise IndexError /\
     final o = put_calc c (sorted (pairs.*1 ++ [i0]) (pairs.*2) cv) w) /\
  (forall d0 ds,
     Py.split bad = d0 :: ds -> Py.int d0 = None ->
     res o = Raise (ValueError d0) /\
     final o = put_calc c (sorted (pairs.*1) (pairs.*2) cv) w) /\
  (forall d0 d1 ds i0,
     Py.split bad = d0 :: d1 :: ds -> Py.int d0 = Some i0 -> Py.int d1 = None ->
     res o = Raise (ValueError d1) /\
     final o = put_calc c (sorted (pairs.*1 ++ [i0]) (pairs.*2) cv) w).
Proof.
  intros Hc Hf Hl Hp o. subst o.
  rewrite (read_sort_start c cv w txt Hc Hf), Hl, for_each_app.
  rewrite (bind_eq _ _ _ _ _ _ (sort_lines_run c _ pairs [] [] cv w Hp)).
  cbv beta iota. cbn [app for_each]. rewrite prepend_nil. cbn [prepend res final].
  assert (L0 : forall (d : string) ds, (d :: ds) !! 0%nat = Some d) by reflexivity.
  assert (L1 : forall (d d' : string) ds, (d :: d' :: ds) !! 1%nat = Some d')
    by reflexivity.
  set (W := put_calc c (sorted (pairs.*1) (pairs.*2) cv) w).
  split; [|split; [|split]].
  - intros Hd.
    assert (E : sort_line c bad tt W = mkOut (Raise IndexError) W [])
      by (unfold sort_line; rewrite Hd; reflexivity).
    rewrite (bind_eq _ _ _ _ _ _ E). split; reflexivity.
  - intros d0 i0 Hd H0.
    assert (E : sort_line c bad tt W =
                mkOut (Raise IndexError)
                      (put_calc c (sorted (pairs.*1 ++ [i0]) (pairs.*2) cv) w) []).
    { unfold sort_line. rewrite Hd, L0. cbn [require].
      rewrite bind_ret, H0. cbn [require]. subst W.
      rewrite bind_ret, bind_update_put. reflexivity. }
    rewrite (bind_eq _ _ _ _ _ _ E). split; reflexivity.
  - intros d0 ds Hd H0.
    assert (E : sort_line c bad tt W = mkOut (Raise (ValueError d0)) W []).
    { unfold sort_line. rewrite Hd, L0. cbn [require].
      rewrite bind_ret, H0. reflexivity. }
    rewrite (bind_eq _ _ _ _ _ _ E). split; reflexivity.
  - intros d0 d1 ds i0 Hd H0 H1.
    assert (E : sort_line c bad tt W =
                mkOut (Raise (ValueError d1))
                      (put_calc c (sorted (pairs.*1 ++ [i0]) (pairs.*2) cv) w) []).
    { unfold sort_line. rewrite Hd, L0, L1.
      cbn [require]. rewrite bind_ret, H0. cbn [require]. subst W.
      rewrite bind_ret, bind_update_put, bind_ret, H1. reflexivity. }
    rewrite (bind_eq _ _ _ _ _ _ E). split; reflexivity.
Qed.

End SortFile.

(** ** The hooks of a job whose results cannot be loaded *)

Section Lost.
Context `{Collaborators}.

(** X19: the hooks of a finished job whose results cannot be loaded.
    The jobid file is deleted after the validator has accepted the job
    and before the calculator is built (line 292); when building it
    fails, the exception is that of the call, no hook has run, the
    jobid file is gone, and no later call, with whatever arguments,
    runs a hook. *)
Theorem Jasp_finished_load_fails (a : Args) (w : World) (j : string) (b : bool)
    (e : exn) :
  classify a w = Finished ->
  file w "jobid" = Some j ->
  res (calculation_is_ok (Some (Py.before_dot (Py.readline j))) w) = Ok b ->
  res (load_finished a (without "jobid" w)) = Raise e ->
  res (Jasp a w) = Raise e /\
  sys (final (Jasp a w)) = sys (without "jobid" w) /\
  hooks_fired (events (Jasp a w)) = [] /\
  forall a', hooks_fired (events (Jasp a' (final (Jasp a w)))) = [].
Proof.
  intros HF Hj Hv Hl.
  assert (N : classify a w <> Queued) by (rewrite HF; discriminate).
  destruct (Jasp_not_queued a w N) as (evs & P & J).
  rewrite HF in J. cbn [branch] in J.
  pose proof (finished_branch_accepted a w j b Hj Hv) as B.
  rewrite (bind_raise _ _ _ _ Hl) in B. cbn [prepend] in B.
  rewrite B in J. cbn [res final events] in J. rewrite J. cbn [res final events].
  split; [reflexivity|].
  assert (S : sys (final (load_finished a (without "jobid" w))) = sys (without "jobid" w))
    by apply load_finished_keeps.
  split; [exact S|].
  split.
  - apply not_hook_fired. constructor; [reflexivity|].
    apply Forall_app. split; [apply probe_not_hook, P|].
    repeat (apply Forall_app; split); try (repeat constructor; reflexivity).
    + apply calculation_is_ok_quiet.
    + apply load_finished_quiet.
  - intros a'. apply no_jobid_no_hooks.
    rewrite (present_sys _ _ _ S), present_without.
    rewrite decide_True by reflexivity. reflexivity.
Qed.

End Lost.

(** ** The claim on the hooks of a finished job *)

(** With a CONTCAR that holds something the validator changes nothing. *)
Lemma validator_keeps (jobid : option string) (w : World) :
  file w "CONTCAR" <> Some "" ->
  final (calculation_is_ok jobid w) = w.
Proof.
  intros Hne.
  destruct (file w "CONTCAR") as [c|] eqn:Hc;
    [|apply (validator_no_contcar jobid w Hc)].
  assert (Hc' : c <> "") by congruence.
  destruct (file w "OUTCAR") as [o|] eqn:Ho;
    [|apply (validator_no_outcar jobid w c Hc Hc' Ho)].
  destruct (calculation_is_ok_nonempty jobid w c o Hc Hc' Ho) as (_ & _ & F & _).
  exact F.
Qed.

Section FinishedHooks.
Context `{Collaborators}.

(** C1: in the state "finished, first observation", with a CONTCAR
    that is not an empty file, the controller reads the job id and runs
    the validator.  When the validator raises, the call raises the same
    exception and the directory is as it was, the jobid file in it.
    When the validator returns, the jobid file is deleted and the
    calculator is loaded; when loading raises, the call raises the same
    exception, no hook has run and the jobid file is gone.  When the
    calculator is loaded, and for hooks that leave its list of hooks as
    it is, the hooks registered on it are run one after the other, in
    the order of the list, each on the calculator and in the world that
    the hook before it left: all of them, each once, when none raises,
    and then the call goes on to line 318 and ends there with
    UnboundLocalError; up to the first one that raises otherwise, whose
    exception is that of the call.  A second call, with the jobid file
    gone, runs no hook. *)
Theorem Jasp_finished_hooks_once (a : Args) (w : World) (j : string) :
  classify a w = Finished ->
  file w "jobid" = Some j ->
  file w "CONTCAR" <> Some "" ->
  let v := calculation_is_ok (Some (Py.before_dot (Py.readline j))) w in
  let ld := load_finished a (without "jobid" w) in
  exists probes, Forall probe probes /\
  (forall e, res v = Raise e ->
     Jasp a w =
     mkOut (Raise e) w
           (called w :: probes ++ [EvLog msg_finished; EvOpen "jobid"]
                     ++ events v)) /\
  (forall b e, res v = Ok b -> res ld = Raise e ->
     res (Jasp a w) = Raise e /\
     hooks_fired (events (Jasp a w)) = [] /\
     present (final (Jasp a w)) "jobid" = false) /\
  (forall b c cv,
     res v = Ok b ->
     res ld = Ok c ->
     calcs (heap (final ld)) !! c = Some cv ->
     hooks_keep_list c ->
     let hs := default [] (Calc.post_run_hooks cv) in
     let f := fire hs c (final ld) in
     events (Jasp a w) =
       called w :: probes ++ [EvLog msg_finished; EvOpen "jobid"]
                ++ events v ++ [EvUnlink "jobid"] ++ events ld
                ++ map (fun h => EvHook h c) (fired f) /\
     hooks_fired (events (Jasp a w)) = map (fun h => EvHook h c) (fired f) /\
     final (Jasp a w) = left_ f /\
     res (Jasp a w) = match outcome f with
                      | Ok _ => Raise (UnboundLocalError "self")
                      | Raise e => Raise e
                      end /\
     (outcome f = Ok tt -> fired f = hs) /\
     (forall e, outcome f = Raise e ->
        exists k h,
          hs !! k = Some h /\
          fired f = take (S k) hs /\
          outcome (fire (take k hs) c (final ld)) = Ok tt /\
          run_hook h c (left_ (fire (take k hs) c (final ld)))
          = (Raise e, left_ f))) /\
  (forall a',
     present (final (Jasp a w)) "jobid" = false ->
     hooks_fired (events (Jasp a' (final (Jasp a w)))) = []).
Proof.
  intros Hs Hj Hc v ld.
  destruct (resolve_classify a w) as (probes & Hp & R). rewrite Hs in R.
  cbn [branch] in R.
  assert (Hn : forall l, res (finished_branch a w) = Ok l -> l_self l = None)
    by (intros l; apply (branch_no_self Finished); discriminate).
  pose proof (Jasp_no_self a w _ _ R Hn) as J.
  exists probes. split; [exact Hp|]. split; [|split; [|split]].
  - intros e E. rewrite J, (finished_branch_rejected a w j e Hj E).
    cbn [res final events].
    rewrite (validator_keeps _ w Hc). reflexivity.
  - intros b e E El.
    rewrite (finished_branch_accepted a w j b Hj E) in J. fold v in J.
    fold ld in J. rewrite (bind_raise _ _ _ _ El) in J. cbn [prepend] in J.
    cbn [res final events] in J. rewrite J. cbn [res final events].
    split; [reflexivity|]. split.
    + apply not_hook_fired. constructor; [reflexivity|].
      apply Forall_app. split; [apply probe_not_hook, Hp|].
      repeat (apply Forall_app; split); try (repeat constructor; reflexivity).
      * apply calculation_is_ok_quiet.
      * apply load_finished_quiet.
    + unfold prepend. cbn [final].
      rewrite (present_sys _ (without "jobid" w) _ (load_finished_keeps a _)).
      rewrite present_without. rewrite decide_True by reflexivity. reflexivity.
  - intros b c cv E Eld Ecv _ hs f.
    rewrite (finished_branch_accepted a w j b Hj E) in J. fold v in J.
    assert (T : (calc <- load_finished a ;;
                 run_post_run_hooks calc ;;
                 ret (mkLocals (Some calc) None (atoms a))) (without "jobid" w)
                = mkOut (match outcome f with
                         | Ok _ => Ok (mkLocals (Some c) None (atoms a))
                         | Raise e => Raise e
                         end) (left_ f)
                        (events ld ++ map (fun h => EvHook h c) (fired f))).
    { rewrite (bind_ok _ _ _ _ Eld). fold ld.
      unfold bind at 1. rewrite (run_post_run_hooks_run c cv _ Ecv).
      fold hs. rewrite run_hooks_fire. fold f. unfold prepend.
      destruct (outcome f) as [[]|e]; cbn; rewrite ?app_nil_r; reflexivity. }
    rewrite T in J. unfold prepend in J. cbn [res final events] in J.
    assert (Ev : events (Jasp a w) =
                 called w :: probes ++ [EvLog msg_finished; EvOpen "jobid"]
                 ++ events v ++ [EvUnlink "jobid"] ++ events ld
                 ++ map (fun h => EvHook h c) (fired f)).
    { rewrite J. cbn [events]. rewrite <- !app_assoc. reflexivity. }
    split; [exact Ev|]. split; [|split; [|split; [|split]]].
    + rewrite Ev. change (called w :: ?l) with ([called w] ++ l).
      rewrite !hooks_fired_app.
      rewrite (probes_no_hook probes Hp).
      rewrite (not_hook_fired (events v) (calculation_is_ok_quiet _ w)).
      rewrite (not_hook_fired (events ld) (load_finished_quiet a _)).
      rewrite hooks_fired_hooks. reflexivity.
    + rewrite J. reflexivity.
    + rewrite J. cbn [res]. destruct (outcome f); reflexivity.
    + apply fire_all.
    + intros e Ef. apply (fire_raise hs c (final ld) e Ef).
  - intros a' Hjob. apply no_jobid_no_hooks, Hjob.
Qed.

End FinishedHooks.

(** ** The context manager, further *)

Section Scoped.
Context `{Collaborators}.

Lemma with_jasp_run {A} (vaspdir : string) (kw : Args) (body : loc -> M A)
    (w : World) (calc : loc) :
  let mgr := mk_jasp (cwd (sys w)) (expanduser vaspdir) kw in
  res (jasp__enter__ mgr w) = Ok calc ->
  with_jasp vaspdir kw body w =
  prepend (events (jasp__enter__ mgr w))
    (let o := body calc (final (jasp__enter__ mgr w)) in
     prepend (events o)
       (match res o with
        | Ok v => (jasp__exit__ mgr ;; ret (Some v)) (final o)
        | Raise e => (suppress <- jasp__exit__ mgr ;;
                      if suppress : bool then ret None else raise e) (final o)
        end)).
Proof.
  intros mgr E. unfold with_jasp, jasp__init__.
  rewrite bind_assoc.
  rewrite (bind_eq getcwd _ w w (Ok (cwd (sys w))) [] eq_refl). cbv beta iota.
  rewrite prepend_nil, bind_ret. fold mgr.
  rewrite (bind_ok _ _ _ _ E). cbv zeta.
  destruct (body calc (final (jasp__enter__ mgr w))) as [[v|e] w' ev]; reflexivity.
Qed.

(** X12: leaving the [with] statement once [__enter__] has
    returned.  When the directory the manager was created in still
    exists, [__exit__] goes back to it and changes nothing else; the
    statement gives what the body gave, its exception included.  When
    that directory is gone, the OSError of [os.chdir] takes the place of
    the result or the exception of the body. *)
Theorem with_jasp_exit {A} (vaspdir : string) (kw : Args) (body : loc -> M A)
    (w : World) (calc : loc) :
  let mgr := mk_jasp (cwd (sys w)) (expanduser vaspdir) kw in
  let o := body calc (final (jasp__enter__ mgr w)) in
  let r := with_jasp vaspdir kw body w in
  res (jasp__enter__ mgr w) = Ok calc ->
  (is_Some (dirs (sys (final o)) !! cwd (sys w)) ->
   res r = match res o with Ok v => Ok (Some v) | Raise e => Raise e end /\
   cwd (sys (final r)) = cwd (sys w) /\
   dirs (sys (final r)) = dirs (sys (final o)) /\
   heap (final r) = heap (final o)) /\
  (dirs (sys (final o)) !! cwd (sys w) = None ->
   res r = Raise (OSError (cwd (sys w))) /\
   final r = final o).
Proof.
  intros mgr o r E. subst r. rewrite (with_jasp_run vaspdir kw body w calc E).
  fold mgr. cbv zeta. fold o. cbn [prepend res final].
  unfold jasp__exit__. cbn [jasp_cwd mgr].
  split.
  - intros [d Hd].
    destruct (res o) as [v|e];
      rewrite !bind_assoc, (bind_eq _ _ _ _ _ _ (chdir_run _ _ d Hd));
      cbn; repeat split; reflexivity.
  - intros Hd.
    assert (C : chdir (cwd (sys w)) (final o) =
                mkOut (Raise (OSError (cwd (sys w)))) (final o) [EvChdir (cwd (sys w))])
      by (unfold chdir; rewrite Hd; reflexivity).
    destruct (res o) as [v|e];
      rewrite !bind_assoc, (bind_eq _ _ _ _ _ _ C); split; reflexivity.
Qed.

Lemma classify_entered_new (kw : Args) (vaspdir : string) (w : World) :
  has_key "spring" (kwargs kw) = false ->
  dirs (sys w) !! vaspdir = None ->
  classify kw (entered vaspdir w) = Empty.
Proof.
  intros Hk Hd. unfold classify, rule_neb, rule_empty. rewrite Hk.
  assert (P : present (entered vaspdir w) "INCAR" = false).
  { apply present_false. unfold file, files, entered. cbn. rewrite Hd.
    rewrite lookup_insert_eq. reflexivity. }
  rewrite P. reflexivity.
Qed.

(** X13: entering a directory that does not exist, named by an
    absolute, normalised path under which there is no file either
    (without the [spring] keyword).  [__enter__] makes it and changes
    into it, the controller finds it empty, and the statement never
    runs its body: it ends with an exception (the UnboundLocalError of
    line 318 when the calculator can be built), the new directory is
    there, empty, and the process is left in it.  (A relative path, a
    path with dots or a path that starts with a tilde may name a
    directory that exists under another key; such paths are left
    out.) *)
Theorem with_jasp_new_directory {A} (vaspdir : string) (kw : Args)
    (body : loc -> M A) (w : World) :
  has_key "spring" (kwargs kw) = false ->
  Py.startswith vaspdir "/" = true ->
  normalised vaspdir = true ->
  dirs (sys w) !! vaspdir = None ->
  entry (sys w) vaspdir = None ->
  let r := with_jasp vaspdir kw body w in
  (forall v, res r <> Ok v) /\
  sys (final r) = mkSys vaspdir (<[vaspdir := ∅]> (dirs (sys w))) (in_queue (sys w)) /\
  (forall c h,
     atoms kw = None ->
     Vasp (restart kw) (output_template kw) (track_output kw)
          (sys (entered vaspdir w)) (heap w) = (Ok c, h) ->
     res r = Raise (UnboundLocalError "self")).
Proof.
  intros Hk _ _ Hd _ r.
  pose proof (classify_entered_new kw vaspdir w Hk Hd) as HE.
  assert (N : classify kw (entered vaspdir w) <> Queued) by (rewrite HE; discriminate).
  destruct (Jasp_not_queued kw (entered vaspdir w) N) as (evs & P & J).
  rewrite HE in J. cbn [branch] in J.
  set (b := empty_branch kw (entered vaspdir w)) in *.
  assert (Rj : exists e, res (Jasp kw (entered vaspdir w)) = Raise e /\
                         (forall l, res b = Ok l -> e = UnboundLocalError "self")).
  { rewrite J. cbn [res]. destruct (res b) as [l|e].
    - eexists. split; [reflexivity|]. reflexivity.
    - exists e. split; [reflexivity|]. discriminate. }
  destruct Rj as (e & Rj & Re).
  pose proof (with_jasp_enter_raises vaspdir kw body w e Rj) as W.
  subst r. rewrite W. cbn [res final].
  split; [discriminate|].
  split.
  - rewrite J. cbn [final]. subst b. rewrite empty_branch_keeps.
    unfold entered. cbn [sys]. rewrite Hd. reflexivity.
  - intros c h Ha Hv. f_equal. apply (Re (mkLocals (Some c) None None)).
    subst b. unfold empty_branch, bind, call. rewrite Ha.
    change (heap (entered vaspdir w)) with (heap w). rewrite Hv. reflexivity.
Qed.

End Scoped.

(** ** [isavaspdir] *)










Lemma tests_exists_at (p : string) (w : World) :
  tests (path_exists_at p) (bool_decide (is_Some (entry (sys w) p))) w.
Proof. exists [EvExists p]. split; [repeat constructor | reflexivity]. Qed.

(** The two chains of tests of [isavaspdir], run. *)
Lemma isavaspdir_run (path : string) (w : World) :
  res (isavaspdir path w) =
    Ok (vasp_files (fun f => entry (sys w) (Path.join path f))) /\
  final (isavaspdir path w) = w.
Proof.
  unfold isavaspdir, vasp_files.
  set (pP := Path.join path "POSCAR"). set (pI := Path.join path "INCAR").
  set (pK := Path.join path "KPOINTS"). set (pT := Path.join path "POTCAR").
  set (bP := bool_decide (is_Some (entry (sys w) pP))).
  set (bI := bool_decide (is_Some (entry (sys w) pI))).
  set (bK := bool_decide (is_Some (entry (sys w) pK))).
  set (bT := bool_decide (is_Some (entry (sys w) pT))).
  assert (T1 : tests (path_exists_at pP &&& path_exists_at pI
                      &&& path_exists_at pK &&& path_exists_at pT)
                     (bP && bI && bK && bT) w)
    by (repeat apply tests_and; apply tests_exists_at).
  assert (T2 : tests (path_exists_at pI &&& path_exists_at pK &&& path_exists_at pT)
                     (bI && bK && bT) w)
    by (repeat apply tests_and; apply tests_exists_at).
  destruct (if_tests (A := bool) _ _ _ (ret true)
              (if_ (path_exists_at pI &&& path_exists_at pK &&& path_exists_at pT)
                 (incar <- read_path pI ;;
                  if Py.contains "IMAGES" incar then ret true else ret false)
                 (ret false)) T1) as (e1 & _ & ->).
  cbn [prepend res final].
  destruct (bP && bI && bK && bT) eqn:C1.
  { apply andb_true_iff in C1 as [C1 ->]. apply andb_true_iff in C1 as [C1 ->].
    apply andb_true_iff in C1 as [-> ->]. split; reflexivity. }
  destruct (if_tests (A := bool) _ _ _
               (incar <- read_path pI ;;
                if Py.contains "IMAGES" incar then ret true else ret false)
               (ret false) T2) as (e2 & _ & ->).
  cbn [prepend res final].
  destruct (bI && bK && bT) eqn:C2.
  - apply andb_true_iff in C2 as [C2 ->]. apply andb_true_iff in C2 as [HI ->].
    rewrite HI, !andb_true_r in C1. rewrite C1. cbn [andb orb].
    subst bI. apply bool_decide_eq_true in HI as [c Hc].
    unfold bind, read_path. rewrite Hc. cbn.
    destruct (Py.contains "IMAGES" c); split; reflexivity.
  - split; reflexivity.
Qed.

(** X14: on a normalised path, in directories of plain, readable
    files, [isavaspdir] returns and changes nothing.  Its answer is true
    exactly when INCAR, KPOINTS and POTCAR are found under the path and
    either POSCAR is, too, or the text of INCAR contains [IMAGES].  (A
    path with dots, such as the [.] that the command line takes by
    default, is not looked up as the file system does, and an INCAR
    that cannot be read makes line 452 raise: both are left out.) *)
Theorem isavaspdir_answers (path : string) (w : World) :
  normalised path = true ->
  let look := fun f => entry (sys w) (Path.join path f) in
  final (isavaspdir path w) = w /\
  exists b,
    res (isavaspdir path w) = Ok b /\
    (b = true <->
     is_Some (look "INCAR") /\ is_Some (look "KPOINTS") /\ is_Some (look "POTCAR") /\
     (is_Some (look "POSCAR") \/
      exists c, look "INCAR" = Some c /\ Py.contains "IMAGES" c = true)).
Proof.
  intros _ look. subst look. cbv beta.
  destruct (isavaspdir_run path w) as [R F].
  split; [exact F|]. eexists. split; [exact R|].
  unfold vasp_files.
  rewrite !andb_true_iff, orb_true_iff, !bool_decide_eq_true.
  split.
  - intros [[[HI HK] HT] HP]. repeat split; try assumption.
    destruct HP as [HP|HC]; [left; exact HP|].
    right. destruct HI as [c Hc]. exists c. rewrite Hc in HC. split; [exact Hc|].
    exact HC.
  - intros (HI & HK & HT & HP). repeat split; try assumption.
    destruct HP as [HP|(c & Hc & HC)]; [left; exact HP|].
    right. rewrite Hc. exact HC.
Qed.

Section Walk.
Context `{Collaborators}.


(** For a name of the working directory, [path_exists_at] is
    [path_exists]. *)
Lemma path_exists_at_plain (f : string) (w : World) :
  plain f ->
  res (path_exists_at f w) = res (path_exists f w).
Proof.
  unfold plain. intros Hf. unfold path_exists_at, path_exists, present, file,
    files, entry, locate, Path.split. cbn [res]. rewrite Hf. cbn.
  destruct (dirs (sys w) !! cwd (sys w)); reflexivity.
Qed.

End Walk.

(** ** [get_elastic_moduli], further *)

Section Moduli.
Context `{Collaborators} `{Float64}.

Lemma scan_slice (all rest : list string) (i : nat) (data : list string) :
  scan all rest i = Some data ->
  exists j, data = Py.slice (j + 3) (j + 3 + 6) all.
Proof.
  revert i. induction rest as [|l rest IH]; intros i; cbn [scan]; [discriminate|].
  destruct (Py.startswith l header).
  - intros [= <-]. exists i. reflexivity.
  - apply IH.
Qed.

Lemma slice_length {A} (i j : nat) (l : list A) :
  length (Py.slice i j l) = min (j - i) (length l - i).
Proof. unfold Py.slice. rewrite length_take, length_drop. reflexivity. Qed.

Lemma rows_loop_inv (data : list string) (acc TEM : list (list f64)) (w : World) :
  res (for_each data (fun line TEM =>
         row <- require (mapM float (tail (Py.split line))) (ValueError line) ;;
         ret (TEM ++ [row])) acc w) = Ok TEM ->
  exists rows,
    mapM (fun line => mapM float (tail (Py.split line))) data = Some rows /\
    TEM = acc ++ rows.
Proof.
  revert acc TEM. induction data as [|line data IH]; intros acc TEM E.
  - cbn in E. injection E as <-. exists []. rewrite app_nil_r. split; reflexivity.
  - cbn [for_each] in E.
    destruct (mapM float (tail (Py.split line))) as [row|] eqn:Hr.
    2:{ exfalso. revert E. unfold bind at 1. unfold bind at 1.
        cbn [require raise]. discriminate. }
    assert (R : (row0 <- require (Some row) (ValueError line) ;;
                 ret (acc ++ [row0])) w = mkOut (Ok (acc ++ [row])) w [])
      by reflexivity.
    rewrite (bind_eq _ _ _ _ _ _ R) in E. cbv beta iota in E.
    rewrite prepend_nil in E. rename E into E2.
    destruct (IH _ _ E2) as (rows & Hm & ->).
    exists (row :: rows). split.
    + cbn [mapM]. rewrite Hr, Hm. reflexivity.
    + rewrite <- app_assoc. reflexivity.
Qed.

Lemma rectangular_map {A B} (f : A -> B) (m : list (list A)) :
  rectangular (map (map f) m) = rectangular m.
Proof.
  destruct m as [|r rs]; [reflexivity|]. cbn [map rectangular].
  induction rs as [|r' rs IH]; [reflexivity|].
  cbn [map forallb]. rewrite IH, !length_map. reflexivity.
Qed.

Lemma get_elastic_moduli_run (self : loc) (w w1 : World) (txt : string) :
  calculate self w = (Ok tt, w1) ->
  file w1 "OUTCAR" = Some txt ->
  get_elastic_moduli self w =
  prepend [EvOpen "OUTCAR"]
    ((data <- require (scan (Py.readlines txt) (Py.readlines txt) 0)
                      (UnboundLocalError "data") ;;
      TEM <- for_each data (fun line TEM =>
               row <- require (mapM float (tail (Py.split line))) (ValueError line) ;;
               ret (TEM ++ [row])) [] ;;
      np_array_times_tenth TEM) w1).
Proof.
  intros Hc Hf. unfold get_elastic_moduli.
  assert (A : act (calculate self) w = mkOut (Ok tt) w1 [])
    by (unfold act; rewrite Hc; reflexivity).
  rewrite (bind_eq _ _ _ _ _ _ A). cbv beta iota. rewrite prepend_nil.
  assert (R : read_file "OUTCAR" w1 = mkOut (Ok txt) w1 [EvOpen "OUTCAR"])
    by (rewrite read_file_run, Hf; reflexivity).
  rewrite (bind_eq _ _ _ _ _ _ R). reflexivity.
Qed.

(** X16: whenever [get_elastic_moduli] returns, the matrix has at
    most six rows, all of one length. *)
Theorem get_elastic_moduli_shape (self : loc) (w : World) (m : list (list f64)) :
  res (get_elastic_moduli self w) = Ok m ->
  length m <= 6 /\ rectangular m = true.
Proof.
  intros E. unfold get_elastic_moduli in E.
  apply bind_res_ok in E as ([] & _ & E).
  apply bind_res_ok in E as (c & _ & E).
  apply bind_res_ok in E as (data & Ed & E).
  apply bind_res_ok in E as (TEM & Et & E).
  destruct (scan (Py.readlines c) (Py.readlines c) 0) as [d|] eqn:Hs;
    [|discriminate].
  cbn in Ed. injection Ed as ->.
  destruct (scan_slice _ _ _ _ Hs) as (j & ->).
  destruct (rows_loop_inv _ _ _ _ Et) as (rows & Hm & ->).
  unfold np_array_times_tenth in E.
  destruct (rectangular ([] ++ rows)) eqn:Hr; [|discriminate].
  cbn in E. injection E as <-.
  split; [|rewrite rectangular_map; exact Hr].
  rewrite length_map. apply length_mapM in Hm. rewrite <- Hm, slice_length. lia.
Qed.

(** X17: a table that is cut off.  When the first header line is one
    of the last three lines of OUTCAR, the slice [lines[i+3:i+9]] is
    empty and the function returns the empty matrix; it does not
    fail. *)
Theorem get_elastic_moduli_truncated (self : loc) (w w1 : World) (txt : string)
    (i : nat) :
  calculate self w = (Ok tt, w1) ->
  file w1 "OUTCAR" = Some txt ->
  first_header (Py.readlines txt) i ->
  length (Py.readlines txt) <= i + 3 ->
  get_elastic_moduli self w = mkOut (Ok []) w1 [EvOpen "OUTCAR"].
Proof.
  intros Hc Hf [Hh Hn] Hl.
  rewrite (get_elastic_moduli_run self w w1 txt Hc Hf).
  rewrite (scan_first_header (Py.readlines txt) (Py.readlines txt) 0 i eq_refl Hh Hn).
  assert (S : Py.slice (0 + i + 3) (0 + i + 3 + 6) (Py.readlines txt) = []).
  { unfold Py.slice. rewrite drop_ge by lia. apply take_nil. }
  rewrite S. reflexivity.
Qed.

(** X18: how [get_elastic_moduli] fails.  An exception of
    [calculate] is the exception of the call, and OUTCAR is not opened;
    after [calculate], a missing OUTCAR gives the IOError of [open], and
    the first line of the table with a field after the first that is no
    number gives a ValueError. *)
Theorem get_elastic_moduli_fails (self : loc) (w w1 : World) :
  (forall e,
     calculate self w = (Raise e, w1) ->
     get_elastic_moduli self w = mkOut (Raise e) w1 []) /\
  (calculate self w = (Ok tt, w1) ->
   (file w1 "OUTCAR" = None ->
    get_elastic_moduli self w = mkOut (Raise (IOError "OUTCAR")) w1 [EvOpen "OUTCAR"]) /\
   (forall txt i good bad rest rows,
      file w1 "OUTCAR" = Some txt ->
      first_header (Py.readlines txt) i ->
      Py.slice (i + 3) (i + 9) (Py.readlines txt) = good ++ bad :: rest ->
      mapM (fun line => mapM float (tail (Py.split line))) good = Some rows ->
      mapM float (tail (Py.split bad)) = None ->
      get_elastic_moduli self w =
        mkOut (Raise (ValueError bad)) w1 [EvOpen "OUTCAR"])).
Proof.
  split.
  - intros e Hc. unfold get_elastic_moduli.
    assert (A : act (calculate self) w = mkOut (Raise e) w1 [])
      by (unfold act; rewrite Hc; reflexivity).
    rewrite (bind_eq _ _ _ _ _ _ A). reflexivity.
  - intros Hc. split.
    + intros Hf. unfold get_elastic_moduli.
      assert (A : act (calculate self) w = mkOut (Ok tt) w1 [])
        by (unfold act; rewrite Hc; reflexivity).
      rewrite (bind_eq _ _ _ _ _ _ A). cbv beta iota. rewrite prepend_nil.
      assert (R : read_file "OUTCAR" w1 =
                  mkOut (Raise (IOError "OUTCAR")) w1 [EvOpen "OUTCAR"])
        by (rewrite read_file_run, Hf; reflexivity).
      rewrite (bind_eq _ _ _ _ _ _ R). reflexivity.
    + intros txt i good bad rest rows Hf [Hh Hn] Hs Hg Hb.
      rewrite (get_elastic_moduli_run self w w1 txt Hc Hf).
      rewrite (scan_first_header (Py.readlines txt) (Py.readlines txt) 0 i eq_refl Hh Hn).
      replace (0 + i + 3 + 6) with (i + 9) by lia. cbn [Nat.add].
      rewrite Hs. cbn [require]. rewrite bind_ret.
      assert (F : for_each (good ++ bad :: rest) (fun line TEM =>
                    row <- require (mapM float (tail (Py.split line)))
                                   (ValueError line) ;;
                    ret (TEM ++ [row])) [] w1
                  = mkOut (Raise (ValueError bad)) w1 []).
      { rewrite for_each_app.
        rewrite (bind_eq _ _ _ _ _ _ (rows_loop good rows [] w1 Hg)).
        cbv beta iota. cbn [for_each]. rewrite Hb. reflexivity. }
      rewrite (bind_eq _ _ _ _ _ _ F). reflexivity.
Qed.

End Moduli.

(** * The properties on concrete directories *)

#[local] Existing Instance Double.collaborators.

(** A directory with inputs, results and neither jobid nor running: both
    calls end at line 318. *)
Lemma Jasp_observed_raises_witness :
  classify Double.no_args Double.observed = Observed /\
  res (Jasp Double.no_args Double.observed) = Raise (UnboundLocalError "self") /\
  final (Jasp Double.no_args Double.observed) = Double.observed /\
  hooks_fired (events (Jasp Double.no_args Double.observed)) = [] /\
  res (Jasp Double.no_args (final (Jasp Double.no_args Double.observed)))
  = Raise (UnboundLocalError "self") /\
  hooks_fired
    (events (Jasp Double.no_args (final (Jasp Double.no_args Double.observed))))
  = [].
Proof.
  split; [vm_compute; reflexivity|].
  apply (Jasp_observed_raises Double.no_args Double.observed).
  vm_compute; reflexivity.
Defined.

(** A directory with inputs, results and a running file but no jobid:
    the call ends at line 318, not at line 342. *)
Lemma Jasp_unrecognized_raises_witness :
  classify Double.no_args Double.stale = Unrecognized /\
  res (Jasp Double.no_args Double.stale) = Raise (UnboundLocalError "self") /\
  (forall msg, res (Jasp Double.no_args Double.stale)
               <> Raise (VaspUnknownState msg)) /\
  final (Jasp Double.no_args Double.stale) = Double.stale /\
  filter is_unlink (events (Jasp Double.no_args Double.stale)) = [].
Proof.
  split; [vm_compute; reflexivity|].
  apply (Jasp_unrecognized_raises Double.no_args Double.stale).
  vm_compute; reflexivity.
Defined.

(** An empty directory: the calculator is built, and the call ends at
    line 318. *)
Lemma Jasp_empty_raises_witness :
  classify Double.no_args Double.blank = Empty /\
  (forall c, res (Jasp Double.no_args Double.blank) <> Ok c) /\
  Jasp Double.no_args Double.blank =
  mkOut (Raise (UnboundLocalError "self"))
        (mkWorld (sys Double.blank)
                 (snd (Double.construct None "vasp" false (sys Double.blank)
                                        (heap Double.blank))))
        [called Double.blank; EvExists "INCAR"; EvLog msg_empty].
Proof.
  split; [vm_compute; reflexivity|].
  destruct (Jasp_empty_raises Double.no_args Double.blank) as (N & _ & R & _).
  { vm_compute; reflexivity. }
  split; [exact N|].
  apply (R 0); [vm_compute; reflexivity | reflexivity].
Defined.

(** A finished job with three hooks registered: they run in order on
    the first call, and none on the second. *)
Lemma Jasp_finished_hooks_once_witness :
  classify Double.no_args Double.finished = Finished /\
  file Double.finished "jobid" = Some Double.jobid_text /\
  hooks_fired (events (Jasp Double.no_args Double.finished))
  = [EvHook 7 1; EvHook 8 1; EvHook 9 1] /\
  res (Jasp Double.no_args Double.finished) = Raise (UnboundLocalError "self") /\
  hooks_fired
    (events (Jasp Double.no_args (final (Jasp Double.no_args Double.finished))))
  = [].
Proof.
  split; [vm_compute; reflexivity|]. split; [vm_compute; reflexivity|].
  destruct (Jasp_finished_hooks_once Double.no_args Double.finished
              Double.jobid_text)
    as (probes & _ & _ & _ & Hacc & Hsecond);
    [vm_compute; reflexivity | vm_compute; reflexivity
     | intros E; vm_compute in E; discriminate |].
  assert (C : exists cv,
             calcs (heap (final (load_finished Double.no_args
                                   (without "jobid" Double.finished)))) !! 1
             = Some cv /\ Calc.post_run_hooks cv = Some Double.the_hooks)
    by (eexists; split; [vm_compute; reflexivity | reflexivity]).
  destruct C as (cv & Hcv & Hh).
  assert (K : hooks_keep_list 1).
  { intros h w. cbn [run_hook Double.collaborators]. unfold Double.hook_body.
    destruct (decide (h = 13)); reflexivity. }
  destruct (Hacc true 1 cv) as (_ & Hf & _ & Hr & _);
    [vm_compute; reflexivity | vm_compute; reflexivity | exact Hcv | exact K |].
  rewrite Hh in Hf, Hr. cbn [default] in Hf, Hr.
  split; [|split].
  - rewrite Hf. vm_compute. reflexivity.
  - rewrite Hr. vm_compute. reflexivity.
  - apply Hsecond. vm_compute. reflexivity.
Defined.

(** The sentence without its conditions fails twice.  In [Double.hollow],
    a finished job with an empty CONTCAR, the validator raises and the
    jobid file is gone all the same (line 90 deletes it).  In
    [Sample.no_xml] the validator returns, the results do not load, and
    no hook of any calculator has run. *)
Lemma Jasp_finished_hooks_counterexample :
  ~ (forall (C : Collaborators) (a : Args) (w : World) (j : string),
       classify a w = Finished ->
       file w "jobid" = Some j ->
       present (final (Jasp a w)) "jobid" = false ->
       exists b,
         res (calculation_is_ok (Some (Py.before_dot (Py.readline j))) w) = Ok b) /\
  ~ (forall (C : Collaborators) (a : Args) (w : World) (j : string) (b : bool),
       classify a w = Finished ->
       file w "jobid" = Some j ->
       res (calculation_is_ok (Some (Py.before_dot (Py.readline j))) w) = Ok b ->
       exists c cv,
         calcs (heap (final (Jasp a w))) !! c = Some cv /\
         hooks_fired (events (Jasp a w))
         = map (fun h => EvHook h c) (default [] (Calc.post_run_hooks cv))).
Proof.
  split.
  - intros Claim.
    destruct (Claim Double.collaborators Double.no_args Double.hollow
                Double.jobid_text) as [b E]; try (vm_compute; reflexivity).
    vm_compute in E. discriminate.
  - intros Claim.
    destruct (Claim Sample.strict Double.no_args Sample.no_xml Double.jobid_text true)
      as (c & cv & Hc & Hf); try (vm_compute; reflexivity).
    assert (A : map_Forall (fun (_ : loc) v => Calc.post_run_hooks v = Some Double.the_hooks)
                  (calcs (heap (final (@Jasp Sample.strict Double.no_args Sample.no_xml))))).
    { apply map_Forall_to_list. vm_compute. repeat constructor. }
    rewrite (A c cv Hc) in Hf. vm_compute in Hf. discriminate.
Qed.

(** A finished job whose CONTCAR is empty: CONTCAR and jobid are
    removed, and the directory is then classified as configured. *)
Lemma empty_contcar_collected_witness :
  file Double.hollow "CONTCAR" = Some "" /\
  file Double.hollow "jobid" = Some Double.jobid_text /\
  res (calculation_is_ok (Some "123") Double.hollow)
  = Raise (VaspNotFinished msg_empty_contcar) /\
  file (final (calculation_is_ok (Some "123") Double.hollow)) "CONTCAR" = None /\
  file (final (calculation_is_ok (Some "123") Double.hollow)) "jobid" = None /\
  classify Double.no_args (final (calculation_is_ok (Some "123") Double.hollow))
  = Configured.
Proof.
  split; [vm_compute; reflexivity|]. split; [vm_compute; reflexivity|].
  destruct (empty_contcar_collected (Some "123") Double.hollow Double.jobid_text)
    as (R & _ & Hf & Hn); [vm_compute; reflexivity | vm_compute; reflexivity |].
  split; [exact R|]. split; [|split].
  - rewrite Hf. reflexivity.
  - rewrite Hf. reflexivity.
  - apply Hn; vm_compute; reflexivity.
Defined.

(** A log of two lines that was cut short: the message carries both
    of them, whatever the non-empty CONTCAR. *)
Lemma no_marker_rejected_witness :
  file Double.cut "CONTCAR" = Some ("Cu" +:+ Py.nl) /\
  "Cu" +:+ Py.nl <> "" /\
  file Double.cut "OUTCAR" = Some Double.log_cut /\
  last (Py.readlines Double.log_cut) = Some ("interrupted" +:+ Py.nl) /\
  Py.contains marker ("interrupted" +:+ Py.nl) = false /\
  res (calculation_is_ok None Double.cut) =
    Raise (VaspNotFinished
             (Py.join ([Py.nl] ++ ["Last 20 lines of OUTCAR:" +:+ Py.nl]
                        ++ Py.lastn 20 (Py.readlines Double.log_cut) ++ [rule]))) /\
  forall c', c' <> "" ->
    res (calculation_is_ok None (put_file "CONTCAR" c' Double.cut)) =
    res (calculation_is_ok None Double.cut).
Proof.
  split; [vm_compute; reflexivity|]. split; [discriminate|].
  split; [vm_compute; reflexivity|]. split; [vm_compute; reflexivity|].
  split; [vm_compute; reflexivity|].
  destruct (no_marker_rejected None Double.cut ("Cu" +:+ Py.nl) Double.log_cut
              ("interrupted" +:+ Py.nl))
    as (output & E & R & _ & I);
    [vm_compute; reflexivity | discriminate | vm_compute; reflexivity
     | vm_compute; reflexivity | vm_compute; reflexivity |].
  cbn in E. injection E as <-. split; [exact R | exact I].
Defined.

(** C5 as it is stated does not hold: with an empty CONTCAR the
    validator raises before it opens OUTCAR, and the message of its
    exception has none of the lines of the log. *)
Lemma no_marker_empty_contcar_counterexample :
  ~ (forall (jobid : option string) (w : World) (c o l : string),
       file w "CONTCAR" = Some c ->
       file w "OUTCAR" = Some o ->
       last (Py.readlines o) = Some l ->
       Py.contains marker l = false ->
       exists m, res (calculation_is_ok jobid w) = Raise (VaspNotFinished m) /\
                 forall line, line ∈ Py.lastn 20 (Py.readlines o) ->
                              Py.contains line m = true).
Proof.
  intros Claim.
  destruct (Claim None Double.hollow "" Double.log_cut ("interrupted" +:+ Py.nl))
    as (m & E & L); try (vm_compute; reflexivity).
  vm_compute in E. injection E as <-.
  specialize (L ("interrupted" +:+ Py.nl)).
  assert (In : "interrupted" +:+ Py.nl ∈ Py.lastn 20 (Py.readlines Double.log_cut))
    by (vm_compute; right; left).
  specialize (L In). vm_compute in L. discriminate.
Qed.

(** Entering, from /home, the directory of a job whose log was cut
    short: the exception leaves the process in /calc. *)
Lemma with_jasp_enter_not_restored_witness :
  cwd (sys Double.cut_from_home) = "/home" /\
  classify Double.no_args (entered "/calc" Double.cut_from_home) = Finished /\
  file (entered "/calc" Double.cut_from_home) "jobid" = Some Double.jobid_text /\
  res (with_jasp "/calc" Double.no_args (fun c => ret c) Double.cut_from_home)
  = Raise (VaspNotFinished
             (Py.join ([Py.nl] ++ ["Last 20 lines of OUTCAR:" +:+ Py.nl]
                        ++ Py.readlines Double.log_cut ++ [rule]))) /\
  cwd (sys (final (with_jasp "/calc" Double.no_args (fun c => ret c)
                             Double.cut_from_home))) = "/calc".
Proof.
  split; [reflexivity|]. split; [vm_compute; reflexivity|].
  split; [vm_compute; reflexivity|].
  destruct (with_jasp_enter_not_restored "/calc" Double.no_args
              (fun c => ret c) Double.cut_from_home) as (_ & V & _).
  apply (V Double.jobid_text); vm_compute; reflexivity.
Defined.

(** A queued job, no ase-sort.dat, no [atoms] argument: [len(atoms)]
    raises. *)
Lemma Jasp_queued_needs_atoms_witness :
  classify Double.no_args Double.waiting = Queued /\
  present Double.waiting "ase-sort.dat" = false /\
  res (queued_setup Double.no_args Double.waiting) = Ok 0 /\
  res (has_images 0 (final (queued_setup Double.no_args Double.waiting)))
  = Ok false /\
  res (Jasp Double.no_args Double.waiting) = Raise no_len /\
  (forall c, res (Jasp Double.no_args Double.waiting) <> Ok c).
Proof.
  split; [vm_compute; reflexivity|]. split; [vm_compute; reflexivity|].
  split; [vm_compute; reflexivity|]. split; [vm_compute; reflexivity|].
  destruct (Jasp_queued_needs_atoms Double.no_args Double.waiting 0)
    as (_ & N & _); try (vm_compute; reflexivity).
  destruct (N eq_refl) as [Hn Ht]. split; [|exact Hn].
  eapply Ht. vm_compute. reflexivity.
Defined.

(** C10 as it is stated does not hold for an NEB: the branch of the
    queued job skips lines 224-247 when INCAR sets [images], and the call
    returns a calculator without the [atoms] argument. *)
Lemma Jasp_queued_neb_counterexample :
  ~ (forall (C : Collaborators) (a : Args) (w : World),
       classify a w = Queued ->
       present w "ase-sort.dat" = false ->
       atoms a = None ->
       forall c, res (Jasp a w) <> Ok c).
Proof.
  intros Claim.
  apply (Claim Double.collaborators Double.no_args Double.waiting_neb) with (c := 0);
    vm_compute; reflexivity.
Qed.




#[local] Existing Instance Double.rationals.

(** An OUTCAR with the header on its second line and six rows of two
    columns. *)
Lemma get_elastic_moduli_matrix_witness :
  calculate 0 Double.with_moduli = (Ok tt, Double.with_moduli) /\
  file Double.with_moduli "OUTCAR" = Some Double.moduli_log /\
  first_header (Py.readlines Double.moduli_log) 1 /\
  res (get_elastic_moduli 0 Double.with_moduli) =
  Ok (map (map (fun x => mul x tenth))
          (map (map QArith_base.inject_Z)
               [[2803; 1622]; [1622; 2803]; [1622; 1622];
                [0; 0]; [0; 0]; [0; 0]]%Z)) /\
  length (Py.slice (1 + 3) (1 + 9) (Py.readlines Double.moduli_log)) = 6.
Proof.
  assert (Hh : first_header (Py.readlines Double.moduli_log) 1).
  { split.
    - eexists. split; vm_compute; reflexivity.
    - intros j l Hj. assert (j = 0) as -> by lia.
      vm_compute. intros [= <-]. reflexivity. }
  split; [reflexivity|]. split; [vm_compute; reflexivity|]. split; [exact Hh|].
  destruct (get_elastic_moduli_matrix 0 Double.with_moduli Double.with_moduli
              Double.moduli_log) as [M _];
    [reflexivity | vm_compute; reflexivity |].
  destruct (M 1 (map (map QArith_base.inject_Z)
                     [[2803; 1622]; [1622; 2803]; [1622; 1622];
                      [0; 0]; [0; 0]; [0; 0]]%Z) Hh) as [R L];
    [vm_compute; reflexivity | reflexivity |].
  split; [exact R|]. apply L. vm_compute. lia.
Defined.

(** A header line alone does not give the matrix.  With a field that is
    no number ([Sample.moduli_stars]) the function raises after
    [calculate] has returned, and with a log that ends at the header
    ([Sample.moduli_cut]) it returns a matrix without rows. *)
Lemma get_elastic_moduli_counterexample :
  ~ (forall (C : Collaborators) (F : Float64) (self : loc) (w w1 : World)
            (txt : string) (i : nat),
       calculate self w = (Ok tt, w1) ->
       file w1 "OUTCAR" = Some txt ->
       first_header (Py.readlines txt) i ->
       exists m, res (get_elastic_moduli self w) = Ok m) /\
  ~ (forall (C : Collaborators) (F : Float64) (self : loc) (w w1 : World)
            (txt : string) (i : nat) (m : list (list f64)),
       calculate self w = (Ok tt, w1) ->
       file w1 "OUTCAR" = Some txt ->
       first_header (Py.readlines txt) i ->
       res (get_elastic_moduli self w) = Ok m ->
       length m = 6).
Proof.
  split.
  - intros Claim.
    destruct (Claim Double.collaborators Double.rationals 0 Sample.moduli_stars
                Sample.moduli_stars
                (header +:+ Py.nl +:+ "a" +:+ Py.nl +:+ "b" +:+ Py.nl
                 +:+ " XX 1 2" +:+ Py.nl +:+ " YY ** 2" +:+ Py.nl) 0)
      as [m E]; [reflexivity | vm_compute; reflexivity | |].
    + split.
      * eexists. split; vm_compute; reflexivity.
      * intros j l Hj. lia.
    + vm_compute in E. discriminate.
  - intros Claim.
    assert (L : length (@nil (list (@f64 Double.rationals))) = 6).
    { apply (Claim Double.collaborators Double.rationals 0 Sample.moduli_cut
               Sample.moduli_cut ("head" +:+ Py.nl +:+ header +:+ Py.nl) 1);
        [reflexivity | vm_compute; reflexivity | | vm_compute; reflexivity].
      split.
      - eexists. split; vm_compute; reflexivity.
      - intros j l Hj. assert (j = 0) as -> by lia.
        vm_compute. intros [= <-]. reflexivity. }
    discriminate L.
Qed.

(** ** The further properties on concrete directories *)

(** A property of the names of a directory, checked on the list of them. *)
Lemma every_file (P : string -> Prop) (w : World) :
  Forall P (elements (dom (files (sys w)))) ->
  forall g, is_Some (file w g) -> P g.
Proof.
  intros F g Hg. rewrite Forall_forall in F. apply F.
  apply elem_of_elements, elem_of_dom. exact Hg.
Qed.

(** A finished job with a complete log. *)
Lemma calculation_is_ok_returns_iff_witness :
  res (calculation_is_ok None Double.observed) = Ok true /\
  final (calculation_is_ok None Double.observed) = Double.observed.
Proof.
  destruct (calculation_is_ok_returns_iff None Double.observed) as [[_ R] F].
  destruct R as [b E].
  { exists ("Cu" +:+ Py.nl), Double.log_ok, (" " +:+ marker +:+ ": 3" +:+ Py.nl).
    repeat split; try discriminate; vm_compute; reflexivity. }
  destruct (F b E) as [-> Fw]. split; assumption.
Defined.

(** An empty directory, results without a log, and an empty log. *)
Lemma calculation_is_ok_unreadable_witness :
  res (calculation_is_ok None Double.blank) = Raise (IOError "CONTCAR") /\
  res (calculation_is_ok None Sample.no_log) = Raise (IOError "OUTCAR") /\
  res (calculation_is_ok None Sample.empty_log) = Raise IndexError.
Proof.
  split; [|split].
  - apply (calculation_is_ok_unreadable None Double.blank). reflexivity.
  - eapply (calculation_is_ok_unreadable None Sample.no_log);
      [vm_compute; reflexivity | discriminate | vm_compute; reflexivity].
  - eapply (calculation_is_ok_unreadable None Sample.empty_log);
      [vm_compute; reflexivity | discriminate | vm_compute; reflexivity].
Defined.

(** An empty CONTCAR and no jobid file. *)
Lemma calculation_is_ok_empty_unlink_fails_witness :
  res (calculation_is_ok None Sample.hollow_observed) = Raise (OSError "jobid") /\
  file (final (calculation_is_ok None Sample.hollow_observed)) "CONTCAR" = None /\
  res (calculation_is_ok None (final (calculation_is_ok None Sample.hollow_observed)))
  = Raise (IOError "CONTCAR").
Proof.
  destruct (calculation_is_ok_empty_unlink_fails None Sample.hollow_observed)
    as (R & F & N); [vm_compute; reflexivity | vm_compute; reflexivity |].
  split; [exact R|]. split; [|apply N].
  rewrite F, file_without. rewrite decide_True by reflexivity. reflexivity.
Defined.

(** Job 123, without and with a file [vasp.o123]. *)
Lemma job_output_captures_witness :
  job_output (Some "123") Double.cut = mkOut (Ok [Py.nl]) Double.cut [EvListdir] /\
  job_output (Some "123") Sample.with_job_output =
  mkOut (Ok (captured "123" "vasp.o123" ("killed" +:+ Py.nl)))
        Sample.with_job_output [EvListdir; EvOpen "vasp.o123"].
Proof.
  split.
  - apply (job_output_captures "123" Double.cut).
    apply every_file. vm_compute. repeat constructor.
  - apply (job_output_captures "123" Sample.with_job_output);
      [vm_compute; reflexivity | vm_compute; reflexivity |].
    apply (every_file (fun g => Py.contains ("o" +:+ "123") g = true -> g = "vasp.o123")).
    vm_compute. repeat constructor; intros; try discriminate; reflexivity.
Defined.

(** A queued job with a WAVECAR. *)
Lemma Jasp_returns_only_queued_witness :
  res (Jasp Double.with_atoms Sample.queued) = Ok 0 /\
  present Sample.queued "jobid" = true /\
  in_queue (sys Sample.queued) = true /\
  present Sample.queued "WAVECAR" = true /\
  EvUnlink "WAVECAR" ∈ events (Jasp Double.with_atoms Sample.queued).
Proof.
  assert (E : res (Jasp Double.with_atoms Sample.queued) = Ok 0)
    by (vm_compute; reflexivity).
  split; [exact E|].
  destruct (Jasp_returns_only_queued Double.with_atoms Sample.queued 0 E)
    as (_ & _ & J & Q & _ & W & U).
  repeat split; assumption.
Defined.

(** The same job, called with [keep_wavecar=True]. *)
Lemma Jasp_queued_unknown_state_witness :
  classify Sample.keeping_wavecar Sample.queued = Queued /\
  res (Jasp Sample.keeping_wavecar Sample.queued) =
    Raise (VaspUnknownState (msg_unknown +:+ "/calc")) /\
  present (final (Jasp Sample.keeping_wavecar Sample.queued)) "WAVECAR" = true /\
  present (final (Jasp Sample.keeping_wavecar Sample.queued)) "CHGCAR" = false.
Proof.
  assert (HQ : classify Sample.keeping_wavecar Sample.queued = Queued)
    by (vm_compute; reflexivity).
  split; [exact HQ|].
  destruct (Jasp_queued_unknown_state Sample.keeping_wavecar Sample.queued
              (mkLocals (Some 0) (Some 0) (Some 0)) HQ)
    as (self & Hs & K); [vm_compute; reflexivity|].
  injection Hs as <-.
  assert (C : exists cv,
             calcs (heap (final (queued_branch Sample.keeping_wavecar Sample.queued)))
             !! 0 = Some cv /\
             Calc.keep_chgcar cv = Some false /\ Calc.keep_wavecar cv = Some true)
    by (eexists; split; [vm_compute; reflexivity | split; reflexivity]).
  destruct C as (cv & Hc & Hkc & Hkw).
  destruct (K cv false true Hc Hkc Hkw) as (R & _ & S); [left; reflexivity|].
  split; [exact R|].
  rewrite !(present_sys _ _ _ S). split; vm_compute; reflexivity.
Defined.

(** The same job, whose calculator does not keep CHGCAR: INCAR and
    jobid are as they were, WAVECAR and CHGCAR are gone. *)
Lemma Jasp_returns_frame_witness :
  res (Jasp Double.with_atoms Sample.queued) = Ok 0 /\
  file Sample.queued "CHGCAR" = Some "c" /\
  file (final (Jasp Double.with_atoms Sample.queued)) "WAVECAR" = None /\
  file (final (Jasp Double.with_atoms Sample.queued)) "CHGCAR" = None /\
  file (final (Jasp Double.with_atoms Sample.queued)) "INCAR" = Some "ENCUT = 400" /\
  file (final (Jasp Double.with_atoms Sample.queued)) "jobid" = Some Double.jobid_text.
Proof.
  assert (E : res (Jasp Double.with_atoms Sample.queued) = Ok 0)
    by (vm_compute; reflexivity).
  split; [exact E|]. split; [vm_compute; reflexivity|].
  destruct (Jasp_returns_frame Double.with_atoms Sample.queued 0 E)
    as (cv & kc & Hcv & Hkc & _ & _ & _ & W & C & F); [vm_compute; reflexivity|].
  split; [exact W|].
  split.
  - vm_compute in Hcv. injection Hcv as <-.
    vm_compute in Hkc. injection Hkc as <-. exact C.
  - split; (rewrite F by discriminate; vm_compute; reflexivity).
Defined.

(** [Jasp(spring=5)]: [calc.set] does not know the keyword, and
    [neb_initialize] takes over. *)
Lemma Jasp_spring_never_returns_witness :
  events (Jasp Sample.with_spring Double.observed) =
    [called Double.observed; EvLog msg_neb] /\
  res (Jasp Sample.with_spring Double.observed) = Raise (UnboundLocalError "self").
Proof.
  destruct (Jasp_spring_never_returns Sample.with_spring Double.observed)
    as (Ev & _ & _ & _ & S); [reflexivity|].
  split; [exact Ev|].
  edestruct S as [R _]; [vm_compute; reflexivity | vm_compute; reflexivity |].
  rewrite R. vm_compute. reflexivity.
Defined.

(** Inputs only, no job. *)
Lemma Jasp_reads_only_witness :
  classify Double.no_args Sample.configured = Configured /\
  sys (final (Jasp Double.no_args Sample.configured)) = sys Sample.configured /\
  filter is_unlink (events (Jasp Double.no_args Sample.configured)) = [].
Proof.
  split; [vm_compute; reflexivity|].
  apply (Jasp_reads_only Double.no_args Sample.configured).
  right. left. vm_compute. reflexivity.
Defined.

(** The calculator of the directories with a sort file. *)
Lemma sorting_calc (txt : string) :
  exists cv, calcs (heap (Sample.sorting txt)) !! 0 = Some cv.
Proof. eexists. vm_compute. reflexivity. Qed.

(** A sort file of two lines. *)
Lemma read_sort_parses_witness :
  let o := read_sort 0 (Sample.sorting ("1 0" +:+ Py.nl +:+ "0 1" +:+ Py.nl)) in
  res o = Ok tt /\
  (fun cv => (Calc.sort cv, Calc.resort cv)) <$> calcs (heap (final o)) !! 0
  = Some (Some [1; 0]%Z, Some [0; 1]%Z).
Proof.
  destruct (sorting_calc ("1 0" +:+ Py.nl +:+ "0 1" +:+ Py.nl)) as [cv Hc].
  cbv zeta.
  rewrite (read_sort_parses 0 cv _ ("1 0" +:+ Py.nl +:+ "0 1" +:+ Py.nl)
             [(1, 0); (0, 1)]%Z Hc) by (vm_compute; reflexivity).
  split; [reflexivity|].
  unfold put_calc. cbn [final heap calcs]. rewrite lookup_insert_eq. reflexivity.
Defined.

(** A sort file with a blank line, and one with a letter. *)
Lemma read_sort_bad_line_witness :
  res (read_sort 0 (Sample.sorting ("1 0" +:+ Py.nl +:+ Py.nl))) = Raise IndexError /\
  res (read_sort 0 (Sample.sorting ("1 0" +:+ Py.nl +:+ "x 1" +:+ Py.nl)))
  = Raise (ValueError "x").
Proof.
  split.
  - destruct (sorting_calc ("1 0" +:+ Py.nl +:+ Py.nl)) as [cv Hc].
    destruct (read_sort_bad_line 0 cv (Sample.sorting ("1 0" +:+ Py.nl +:+ Py.nl))
                ("1 0" +:+ Py.nl +:+ Py.nl) ["1 0" +:+ Py.nl] [] Py.nl [(1, 0)]%Z Hc)
      as (B & _); [vm_compute; reflexivity | vm_compute; reflexivity
                   | vm_compute; reflexivity |].
    apply B. vm_compute. reflexivity.
  - destruct (sorting_calc ("1 0" +:+ Py.nl +:+ "x 1" +:+ Py.nl)) as [cv Hc].
    destruct (read_sort_bad_line 0 cv
                (Sample.sorting ("1 0" +:+ Py.nl +:+ "x 1" +:+ Py.nl))
                ("1 0" +:+ Py.nl +:+ "x 1" +:+ Py.nl) ["1 0" +:+ Py.nl] []
                ("x 1" +:+ Py.nl) [(1, 0)]%Z Hc)
      as (_ & _ & V & _); [vm_compute; reflexivity | vm_compute; reflexivity
                           | vm_compute; reflexivity |].
    eapply V; vm_compute; reflexivity.
Defined.

(** The queued job, entered from [/home]; a body that raises, and one that returns. *)
Lemma with_jasp_exit_witness :
  cwd (sys Sample.queued_from_home) = "/home" /\
  res (with_jasp "/calc" Double.with_atoms (fun _ => @raise unit (Failure "boom"))
         Sample.queued_from_home) = Raise (Failure "boom") /\
  cwd (sys (final (with_jasp "/calc" Double.with_atoms
                     (fun _ => @raise unit (Failure "boom")) Sample.queued_from_home)))
  = "/home" /\
  res (with_jasp "/calc" Double.with_atoms (fun c => ret c) Sample.queued_from_home)
  = Ok (Some 0).
Proof.
  split; [reflexivity|].
  assert (E : res (jasp__enter__ (mk_jasp "/home" "/calc" Double.with_atoms)
                     Sample.queued_from_home) = Ok 0) by (vm_compute; reflexivity).
  split; [|split].
  - destruct (with_jasp_exit "/calc" Double.with_atoms
                (fun _ => @raise unit (Failure "boom")) Sample.queued_from_home 0 E)
      as [[R _] _]; [vm_compute; eauto|]. exact R.
  - destruct (with_jasp_exit "/calc" Double.with_atoms
                (fun _ => @raise unit (Failure "boom")) Sample.queued_from_home 0 E)
      as [(_ & C & _) _]; [vm_compute; eauto|]. exact C.
  - destruct (with_jasp_exit "/calc" Double.with_atoms
                (fun c => ret c) Sample.queued_from_home 0 E)
      as [[R _] _]; [vm_compute; eauto|]. exact R.
Defined.

(** Entering [/new]. *)
Lemma with_jasp_new_directory_witness :
  dirs (sys Double.cut_from_home) !! "/new" = None /\
  res (with_jasp "/new" Double.no_args (fun c => ret c) Double.cut_from_home)
  = Raise (UnboundLocalError "self") /\
  cwd (sys (final (with_jasp "/new" Double.no_args (fun c => ret c)
                     Double.cut_from_home))) = "/new" /\
  dirs (sys (final (with_jasp "/new" Double.no_args (fun c => ret c)
                      Double.cut_from_home))) !! "/new" = Some ∅.
Proof.
  split; [vm_compute; reflexivity|].
  destruct (with_jasp_new_directory "/new" Double.no_args (fun c => ret c)
              Double.cut_from_home) as (_ & S & R);
    [reflexivity | reflexivity | reflexivity | vm_compute; reflexivity
     | vm_compute; reflexivity |].
  split; [|split].
  - eapply R; [reflexivity | vm_compute; reflexivity].
  - rewrite S. reflexivity.
  - rewrite S. cbn [dirs]. apply lookup_insert_eq.
Defined.

(** A directory with results, one without files, and a relative path
    that leads nowhere. *)
Lemma isavaspdir_answers_witness :
  normalised "/calc" = true /\ normalised "/home" = true /\
  normalised "calc" = true /\
  res (isavaspdir "/calc" Double.cut_from_home) = Ok true /\
  res (isavaspdir "/home" Double.cut_from_home) = Ok false /\
  res (isavaspdir "calc" Double.cut_from_home) = Ok false.
Proof.
  split; [reflexivity|]. split; [reflexivity|]. split; [reflexivity|].
  split; [|split].
  - destruct (isavaspdir_answers "/calc" Double.cut_from_home eq_refl)
      as (_ & b & -> & Hb).
    f_equal. apply Hb. vm_compute. eauto 10.
  - destruct (isavaspdir_answers "/home" Double.cut_from_home eq_refl)
      as (_ & b & -> & Hb).
    f_equal. destruct b; [|reflexivity].
    destruct Hb as [Hb _]. destruct (Hb eq_refl) as [[c Hc] _].
    vm_compute in Hc. discriminate.
  - destruct (isavaspdir_answers "calc" Double.cut_from_home eq_refl)
      as (_ & b & -> & Hb).
    f_equal. destruct b; [|reflexivity].
    destruct Hb as [Hb _]. destruct (Hb eq_refl) as [[c Hc] _].
    vm_compute in Hc. discriminate.
Defined.


(** The table of six rows and two columns. *)
Lemma get_elastic_moduli_shape_witness :
  exists m, res (get_elastic_moduli 0 Double.with_moduli) = Ok m /\
            length m <= 6 /\ rectangular m = true.
Proof.
  eexists. split; [vm_compute; reflexivity|].
  eapply (get_elastic_moduli_shape 0 Double.with_moduli). vm_compute. reflexivity.
Defined.

(** A log whose last line is the header. *)
Lemma get_elastic_moduli_truncated_witness :
  get_elastic_moduli 0 Sample.moduli_cut =
  mkOut (Ok []) Sample.moduli_cut [EvOpen "OUTCAR"].
Proof.
  apply (get_elastic_moduli_truncated 0 Sample.moduli_cut Sample.moduli_cut
           ("head" +:+ Py.nl +:+ header +:+ Py.nl) 1);
    [reflexivity | vm_compute; reflexivity | | vm_compute; lia].
  split.
  - eexists. split; vm_compute; reflexivity.
  - intros j l Hj. assert (j = 0) as -> by lia.
    vm_compute. intros [= <-]. reflexivity.
Defined.

(** A [calculate] that fails, a directory without OUTCAR, and a table
    with stars in it. *)
Lemma get_elastic_moduli_fails_witness :
  @get_elastic_moduli Sample.failing _ 0 Double.with_moduli =
    mkOut (Raise (Failure "vasp")) Double.with_moduli [] /\
  get_elastic_moduli 0 Double.blank =
    mkOut (Raise (IOError "OUTCAR")) Double.blank [EvOpen "OUTCAR"] /\
  get_elastic_moduli 0 Sample.moduli_stars =
    mkOut (Raise (ValueError (" YY ** 2" +:+ Py.nl))) Sample.moduli_stars
          [EvOpen "OUTCAR"].
Proof.
  split; [|split].
  - apply (@get_elastic_moduli_fails Sample.failing _ 0 Double.with_moduli
             Double.with_moduli). reflexivity.
  - destruct (get_elastic_moduli_fails 0 Double.blank Double.blank) as [_ K].
    destruct (K eq_refl) as [N _]. apply N. vm_compute. reflexivity.
  - destruct (get_elastic_moduli_fails 0 Sample.moduli_stars Sample.moduli_stars)
      as [_ K].
    destruct (K eq_refl) as [_ V].
    apply (V (header +:+ Py.nl +:+ "a" +:+ Py.nl +:+ "b" +:+ Py.nl
              +:+ " XX 1 2" +:+ Py.nl +:+ " YY ** 2" +:+ Py.nl)
             0 [" XX 1 2" +:+ Py.nl] (" YY ** 2" +:+ Py.nl) []
             [[QArith_base.inject_Z 1; QArith_base.inject_Z 2]]);
      try (vm_compute; reflexivity).
    split.
    + eexists. split; vm_compute; reflexivity.
    + intros j l Hj. lia.
Defined.

(** A finished job without vasprun.xml. *)
Lemma Jasp_finished_load_fails_witness :
  classify Double.no_args Sample.no_xml = Finished /\
  res (@Jasp Sample.strict Double.no_args Sample.no_xml)
  = Raise (IOError "vasprun.xml") /\
  present (final (@Jasp Sample.strict Double.no_args Sample.no_xml)) "jobid" = false /\
  hooks_fired (events (@Jasp Sample.strict Double.no_args Sample.no_xml)) = [] /\
  hooks_fired
    (events (@Jasp Sample.strict Double.no_args
               (final (@Jasp Sample.strict Double.no_args Sample.no_xml)))) = [].
Proof.
  split; [vm_compute; reflexivity|].
  destruct (@Jasp_finished_load_fails Sample.strict Double.no_args Sample.no_xml
              Double.jobid_text true (IOError "vasprun.xml"))
    as (R & S & Hk & L); try (vm_compute; reflexivity).
  split; [exact R|]. split; [|split; [exact Hk | apply L]].
  rewrite (present_sys _ _ _ S). vm_compute. reflexivity.
Defined.
